(** * erp-constructora: progress ledger and approval / procurement workflow

    A shallow embedding of the parts of [src/App.jsx] that keep the
    progress ledger and drive the two workflows:

    - the foreman's daily-log form ([validateQuantity], [handleSubmit],
      [createDailyLog]);
    - the engineer's review of daily logs ([updateLogStatus],
      [handleApproveLog], [handleRejectLog]);
    - requisitions ([createRequisition], [updateRequisitionStatus],
      [handlePurchase], [handleConfirmReceived], the logistics lists);
    - the older daily-report form ([validateSubmission] and its
      [handleSubmit], which writes a report and then the partida progress).

    The backend (Supabase) is not part of the repository.  Every request the
    client sends is modelled, and the answer of the backend to it (accepted
    with a fresh id, or an error) is an input of the model.  A JavaScript
    number is an IEEE 754 binary64 value, here a primitive float: sums,
    differences, products and comparisons round and compare as they do in
    the code, and [parseFloat] gives the double nearest to the decimal it
    reads.  Line numbers are those of [src/App.jsx]. *)

From Stdlib Require Import ZArith Floats Ascii String QArith Lia.
From stdpp Require Import gmap strings list fin_maps.

Set Warnings "-clear-no-such-hyp".
Set Warnings "-inexact-float".

Local Open Scope string_scope.
Local Open Scope float_scope.

(** ** JavaScript numbers and [parseFloat] *)

Module JsNum.

Definition jsnum : Set := float.

(** [a > b]: false as soon as one of the two is NaN. *)
Definition gt (a b : jsnum) : bool := b <? a.

(** [a || 0] on a number: NaN and the two zeros are falsy. *)
Definition or_zero (a : jsnum) : jsnum :=
  if is_nan a || is_zero a then 0 else a.

(** What [JSON.stringify] puts on the wire, and so what the backend gives
    back: [null] for NaN and the infinities, [0] for both zeros, the
    number itself otherwise. *)
Definition to_json (a : jsnum) : option jsnum :=
  if is_nan a || is_infinity a then None
  else if is_zero a then Some 0
  else Some a.

(** [x + v] where [v] is a JSON number or [null]; [null] is converted
    to 0. *)
Definition add_json (x : jsnum) (v : option jsnum) : jsnum :=
  match v with
  | Some q => x + q
  | None => x + 0
  end.

(** The double of a whole number: the nearest one, ties to even. *)
Definition of_Z (n : Z) : jsnum := SF2Prim (binary_normalize prec emax n 0 false).

(** The whole part of a double; 0 for NaN and the infinities. *)
Definition to_Z (x : jsnum) : Z :=
  match Prim2SF x with
  | S754_finite s m e =>
      let v := match e with
               | Z0 => Zpos m
               | Zpos _ => (Zpos m * 2 ^ e)%Z
               | Zneg k => (Zpos m / 2 ^ Zpos k)%Z
               end in
      if s then (- v)%Z else v
  | _ => 0%Z
  end.

(** A whole number from 0 to [2^52 - 1], as a double. *)
Definition whole (x : jsnum) : Prop :=
  x = of_Z (to_Z x) /\ (0 <= to_Z x < 2 ^ 52)%Z.

Definition is_ws (c : ascii) : bool :=
  let n := nat_of_ascii c in
  (n =? 9)%nat || (n =? 10)%nat || (n =? 11)%nat || (n =? 12)%nat
  || (n =? 13)%nat || (n =? 32)%nat.

Fixpoint skip_ws (s : string) : string :=
  match s with
  | String c r => if is_ws c then skip_ws r else s
  | EmptyString => s
  end.

Definition digit_of (c : ascii) : option Z :=
  let n := nat_of_ascii c in
  if ((48 <=? n) && (n <=? 57))%nat then Some (Z.of_nat (n - 48)) else None.

(** Reads a run of decimal digits: value so far, number of digits read,
    and the rest of the string. *)
Fixpoint digits (acc : Z) (len : nat) (s : string) : Z * nat * string :=
  match s with
  | String c r =>
      match digit_of c with
      | Some d => digits (10 * acc + d)%Z (S len) r
      | None => (acc, len, s)
      end
  | EmptyString => (acc, len, s)
  end.

(** The exponent part [e], [e+] or [e-] followed by at least one digit;
    0 when there is none. *)
Definition exponent (s : string) : Z :=
  match s with
  | String c r =>
      if (Ascii.eqb c "e" || Ascii.eqb c "E")%char then
        match r with
        | String "-"%char r' => let '(v, _, _) := digits 0 0 r' in (- v)%Z
        | String "+"%char r' => let '(v, _, _) := digits 0 0 r' in v
        | _ => let '(v, _, _) := digits 0 0 r in v
        end
      else 0%Z
  | EmptyString => 0%Z
  end.

(** What a string reads as: the decimal [mantissa * 10 ^ exponent] with
    its sign, an infinity, or nothing. *)
Inductive literal : Type :=
| Decimal (neg : bool) (mantissa exponent : Z)
| Infinite (neg : bool)
| NotANumber.

(** The unsigned literal: digits, an optional fraction and an optional
    exponent; at least one digit is needed in the mantissa. *)
Definition unsigned_literal (s : string) : option (Z * Z) :=
  let '(i, ni, r) := digits 0 0 s in
  let '(m, nf, r') :=
    match r with
    | String "."%char t => digits i 0 t
    | _ => (i, 0%nat, r)
    end in
  if ((ni + nf)%nat =? 0)%nat then None
  else Some (m, (exponent r' - Z.of_nat nf)%Z).

Definition is_prefix (p s : string) : bool :=
  String.eqb (substring 0 (String.length p) s) p.

Definition signed (neg : bool) (s : string) : literal :=
  if is_prefix "Infinity" s then Infinite neg
  else
    match unsigned_literal s with
    | Some (m, e) => Decimal neg m e
    | None => NotANumber
    end.

(** Leading white space is skipped (the ASCII white space; strings are
    ASCII here), then the longest prefix that is a decimal literal or
    [Infinity] is read. *)
Definition read (s : string) : literal :=
  match skip_ws s with
  | String "-"%char r => signed true r
  | String "+"%char r => signed false r
  | r => signed false r
  end.

(** The double nearest to [num / den], ties to even: the quotient with
    enough bits and the place of the remainder, then one rounding. *)
Definition nearest (neg : bool) (num den : positive) : jsnum :=
  let '(q, e, l) := SFdiv_core_binary prec emax (Zpos num) 0 (Zpos den) 0 in
  SF2Prim (binary_round_aux prec emax neg q e l).

Definition round (l : literal) : jsnum :=
  match l with
  | NotANumber => PrimFloat.nan
  | Infinite neg => if neg then PrimFloat.neg_infinity else PrimFloat.infinity
  | Decimal neg m e =>
      match m with
      | Zpos p =>
          match e with
          | Zneg k => nearest neg p (10 ^ k)
          | _ => nearest neg (p * Z.to_pos (10 ^ e)) 1
          end
      | _ => if neg then PrimFloat.neg_zero else PrimFloat.zero
      end
  end.

(** [parseFloat]: anything that does not start with a number gives NaN. *)
Definition parseFloat (s : string) : jsnum := round (read s).

(** The decimal a literal stands for, before any rounding. *)
Definition decimal (l : literal) : option Q :=
  match l with
  | Decimal neg m e =>
      Some (Qred (inject_Z (if neg then - m else m) * Qpower (10 # 1) e)%Q)
  | _ => None
  end.

End JsNum.

Import JsNum.

(** ** Doubles, as the proofs read them *)

Module Binary64.

(** The double of a whole number, in the terms of the specification of
    binary64. *)
Definition norm (n : Z) : spec_float := binary_normalize prec emax n 0 false.

(** A mantissa with nothing shifted out of it. *)
Definition kept (m : Z) : shr_record := {| shr_m := m; shr_r := false; shr_s := false |}.

End Binary64.

(** ** What the client shows and what the backend answers *)

Inductive ToastKind : Type := success | error | warning.

(** The text of a toast or an alert.  [MayorMetrado] is the over-budget
    template of [validateQuantity] and [ExcedePresupuesto] the one of
    [validateSubmission], each kept with the numbers it prints. *)
Inductive Msg : Type :=
| Text (s : string)
| MayorMetrado (totalAfterNew : jsnum) (total_metrado : jsnum)
| ExcedePresupuesto (currentProgress progress maximo : jsnum).

Record Toast : Type := addToast { toast_message : Msg; toast_kind : ToastKind }.

(** The answer of the backend to an [insert(..).select().single()]. *)
Inductive InsertReply : Type :=
| InsertOk (id : string)
| InsertError (message : string).

(** The answer of the backend to an [update(..).eq('id', ..)]. *)
Inductive UpdateReply : Type :=
| UpdateOk
| UpdateError (message : string).

(** The React context a handler runs in: the signed-in user, the selected
    project and the clock, as [new Date().toISOString()] and as the digits
    of [Date.now()]. *)
Record Ctx : Type := {
  user_id : string;
  currentProject_id : string;
  now : string;
  now_ms : string
}.

(** A string is truthy when it is not empty. *)
Definition truthy (s : string) : bool := negb (String.eqb s "").

(** ** Daily logs: the foreman's form and the engineer's review *)

Module BoqItem.
Record t : Type := mk {
  id : string;
  code : string;
  total_metrado : jsnum;
  unit_price : jsnum
}.
End BoqItem.

Record LaborRow : Type := { role : string; count : string; labor_hours : string }.
Record MaterialRow : Type := { mat_name : string; qty : string; mat_unit : string }.
Record MachineryRow : Type := { mach_name : string; mach_hours : string }.

Module DailyLog.
Record t : Type := mk {
  id : string;
  project_id : string;
  boq_item_id : string;
  foreman_id : string;
  log_date : string;
  quantity_executed : option jsnum;
  labor_json : list LaborRow;
  materials_json : list MaterialRow;
  machinery_json : list MachineryRow;
  evidence_urls : list string;
  notes : string;
  status : string;
  reviewed_by : option string;
  reviewed_at : option string;
  rejection_reason : option string
}.
End DailyLog.

(** The state of the daily-log form ([formData] of the foreman module). *)
Record FormData : Type := {
  boqItemId : string;
  date : string;
  quantityExecuted : string;
  form_notes : string;
  labor : list LaborRow;
  materials : list MaterialRow;
  machinery : list MachineryRow
}.

(** The argument [logData] of [createDailyLog]. *)
Record LogData : Type := {
  ld_boqItemId : string;
  ld_date : string;
  ld_quantityExecuted : jsnum;
  ld_notes : string;
  ld_labor : list LaborRow;
  ld_materials : list MaterialRow;
  ld_machinery : list MachineryRow
}.

(** The result of [validateQuantity]: [{ valid, message?, remaining? }]. *)
Record Validation : Type := {
  valid : bool;
  message : option Msg;
  remaining : option jsnum
}.

Module Ledger.

(** [dailyLogs.filter(l => l.boq_item_id === id && l.status === st)
             .reduce((sum, l) => sum + l.quantity_executed, 0)]
    (lines 3376-3382, once with ['approved'] and once with ['pending']). *)
Definition qty_with_status (st : string) (dailyLogs : list DailyLog.t)
           (id : string) : jsnum :=
  fold_left (fun sum l => add_json sum (DailyLog.quantity_executed l))
    (List.filter
       (fun l => String.eqb (DailyLog.boq_item_id l) id
                 && String.eqb (DailyLog.status l) st)
       dailyLogs)
    0.

Definition approvedQty := qty_with_status "approved".
Definition pendingQty := qty_with_status "pending".

(** [validateQuantity] (lines 3370-3395), on the [boqItems] and
    [dailyLogs] the client holds. *)
Definition validateQuantity (boqItems : list BoqItem.t)
           (dailyLogs : list DailyLog.t) (formData : FormData) : Validation :=
  if negb (truthy (boqItemId formData)) || negb (truthy (quantityExecuted formData))
  then {| valid := true; message := None; remaining := None |}
  else
    match List.find (fun b => String.eqb (BoqItem.id b) (boqItemId formData)) boqItems with
    | None =>
        {| valid := false; message := Some (Text "Partida no encontrada");
           remaining := None |}
    | Some boqItem =>
        let approvedQty := approvedQty dailyLogs (boqItemId formData) in
        let pendingQty := pendingQty dailyLogs (boqItemId formData) in
        let newQty := parseFloat (quantityExecuted formData) in
        let totalAfterNew := approvedQty + pendingQty + newQty in
        if gt totalAfterNew (BoqItem.total_metrado boqItem) then
          {| valid := false;
             message := Some (MayorMetrado totalAfterNew (BoqItem.total_metrado boqItem));
             remaining := None |}
        else
          {| valid := true; message := None;
             remaining := Some (BoqItem.total_metrado boqItem - totalAfterNew) |}
    end.

(** [createDailyLog] (lines 2641-2677): the optional upload, then one
    insert.  [upload] is
    what [uploadEvidence] returned (a public URL, or [null] when the upload
    failed) and [reply] is the backend's answer to the insert.  The result
    is the table afterwards and either the row ([inl]) or the thrown error
    ([inr]). *)
Definition createDailyLog (ctx : Ctx) (logData : LogData)
           (evidenceFile : option string) (upload : option string)
           (reply : InsertReply) (daily_logs : list DailyLog.t)
  : list DailyLog.t * (DailyLog.t + string) :=
  let evidenceUrl :=
    match evidenceFile with
    | Some _ => upload
    | None => None
    end in
  match reply with
  | InsertOk new_id =>
      let data :=
        DailyLog.mk new_id (currentProject_id ctx) (ld_boqItemId logData)
          (user_id ctx) (ld_date logData)
          (to_json (ld_quantityExecuted logData))
          (ld_labor logData) (ld_materials logData) (ld_machinery logData)
          (match evidenceUrl with Some u => [u] | None => [] end)
          (ld_notes logData) "pending" None None None in
      ((daily_logs ++ [data])%list, inl data)
  | InsertError m => (daily_logs, inr m)
  end.

Definition emptyForm (today : string) : FormData :=
  {| boqItemId := ""; date := today; quantityExecuted := ""; form_notes := "";
     labor := []; materials := []; machinery := [] |}.

(** What [handleSubmit] (lines 3401-3441) leaves behind: the table, the
    toasts shown, and the form with its selected file.  It does not touch
    [dailyLogs]: only the realtime callback does. *)
Record SubmitResult : Type := {
  table : list DailyLog.t;
  toasts : list Toast;
  form : FormData;
  file : option string
}.

Definition handleSubmit (ctx : Ctx) (boqItems : list BoqItem.t)
           (dailyLogs : list DailyLog.t) (formData : FormData)
           (evidenceFile : option string) (upload : option string)
           (reply : InsertReply) (daily_logs : list DailyLog.t) : SubmitResult :=
  let validation := validateQuantity boqItems dailyLogs formData in
  if negb (valid validation) then
    {| table := daily_logs;
       toasts := match message validation with
                 | Some m => [addToast m error]
                 | None => []
                 end;
       form := formData; file := evidenceFile |}
  else
    match createDailyLog ctx
            {| ld_boqItemId := boqItemId formData;
               ld_date := date formData;
               ld_quantityExecuted := parseFloat (quantityExecuted formData);
               ld_notes := form_notes formData;
               ld_labor := labor formData;
               ld_materials := materials formData;
               ld_machinery := machinery formData |}
            evidenceFile upload reply daily_logs with
    | (tbl, inl _) =>
        {| table := tbl;
           toasts := [addToast (Text "Reporte enviado correctamente") success];
           form := emptyForm (substring 0 10 (now ctx)); file := None |}
    | (tbl, inr m) =>
        {| table := tbl;
           toasts := [addToast (Text ("Error al enviar reporte: " ++ m)) error];
           form := formData; file := evidenceFile |}
    end.

(** The realtime callback on [daily_logs] (lines 2540-2553): how
    [dailyLogs] follows the table. *)
Inductive LogEvent : Type :=
| INSERT (new : DailyLog.t)
| UPDATE (new : DailyLog.t)
| DELETE (old_id : string).

Definition onLogEvent (ev : LogEvent) (prev : list DailyLog.t) : list DailyLog.t :=
  match ev with
  | INSERT new => new :: prev
  | UPDATE new =>
      map (fun l => if String.eqb (DailyLog.id l) (DailyLog.id new) then new else l) prev
  | DELETE old_id =>
      List.filter (fun l => negb (String.eqb (DailyLog.id l) old_id)) prev
  end.

(** [updateLogStatus] (lines 2680-2692): one update of every row whose id
    is [logId]; [reviewed] is what it writes into such a row. *)
Definition reviewed (ctx : Ctx) (status : string) (rejectionReason : option string)
           (l : DailyLog.t) : DailyLog.t :=
  DailyLog.mk (DailyLog.id l) (DailyLog.project_id l) (DailyLog.boq_item_id l)
    (DailyLog.foreman_id l) (DailyLog.log_date l) (DailyLog.quantity_executed l)
    (DailyLog.labor_json l) (DailyLog.materials_json l) (DailyLog.machinery_json l)
    (DailyLog.evidence_urls l) (DailyLog.notes l)
    status (Some (user_id ctx)) (Some (now ctx)) rejectionReason.

Definition updateLogStatus (ctx : Ctx) (logId status : string)
           (rejectionReason : option string) (reply : UpdateReply)
           (daily_logs : list DailyLog.t) : list DailyLog.t * option string :=
  match reply with
  | UpdateOk =>
      (map (fun l => if String.eqb (DailyLog.id l) logId
                     then reviewed ctx status rejectionReason l else l) daily_logs,
       None)
  | UpdateError m => (daily_logs, Some m)
  end.

(** [const pendingLogs = dailyLogs.filter(l => l.status === 'pending')]
    (line 3858): the logs the engineer's view draws the two buttons for
    (lines 3968-4022). *)
Definition pendingLogs (dailyLogs : list DailyLog.t) : list DailyLog.t :=
  List.filter (fun l => String.eqb (DailyLog.status l) "pending") dailyLogs.

(** [handleApproveLog] (lines 3863-3870). *)
Definition handleApproveLog (ctx : Ctx) (logId : string) (reply : UpdateReply)
           (daily_logs : list DailyLog.t) : list DailyLog.t * list Toast :=
  match updateLogStatus ctx logId "approved" None reply daily_logs with
  | (tbl, None) => (tbl, [addToast (Text "Parte diario aprobado") success])
  | (tbl, Some m) => (tbl, [addToast (Text ("Error: " ++ m)) error])
  end.

(** [handleRejectLog] (lines 3872-3882); [reason] is what [prompt]
    returned: [None] when it was cancelled. *)
Definition handleRejectLog (ctx : Ctx) (logId : string) (reason : option string)
           (reply : UpdateReply) (daily_logs : list DailyLog.t)
  : list DailyLog.t * list Toast :=
  match reason with
  | Some r =>
      if truthy r then
        match updateLogStatus ctx logId "rejected" (Some r) reply daily_logs with
        | (tbl, None) => (tbl, [addToast (Text "Parte diario rechazado") warning])
        | (tbl, Some m) => (tbl, [addToast (Text ("Error: " ++ m)) error])
        end
      else (daily_logs, [])
  | None => (daily_logs, [])
  end.

End Ledger.

(** ** Requisitions

    [updateRequisitionStatus] builds the object it sends key by key, so
    objects are finite maps from column names to values here: the keys of
    [updateData] are exactly the columns the update writes. *)

Inductive jsval : Type :=
| JNull
| JStr (s : string)
| JUrls (factura guia_remision foto_material : option string).

(** [r.k === 'v'] for a string literal ['v']. *)
Definition field_is (r : gmap string jsval) (k v : string) : bool :=
  match r !! k with
  | Some (JStr s) => String.eqb s v
  | _ => false
  end.

(** [reqData] as [createRequisition] reads it; the engineer's form has no
    [description], which is then [undefined] and left out of the request. *)
Record ReqData : Type := {
  materialId : string;
  itemName : string;
  description : option string;
  quantity : string;
  unit : string;
  urgency : string;
  req_notes : string
}.

(** [documents] of the logistics module: which papers were ticked. *)
Record Documents : Type := { factura : bool; guia : bool; foto : bool }.

Module Requisitions.

(** [createRequisition] (lines 2695-2715): one insert, with the status
    ['pending_pm']. *)
Definition createRequisition (ctx : Ctx) (reqData : ReqData) (reply : InsertReply)
           (requisitions : list (gmap string jsval))
  : list (gmap string jsval) * (gmap string jsval + string) :=
  let payload : gmap string jsval :=
    let base : gmap string jsval :=
      <["project_id" := JStr (currentProject_id ctx)]>
      (<["material_id" := JStr (materialId reqData)]>
      (<["item_name" := JStr (itemName reqData)]>
      (<["quantity" := JStr (quantity reqData)]>
      (<["unit" := JStr (unit reqData)]>
      (<["urgency" := JStr (urgency reqData)]>
      (<["requested_by" := JStr (user_id ctx)]>
      (<["request_notes" := JStr (req_notes reqData)]>
      (<["status" := JStr "pending_pm"]> ∅)))))))) in
    match description reqData with
    | Some d => <["item_description" := JStr d]> base
    | None => base
    end in
  match reply with
  | InsertOk new_id =>
      let data := <["id" := JStr new_id]> payload in
      ((requisitions ++ [data])%list, inl data)
  | InsertError m => (requisitions, inr m)
  end.

(** The object [updateData] of [updateRequisitionStatus] (lines
    2719-2730): [{ status, ...additionalData }], then the actor and the
    time that go with [status]. *)
Definition updateData (ctx : Ctx) (status : string)
           (additionalData : gmap string jsval) : gmap string jsval :=
  let updateData : gmap string jsval := additionalData ∪ {[ "status" := JStr status ]} in
  if String.eqb status "approved" || String.eqb status "to_buy" then
    <["approved_at" := JStr (now ctx)]> (<["approved_by" := JStr (user_id ctx)]> updateData)
  else if String.eqb status "in_transit" then
    <["purchased_at" := JStr (now ctx)]> (<["purchased_by" := JStr (user_id ctx)]> updateData)
  else if String.eqb status "received" || String.eqb status "completed" then
    <["received_at" := JStr (now ctx)]> (<["received_by" := JStr (user_id ctx)]> updateData)
  else updateData.

(** [update(updateData).eq('id', reqId)] (lines 2732-2737): the columns
    named in [updateData] are overwritten in every row whose id is
    [reqId]. *)
Definition updateRequisitionStatus (ctx : Ctx) (reqId status : string)
           (additionalData : gmap string jsval) (reply : UpdateReply)
           (requisitions : list (gmap string jsval))
  : list (gmap string jsval) * option string :=
  match reply with
  | UpdateOk =>
      (map (fun r => if field_is r "id" reqId
                     then updateData ctx status additionalData ∪ r else r)
           requisitions,
       None)
  | UpdateError m => (requisitions, Some m)
  end.

(** The three lists of the logistics module (lines 4320-4322); the
    record-purchase button is drawn for [toBuyReqs] (lines 4385-4412), and
    the engineer's confirm-receipt button for the same filter as
    [inTransitReqs] (lines 3861, 4215-4227). *)
Definition toBuyReqs (requisitions : list (gmap string jsval)) :=
  List.filter (fun r => field_is r "status" "to_buy") requisitions.
Definition inTransitReqs (requisitions : list (gmap string jsval)) :=
  List.filter (fun r => field_is r "status" "in_transit") requisitions.
Definition completedReqs (requisitions : list (gmap string jsval)) :=
  List.filter (fun r => field_is r "status" "completed" || field_is r "status" "received")
              requisitions.

(** What [handlePurchase] (lines 4324-4344) leaves behind: the table, the
    toasts, the open modal and the ticked papers. *)
Record PurchaseResult : Type := {
  reqs : list (gmap string jsval);
  shown : list Toast;
  uploadModal : option string;
  documents : Documents
}.

Definition evidence (ctx : Ctx) (documents : Documents) : jsval :=
  JUrls (if factura documents then Some ("FAC-" ++ now_ms ctx ++ ".pdf") else None)
        (if guia documents then Some ("GR-" ++ now_ms ctx ++ ".pdf") else None)
        (if foto documents then Some ("FOTO-" ++ now_ms ctx ++ ".jpg") else None).

Definition handlePurchase (ctx : Ctx) (documents : Documents) (reqId : string)
           (reply : UpdateReply) (requisitions : list (gmap string jsval))
  : PurchaseResult :=
  if negb (factura documents) then
    {| reqs := requisitions;
       shown := [addToast (Text "La factura es requerida") warning];
       uploadModal := Some reqId; documents := documents |}
  else
    match updateRequisitionStatus ctx reqId "in_transit"
            {[ "evidence_urls" := evidence ctx documents ]} reply requisitions with
    | (tbl, None) =>
        {| reqs := tbl;
           shown := [addToast (Text "Compra registrada exitosamente") success];
           uploadModal := None;
           documents := {| factura := false; guia := false; foto := false |} |}
    | (tbl, Some m) =>
        {| reqs := tbl;
           shown := [addToast (Text ("Error: " ++ m)) error];
           uploadModal := Some reqId; documents := documents |}
    end.

(** [handleConfirmReceived] (lines 3902-3909). *)
Definition handleConfirmReceived (ctx : Ctx) (reqId : string) (reply : UpdateReply)
           (requisitions : list (gmap string jsval))
  : list (gmap string jsval) * list Toast :=
  match updateRequisitionStatus ctx reqId "completed" ∅ reply requisitions with
  | (tbl, None) => (tbl, [addToast (Text "Material recibido confirmado") success])
  | (tbl, Some m) => (tbl, [addToast (Text ("Error: " ++ m)) error])
  end.

(** [handleCreateRequisition] of the engineer module (lines 3884-3900):
    the form goes to [createRequisition] as it is. *)
Definition handleCreateRequisition (ctx : Ctx) (reqForm : ReqData) (reply : InsertReply)
           (requisitions : list (gmap string jsval))
  : list (gmap string jsval) * list Toast :=
  match createRequisition ctx reqForm reply requisitions with
  | (tbl, inl _) => (tbl, [addToast (Text "Requerimiento enviado correctamente") success])
  | (tbl, inr m) => (tbl, [addToast (Text ("Error: " ++ m)) error])
  end.

End Requisitions.

(** ** The older daily-report form: a report, then the partida progress

    The first [ForemanModule] of the file (lines 617-849). *)

Module Partida.
Record t : Type := mk {
  id : string;
  code : string;
  current_progress : option jsnum;
  total_budgeted : option jsnum
}.
End Partida.

Record Material : Type := { m_id : string; m_name : string; m_unit : string;
                            m_unit_cost : option jsnum }.
Record Photo : Type := { url : string; photo_name : string; uploaded_at : string }.
Record LaborInput : Type := { worker_type : string; hours : string }.
Record MaterialInput : Type := { material_id : string; mi_quantity : string }.
Record LaborEntry : Type := { le_worker_type : string; le_hours : jsnum;
                              le_rate : jsnum; le_cost : jsnum }.
Record MaterialEntry : Type := { me_material_id : string; me_material_name : string;
                                 me_quantity : jsnum; me_unit : string;
                                 me_unit_cost : jsnum; me_total_cost : jsnum }.

Module DailyReport.
Record t : Type := mk {
  id : string;
  project_id : string;
  partida_id : string;
  report_user_id : string;
  report_date : string;
  progress_value : option jsnum;
  labor_data : list LaborEntry;
  materials_data : list MaterialEntry;
  photos : list Photo;
  notes : string;
  total_labor_cost : option jsnum;
  total_materials_cost : option jsnum
}.
End DailyReport.

Module Reports.

(** [v || 0] for a column that holds a number or [null]. *)
Definition or0 (v : option jsnum) : jsnum :=
  match v with
  | Some q => or_zero q
  | None => 0
  end.

Definition workerTypes : list (string * jsnum) :=
  [("peon", 80); ("oficial", 120); ("operario", 150); ("capataz", 200)].

(** [workerTypes.find(wt => wt.value === t)?.rate || 0] *)
Definition rate_of (t : string) : jsnum :=
  match List.find (fun wt => String.eqb (fst wt) t) workerTypes with
  | Some wt => or_zero (snd wt)
  | None => 0
  end.

(** The form of the module, as [handleSubmit] reads it. *)
Record Form : Type := {
  selectedPartida : option Partida.t;
  progressInput : string;
  laborRows : list LaborInput;
  materialRows : list MaterialInput;
  form_photos : list Photo;
  form_notes : string
}.

(** [row.hours && parseFloat(row.hours) > 0] *)
Definition positive_text (s : string) : bool :=
  truthy s && gt (parseFloat s) 0.

(** [validateSubmission] (lines 732-757): the error text it stores, or
    [None] when the form may be sent. *)
Definition validateSubmission (f : Form) : option Msg :=
  match selectedPartida f with
  | None => Some (Text "Debe seleccionar una partida")
  | Some p =>
      let progress := or_zero (parseFloat (progressInput f)) in
      let currentProgress := or0 (Partida.current_progress p) in
      let totalBudgeted := or0 (Partida.total_budgeted p) in
      if gt (currentProgress + progress) totalBudgeted then
        Some (ExcedePresupuesto currentProgress progress (totalBudgeted - currentProgress))
      else if negb (existsb (fun row => positive_text (hours row)) (laborRows f)) then
        Some (Text "Debe ingresar al menos una fila de mano de obra con horas válidas")
      else None
  end.

Definition laborData (f : Form) : list LaborEntry :=
  map (fun row =>
         {| le_worker_type := worker_type row;
            le_hours := parseFloat (hours row);
            le_rate := rate_of (worker_type row);
            le_cost := parseFloat (hours row) * rate_of (worker_type row) |})
      (List.filter (fun row => positive_text (hours row)) (laborRows f)).

Definition materialsData (catalog : list Material) (f : Form) : list MaterialEntry :=
  map (fun row =>
         let material := List.find (fun m => String.eqb (m_id m) (material_id row)) catalog in
         let unit_cost := match material with Some m => or0 (m_unit_cost m) | None => 0 end in
         {| me_material_id := material_id row;
            me_material_name := match material with Some m => m_name m | None => "" end;
            me_quantity := parseFloat (mi_quantity row);
            me_unit := match material with Some m => m_unit m | None => "" end;
            me_unit_cost := unit_cost;
            me_total_cost := parseFloat (mi_quantity row) * unit_cost |})
      (List.filter (fun row => truthy (material_id row) && positive_text (mi_quantity row))
                   (materialRows f)).

(** The two tables the form writes. *)
Record Stored : Type := {
  daily_reports : list DailyReport.t;
  partidas : list Partida.t
}.

Definition set_progress (v : option jsnum) (p : Partida.t) : Partida.t :=
  Partida.mk (Partida.id p) (Partida.code p) v (Partida.total_budgeted p).

(** What [handleSubmit] leaves behind: the two tables, the validation
    error under the form and the text of the alert. *)
Record SubmitResult : Type := {
  stored : Stored;
  validationError : option Msg;
  alert : option Msg
}.

(** [handleSubmit] (lines 759-849): nothing is sent when the validation
    fails; otherwise
    the report is inserted and, when that went through, the progress of
    the partida is updated by a second request.  [reportReply] and
    [updateReply] are the backend's answers to the two requests. *)
Definition handleSubmit (ctx : Ctx) (catalog : list Material) (f : Form)
           (reportReply : InsertReply) (updateReply : UpdateReply)
           (st : Stored) : SubmitResult :=
  match validateSubmission f, selectedPartida f with
  | Some e, _ => {| stored := st; validationError := Some e; alert := None |}
  | None, None => {| stored := st; validationError := None; alert := None |}
  | None, Some p =>
      match reportReply with
      | InsertError m =>
          {| stored := st; validationError := None;
             alert := Some (Text ("Error al guardar el reporte: " ++ m)) |}
      | InsertOk new_id =>
          let report :=
            DailyReport.mk new_id (currentProject_id ctx) (Partida.id p) (user_id ctx)
              (substring 0 10 (now ctx))
              (to_json (or_zero (parseFloat (progressInput f))))
              (laborData f) (materialsData catalog f) (form_photos f) (form_notes f)
              (to_json (fold_left (fun sum l => sum + le_cost l) (laborData f) 0))
              (to_json (fold_left (fun sum m => sum + me_total_cost m)
                                  (materialsData catalog f) 0)) in
          let inserted := (daily_reports st ++ [report])%list in
          let newProgress :=
            or0 (Partida.current_progress p) + or_zero (parseFloat (progressInput f)) in
          match updateReply with
          | UpdateError m =>
              {| stored := {| daily_reports := inserted; partidas := partidas st |};
                 validationError := None;
                 alert := Some (Text ("Error al guardar el reporte: " ++ m)) |}
          | UpdateOk =>
              {| stored :=
                   {| daily_reports := inserted;
                      partidas :=
                        map (fun q => if String.eqb (Partida.id q) (Partida.id p)
                                      then set_progress (to_json newProgress) q else q)
                            (partidas st) |};
                 validationError := None;
                 alert := Some (Text "Reporte diario guardado exitosamente") |}
          end
      end
  end.

End Reports.

(** ** The number inputs of the two forms

    Both quantities are typed into an [<input type="number" required>]; the
    browser sends the form only when the value is a number, not below [min],
    and a whole number of [step]s away from it.  The browser checks the
    decimal that was typed. *)

Module FormInput.

Definition is_integer (x : Q) : bool := Pos.eqb (Qden (Qred x)) 1.

Definition numberInputValid (min step : Q) (value : string) : bool :=
  truthy value &&
  match decimal (read value) with
  | Some q => Qle_bool min q && is_integer ((q - min) / step)%Q
  | None => false
  end.

(** [min="0" step="0.01"]: "Cantidad Ejecutada" of the daily-log form
    (lines 3513-3521). *)
Definition quantityExecutedValid : string -> bool :=
  numberInputValid (0 # 1) (1 # 100).

(** [min="1" step="0.01"]: the quantity of the requisition form (lines
    4155-4163). *)
Definition reqQuantityValid : string -> bool :=
  numberInputValid (1 # 1) (1 # 100).

End FormInput.

(** ** Sequences of operations on the stored daily logs *)

Module Site.

(** One operation, with everything it reads besides the table: the
    context of the client that runs it, what that client holds in
    [boqItems] and [dailyLogs] when a form is sent, and the backend's
    answer. *)
Inductive Action : Type :=
| Submit (ctx : Ctx) (boqItems : list BoqItem.t) (dailyLogs : list DailyLog.t)
         (formData : FormData) (evidenceFile upload : option string)
         (reply : InsertReply)
| Approve (ctx : Ctx) (logId : string) (reply : UpdateReply)
| Reject (ctx : Ctx) (logId : string) (reason : option string) (reply : UpdateReply).

Definition step (daily_logs : list DailyLog.t) (a : Action) : list DailyLog.t :=
  match a with
  | Submit ctx boqItems dailyLogs formData evidenceFile upload reply =>
      Ledger.table (Ledger.handleSubmit ctx boqItems dailyLogs formData
                                        evidenceFile upload reply daily_logs)
  | Approve ctx logId reply => fst (Ledger.handleApproveLog ctx logId reply daily_logs)
  | Reject ctx logId reason reply =>
      fst (Ledger.handleRejectLog ctx logId reason reply daily_logs)
  end.

Definition run (daily_logs : list DailyLog.t) (actions : list Action) : list DailyLog.t :=
  fold_left step actions daily_logs.

(** The quantity of a stored log is a whole number from 0 to
    [2^52 - 1], or [null]. *)
Definition whole_json (v : option jsnum) : Prop :=
  match v with
  | Some q => whole q
  | None => True
  end.

(** What a stored quantity counts for: [null] counts for nothing. *)
Definition units (v : option jsnum) : Z :=
  match v with
  | Some q => to_Z q
  | None => 0%Z
  end.

(** The sum, as a whole number, of the quantities of the logs of an item
    that have a given status. *)
Definition sum_with_status (st : string) (daily_logs : list DailyLog.t) (id : string) : Z :=
  fold_right (fun l s => (units (DailyLog.quantity_executed l) + s)%Z) 0%Z
    (List.filter
       (fun l => String.eqb (DailyLog.boq_item_id l) id
                 && String.eqb (DailyLog.status l) st)
       daily_logs).

(** The budget holds for the stored logs: for every item the form can
    select, the budget is a whole number below [2^52] and the approved plus
    the pending quantity stays within it. *)
Definition within_budget (boq_items : list BoqItem.t) (daily_logs : list DailyLog.t) : Prop :=
  forall id b,
    id <> "" ->
    List.find (fun b => String.eqb (BoqItem.id b) id) boq_items = Some b ->
    whole (BoqItem.total_metrado b)
    /\ (sum_with_status "approved" daily_logs id + sum_with_status "pending" daily_logs id
        <= to_Z (BoqItem.total_metrado b))%Z.

(** An operation taken on an up-to-date screen: a form is validated
    against the stored items and against logs that give the stored
    approved and pending totals of the selected item, its quantity is a
    whole number from 0 to [2^52 - 1] (or is sent as [null]), and a log is
    approved or rejected only while every stored log of that id is
    pending. *)
Definition up_to_date (boq_items : list BoqItem.t) (daily_logs : list DailyLog.t)
           (a : Action) : Prop :=
  match a with
  | Submit _ boqItems dailyLogs formData _ _ _ =>
      boqItems = boq_items
      /\ Ledger.approvedQty dailyLogs (boqItemId formData)
         = Ledger.approvedQty daily_logs (boqItemId formData)
      /\ Ledger.pendingQty dailyLogs (boqItemId formData)
         = Ledger.pendingQty daily_logs (boqItemId formData)
      /\ whole_json (to_json (parseFloat (quantityExecuted formData)))
  | Approve _ logId _ | Reject _ logId _ _ =>
      forall l, In l daily_logs -> DailyLog.id l = logId -> DailyLog.status l = "pending"
  end.

Fixpoint all_up_to_date (boq_items : list BoqItem.t) (daily_logs : list DailyLog.t)
         (actions : list Action) : Prop :=
  match actions with
  | [] => True
  | a :: rest =>
      up_to_date boq_items daily_logs a
      /\ all_up_to_date boq_items (step daily_logs a) rest
  end.

End Site.


(** ** Rows and reviews, as the proofs read them *)

(** The test of the two filters of [validateQuantity]. *)
Definition counted (id st : string) (l : DailyLog.t) : bool :=
  String.eqb (DailyLog.boq_item_id l) id && String.eqb (DailyLog.status l) st.

(** The quantities [validateQuantity] adds up for an item and a status, in
    the order it adds them. *)
Definition quantities (st : string) (dailyLogs : list DailyLog.t) (id : string)
  : list (option jsnum) :=
  map DailyLog.quantity_executed (List.filter (counted id st) dailyLogs).

(** The sum of a list of stored quantities, as whole numbers. *)
Fixpoint units_total (qs : list (option jsnum)) : Z :=
  match qs with
  | [] => 0%Z
  | q :: r => (Site.units q + units_total r)%Z
  end.

(** What [updateLogStatus] does to one row. *)
Definition review (ctx : Ctx) (logId : string) (reason : option string)
           (status : string) (l : DailyLog.t) : DailyLog.t :=
  if String.eqb (DailyLog.id l) logId then Ledger.reviewed ctx status reason l else l.

(** The row [createDailyLog] asks the backend to store. *)
Definition submitted (ctx : Ctx) (formData : FormData) (evidenceFile upload : option string)
           (new_id : string) : DailyLog.t :=
  DailyLog.mk new_id (currentProject_id ctx) (boqItemId formData) (user_id ctx)
    (date formData) (to_json (parseFloat (quantityExecuted formData)))
    (labor formData) (materials formData) (machinery formData)
    (match evidenceFile with
     | Some _ => match upload with Some u => [u] | None => [] end
     | None => []
     end)
    (form_notes formData) "pending" None None None.

(** ** Sample data *)

Module Sample.

Definition foreman : Ctx :=
  {| user_id := "u-foreman"; currentProject_id := "p1";
     now := "2024-05-06T10:00:00.000Z"; now_ms := "1714989600000" |}.

Definition engineer : Ctx :=
  {| user_id := "u-engineer"; currentProject_id := "p1";
     now := "2024-05-06T18:00:00.000Z"; now_ms := "1715018400000" |}.

Definition buyer : Ctx :=
  {| user_id := "u-logistics"; currentProject_id := "p1";
     now := "2024-05-07T09:00:00.000Z"; now_ms := "1715072400000" |}.

(** An item budgeted at 50. *)
Definition b1 : BoqItem.t := BoqItem.mk "b1" "01.01" 50 12.

Definition form (item quantity : string) : FormData :=
  {| boqItemId := item; date := "2024-05-06"; quantityExecuted := quantity;
     form_notes := ""; labor := []; materials := []; machinery := [] |}.

(** A stored log of [b1]. *)
Definition log (id : string) (q : jsnum) (status : string) : DailyLog.t :=
  DailyLog.mk id "p1" "b1" "u-foreman" "2024-05-06" (Some q) [] [] [] [] ""
              status None None None.

(** A stored requisition. *)
Definition req (id status : string) : gmap string jsval :=
  <["id" := JStr id]>
  (<["item_name" := JStr "Cemento"]>
  (<["quantity" := JStr "20"]>
  (<["status" := JStr status]> ∅))).

Definition reqForm (quantity : string) : ReqData :=
  {| materialId := ""; itemName := "Cemento"; description := None;
     quantity := quantity; unit := "BLS"; urgency := "medium"; req_notes := "" |}.

Definition partida : Partida.t := Partida.mk "pt1" "02.01" (Some 10) (Some 40).

Definition reportForm : Reports.Form :=
  {| Reports.selectedPartida := Some partida;
     Reports.progressInput := "5";
     Reports.laborRows := [{| worker_type := "peon"; hours := "8" |}];
     Reports.materialRows := [{| material_id := ""; mi_quantity := "" |}];
     Reports.form_photos := [];
     Reports.form_notes := "" |}.

(** A working day on up-to-date screens: 30 are reported and approved,
    20 more are reported, seen by the engineer and rejected.  Each screen
    is what the realtime callback made of the events so far. *)
Definition l1 : DailyLog.t := submitted foreman (form "b1" "30") None None "l1".

Definition screen1 : list DailyLog.t :=
  Ledger.onLogEvent (Ledger.UPDATE (review engineer "l1" None "approved" l1))
                    (Ledger.onLogEvent (Ledger.INSERT l1) []).

Definition day : list Site.Action :=
  [ Site.Submit foreman [b1] [] (form "b1" "30") None None (InsertOk "l1");
    Site.Approve engineer "l1" UpdateOk;
    Site.Submit foreman [b1] screen1 (form "b1" "20") None None (InsertOk "l2");
    Site.Reject engineer "l2" (Some "medida errada") UpdateOk ].

(** Two forms sent from a screen that has not yet received the first
    log: [dailyLogs] is still empty when the second one is validated. *)
Definition stale : list Site.Action :=
  [ Site.Submit foreman [b1] [] (form "b1" "30") None None (InsertOk "l1");
    Site.Submit foreman [b1] [] (form "b1" "30") None None (InsertOk "l2") ].

(** Up-to-date screens, but a review of a log that is no longer pending:
    50 are reported and rejected, 50 more are reported, and then the
    rejected log is approved after all. *)
Definition l50 : DailyLog.t := submitted foreman (form "b1" "50") None None "l1".

Definition screen2 : list DailyLog.t :=
  Ledger.onLogEvent
    (Ledger.UPDATE (review engineer "l1" (Some "medida errada") "rejected" l50))
    (Ledger.onLogEvent (Ledger.INSERT l50) []).

Definition late_approval : list Site.Action :=
  [ Site.Submit foreman [b1] [] (form "b1" "50") None None (InsertOk "l1");
    Site.Reject engineer "l1" (Some "medida errada") UpdateOk;
    Site.Submit foreman [b1] screen2 (form "b1" "50") None None (InsertOk "l2");
    Site.Approve engineer "l1" UpdateOk ].

(** Up-to-date screens and reviews of pending logs, but a negative
    quantity, which [handleSubmit] takes when it is called with one: -50
    are reported, then 100, and the log of -50 is rejected. *)
Definition lneg : DailyLog.t := submitted foreman (form "b1" "-50") None None "l1".

Definition negative_first : list Site.Action :=
  [ Site.Submit foreman [b1] [] (form "b1" "-50") None None (InsertOk "l1");
    Site.Submit foreman [b1] (Ledger.onLogEvent (Ledger.INSERT lneg) [])
                (form "b1" "100") None None (InsertOk "l2");
    Site.Reject engineer "l1" (Some "medida errada") UpdateOk ].

End Sample.


(** * More of the client

    The rest of the file models code around the functions above: the other
    realtime callbacks, the rows of the two forms, the handlers of the
    requisitions taken together, the lists of assigned projects, the
    status badge, the path of an uploaded file and the
    cells of the CSV export. *)

(** ** The realtime callbacks on requisitions and BOQ items *)

(** What a [postgres_changes] subscription with [event: '*'] delivers. *)
Inductive Change (A : Type) : Type :=
| Inserted (new : A)
| Updated (new : A)
| Deleted (old : A).
Arguments Inserted {A} new.
Arguments Updated {A} new.
Arguments Deleted {A} old.

Module Realtime.

(** [a === b] on two values read from rows: strings by their text, [null]
    and [undefined] each with itself, two objects of different rows
    never. *)
Definition strict_eq (a b : option jsval) : bool :=
  match a, b with
  | None, None => true
  | Some JNull, Some JNull => true
  | Some (JStr x), Some (JStr y) => String.eqb x y
  | _, _ => false
  end.

(** The callback on [requisitions] (lines 2559-2568): a new row goes to
    the front, a changed row replaces the rows of its id, and there is no
    branch for DELETE. *)
Definition onReqEvent (payload : Change (gmap string jsval))
           (prev : list (gmap string jsval)) : list (gmap string jsval) :=
  match payload with
  | Inserted new => new :: prev
  | Updated new => map (fun r => if strict_eq (r !! "id") (new !! "id") then new else r) prev
  | Deleted _ => prev
  end.

(** The callback on [boq_items] (lines 2574-2583): a new item goes to the
    end, a changed item replaces the items of its id, and there is no
    branch for DELETE. *)
Definition onBoqEvent (payload : Change BoqItem.t) (prev : list BoqItem.t)
  : list BoqItem.t :=
  match payload with
  | Inserted new => (prev ++ [new])%list
  | Updated new =>
      map (fun b => if String.eqb (BoqItem.id b) (BoqItem.id new) then new else b) prev
  | Deleted _ => prev
  end.

End Realtime.

(** ** The rows of the forms *)

Module Rows.

(** [rows.filter((_, i) => keep(i))], counting from [i]. *)
Fixpoint filter_from {A : Type} (keep : nat -> bool) (i : nat) (rows : list A) : list A :=
  match rows with
  | [] => []
  | row :: rest =>
      if keep i then row :: filter_from keep (S i) rest
      else filter_from keep (S i) rest
  end.

(** [rows.map((row, i) => f(row, i))], counting from [i]. *)
Fixpoint map_from {A B : Type} (f : A -> nat -> B) (i : nat) (rows : list A) : list B :=
  match rows with
  | [] => []
  | row :: rest => f row i :: map_from f (S i) rest
  end.

(** [[...prev.labor, row]] (lines 3293, 3317, 3341; 670, 686). *)
Definition addRow {A : Type} (row : A) (rows : list A) : list A := (rows ++ [row])%list.

(** [prev.labor.map((row, i) => i === index ? { ...row, [field]: value } : row)]
    (lines 3301, 3325, 3349; 680-682, 696-698); [set] is the row with the
    field set. *)
Definition updateRow {A : Type} (index : nat) (set : A -> A) (rows : list A) : list A :=
  map_from (fun row i => if (i =? index)%nat then set row else row) 0 rows.

(** [prev.labor.filter((_, i) => i !== index)] (lines 3309, 3333, 3357). *)
Definition removeRow {A : Type} (index : nat) (rows : list A) : list A :=
  filter_from (fun i => negb (i =? index)%nat) 0 rows.

(** [removeLaborRow] and [removeMaterialRow] of the older form (lines
    673-677, 689-693): the guard reads the rows of the last render,
    [rendered], the filter works on the rows of the state, [prev]. *)
Definition removeRowKeepingOne {A : Type} (rendered : list A) (index : nat) (prev : list A)
  : list A :=
  if (1 <? length rendered)%nat then removeRow index prev else prev.

(** [{ ...row, [field]: value }] on a labor row of the older form; a
    field the row is not read by is of no consequence. *)
Definition setLaborInput (field value : string) (row : LaborInput) : LaborInput :=
  if String.eqb field "worker_type" then {| worker_type := value; hours := hours row |}
  else if String.eqb field "hours" then {| worker_type := worker_type row; hours := value |}
  else row.

(** What the buttons and inputs of the labor section of the older form do
    (lines 936-976).  Each click and keystroke is handled after the render
    that followed the one before, so the rows the guard of a removal reads
    are the rows of the state. *)
Inductive LaborOp : Type :=
| AddLabor
| UpdateLabor (index : nat) (field value : string)
| RemoveLabor (index : nat).

Definition laborOp (op : LaborOp) (laborRows : list LaborInput) : list LaborInput :=
  match op with
  | AddLabor => addRow {| worker_type := "peon"; hours := "" |} laborRows
  | UpdateLabor index field value => updateRow index (setLaborInput field value) laborRows
  | RemoveLabor index => removeRowKeepingOne laborRows index laborRows
  end.

(** [useState([{ worker_type: 'peon', hours: '' }])] (line 623), also what
    the form is reset to after a report (line 826). *)
Definition initialLaborRows : list LaborInput := [{| worker_type := "peon"; hours := "" |}].

End Rows.

(** ** The requisition handlers taken together *)

Module ReqSite.

(** The three places of the client that write a requisition:
    [handleCreateRequisition] (line 3887), [handlePurchase] (line 4331)
    and [handleConfirmReceived] (line 3904). *)
Inductive Action : Type :=
| Create (ctx : Ctx) (reqForm : ReqData) (reply : InsertReply)
| Purchase (ctx : Ctx) (documents : Documents) (reqId : string) (reply : UpdateReply)
| Confirm (ctx : Ctx) (reqId : string) (reply : UpdateReply).

Definition step (requisitions : list (gmap string jsval)) (a : Action)
  : list (gmap string jsval) :=
  match a with
  | Create ctx reqForm reply =>
      fst (Requisitions.handleCreateRequisition ctx reqForm reply requisitions)
  | Purchase ctx documents reqId reply =>
      Requisitions.reqs (Requisitions.handlePurchase ctx documents reqId reply requisitions)
  | Confirm ctx reqId reply =>
      fst (Requisitions.handleConfirmReceived ctx reqId reply requisitions)
  end.

Definition run (requisitions : list (gmap string jsval)) (actions : list Action)
  : list (gmap string jsval) :=
  fold_left step actions requisitions.

End ReqSite.

(** ** Assigned projects *)

Module Assign.

(** [handleProjectToggle], [toggleEditProjectAssignment] and
    [toggleProjectAssignment] (lines 354-361, 5199-5206, 5357-5364):
    [list.includes(id) ? list.filter(x => x !== id) : [...list, id]]. *)
Definition toggle (projectId : string) (assigned : list string) : list string :=
  if existsb (String.eqb projectId) assigned
  then List.filter (fun id => negb (String.eqb id projectId)) assigned
  else (assigned ++ [projectId])%list.

End Assign.

(** ** What is on record for a stored log *)

(** A pending log, or an approved or rejected one with its reviewer and
    review time, and for a rejected one a reason that is not empty. *)
Definition review_recorded (l : DailyLog.t) : Prop :=
  DailyLog.status l = "pending"
  \/ (DailyLog.status l = "approved"
      /\ DailyLog.reviewed_by l <> None /\ DailyLog.reviewed_at l <> None)
  \/ (DailyLog.status l = "rejected"
      /\ DailyLog.reviewed_by l <> None /\ DailyLog.reviewed_at l <> None
      /\ exists r, DailyLog.rejection_reason l = Some r /\ r <> "").

(** The stored logs of one id that belong to one item: what a review of
    that id moves from one total of the item to another. *)
Definition moved (logId item : string) (daily_logs : list DailyLog.t) : list DailyLog.t :=
  List.filter (fun l => String.eqb (DailyLog.id l) logId
                        && String.eqb (DailyLog.boq_item_id l) item) daily_logs.

(** ** The badge of a status *)

Record Badge : Type := { bg : string; text : string; icon : string; label : string }.

Module Badges.

(** The table [badges] of [getStatusBadge] (lines 2869-2878). *)
Definition badges : list (string * Badge) :=
  [ ("pending", {| bg := "bg-yellow-100"; text := "text-yellow-700"; icon := "🕒";
                   label := "Pendiente" |});
    ("approved", {| bg := "bg-green-100"; text := "text-green-700"; icon := "✅";
                    label := "Aprobado" |});
    ("rejected", {| bg := "bg-red-100"; text := "text-red-700"; icon := "❌";
                    label := "Rechazado" |});
    ("pending_pm", {| bg := "bg-yellow-100"; text := "text-yellow-700"; icon := "🕒";
                      label := "Pendiente PM" |});
    ("to_buy", {| bg := "bg-blue-100"; text := "text-blue-700"; icon := "🛒";
                  label := "Por Comprar" |});
    ("in_transit", {| bg := "bg-orange-100"; text := "text-orange-700"; icon := "🚚";
                      label := "En Tránsito" |});
    ("received", {| bg := "bg-green-100"; text := "text-green-700"; icon := "📦";
                    label := "Recibido" |});
    ("completed", {| bg := "bg-green-100"; text := "text-green-700"; icon := "✅";
                     label := "Completado" |}) ].

(** The names every object literal answers to besides its own keys:
    [badges[name]] is then a function or an object, which is truthy and
    has none of the four fields. *)
Definition inherited : list string :=
  [ "constructor"; "hasOwnProperty"; "isPrototypeOf"; "propertyIsEnumerable";
    "toLocaleString"; "toString"; "valueOf"; "__proto__"; "__defineGetter__";
    "__defineSetter__"; "__lookupGetter__"; "__lookupSetter__" ].

(** [badges[status] || badges.pending] (line 2879): the badge that is
    drawn, or [None] when what was found is no badge. *)
Definition getStatusBadge (status : string) : option Badge :=
  match List.find (fun entry => String.eqb (fst entry) status) badges with
  | Some entry => Some (snd entry)
  | None =>
      if existsb (String.eqb status) inherited then None
      else option_map snd (List.find (fun entry => String.eqb (fst entry) "pending") badges)
  end.

End Badges.

(** ** The path of an uploaded file *)

Module Upload.

(** [name.split('.').pop()]: what follows the last dot, the whole name
    when it has none; [acc] is the piece read so far. *)
Fixpoint last_piece (acc s : string) : string :=
  match s with
  | EmptyString => acc
  | String c r =>
      if Ascii.eqb c "." then last_piece "" r
      else last_piece (acc ++ String c "") r
  end.

Definition fileExt (name : string) : string := last_piece "" name.

(** [filePath] of [uploadEvidence] (lines 15-17 of [supabaseClient.js]);
    [random] is the text of [Math.random()]. *)
Definition filePath (folder random name : string) : string :=
  folder ++ "/" ++ (random ++ "." ++ fileExt name).

Fixpoint has_dot (s : string) : bool :=
  match s with
  | EmptyString => false
  | String c r => Ascii.eqb c "." || has_dot r
  end.

End Upload.

(** ** The cells of the CSV export *)

Module Csv.

(** The double quote. *)
Definition dq : ascii := "034"%char.

(** The [replace] of line 24 on a cell that is a string: every double
    quote of the cell is written twice. *)
Fixpoint escaped (cell : string) : string :=
  match cell with
  | EmptyString => EmptyString
  | String c r =>
      if Ascii.eqb c dq then String dq (String dq (escaped r))
      else String c (escaped r)
  end.

(** One cell as [exportToCSV] writes it (lines 22-26): [null] and
    [undefined] as the empty string, the text between two quotes. *)
Definition csvCell (cell : option string) : string :=
  String dq (escaped (match cell with Some s => s | None => "" end) ++ String dq "").

(** [pieces.join(sep)]. *)
Fixpoint join (sep : string) (pieces : list string) : string :=
  match pieces with
  | [] => ""
  | [x] => x
  | x :: rest => x ++ sep ++ join sep rest
  end.

(** One line of the file: the cells of a row, joined by commas. *)
Definition csvLine (cells : list (option string)) : string :=
  join "," (map csvCell cells).

(** The three characters that close a quoted cell and open the next. *)
Definition between : string := String dq ("," ++ String dq "").

(** One line of [downloadCSV] of the engineer's view (line 3921): the
    code, the description and the unit between quotes, as they are, then
    the numeric cells, whose text is [numbers], and the line break. *)
Definition downloadLine (code description unit numbers : string) : string :=
  String dq code ++ between ++ description ++ between ++ unit
    ++ String dq ("," ++ numbers ++ String "010"%char "").

End Csv.

(** What follows a written cell: the end of the line, or a comma and the
    next cell. *)
Definition after_cell (t : string) : Prop :=
  t = "" \/ exists r, t = String "," r.

(** The text [exportToCSV] writes for a cell: the empty one for [null]. *)
Definition cell_text (cell : option string) : string :=
  match cell with Some s => s | None => "" end.

(** * Properties *)

(** ** Whole numbers as doubles

    Sums, differences and comparisons of whole numbers below [2^53] in
    absolute value are exact in binary64. *)

Section Binary64.

Import Binary64.
Local Open Scope Z_scope.

Lemma digits2_pos_bounds (p : positive) :
  2 ^ (Zpos (digits2_pos p) - 1) <= Zpos p < 2 ^ Zpos (digits2_pos p).
Proof.
  induction p as [p IH|p IH|]; cbn [digits2_pos]; [| |simpl; lia].
  all: rewrite Pos2Z.inj_succ;
    replace (Z.succ (Zpos (digits2_pos p)) - 1) with (Z.succ (Zpos (digits2_pos p) - 1)) by lia;
    rewrite !Z.pow_succ_r by lia; lia.
Qed.

Lemma iter_xO_Z (m k : positive) : Zpos (Pos.iter xO m k) = Zpos m * 2 ^ Zpos k.
Proof.
  induction k as [|k IH] using Pos.peano_ind.
  - simpl. lia.
  - rewrite Pos.iter_succ, Pos2Z.inj_succ, Z.pow_succ_r, Pos2Z.inj_xO, IH by lia. lia.
Qed.

Lemma digits2_pos_iter (m k : positive) :
  digits2_pos (Pos.iter xO m k) = (digits2_pos m + k)%positive.
Proof.
  induction k as [|k IH] using Pos.peano_ind.
  - simpl. lia.
  - rewrite Pos.iter_succ. cbn [digits2_pos]. rewrite IH. lia.
Qed.

Lemma iter_pos_iter {A : Type} (f : A -> A) (p : positive) (x : A) :
  SpecFloat.iter_pos f p x = Pos.iter f x p.
Proof.
  revert x. induction p as [p IH|p IH|]; intros x; cbn [SpecFloat.iter_pos Pos.iter].
  - rewrite !IH. rewrite <- !Pos.iter_swap. reflexivity.
  - now rewrite !IH.
  - reflexivity.
Qed.

Lemma shr_1_exact (p : positive) : shr_1 (kept (Zpos p~0)) = kept (Zpos p).
Proof. reflexivity. Qed.

Lemma iter_shr_exact (n k : positive) :
  SpecFloat.iter_pos shr_1 k (kept (Zpos (Pos.iter xO n k))) = kept (Zpos n).
Proof.
  rewrite iter_pos_iter.
  induction k as [|k IH] using Pos.peano_ind.
  - reflexivity.
  - rewrite (Pos.iter_succ k _ xO), (Pos.iter_succ_r k _ shr_1), shr_1_exact. exact IH.
Qed.

(** What [binary_round] makes of a mantissa that fits. *)
Lemma fexp_normal (z : Z) : -1074 + 53 <= z -> fexp prec emax z = z - 53.
Proof. intros H. unfold fexp, emin, prec, emax. lia. Qed.

Lemma shr_fexp_fits (m : positive) (e : Z) :
  Zpos (digits2_pos m) = 53 -> -1074 <= e ->
  shr_fexp prec emax (Zpos m) e loc_Exact = (kept (Zpos m), e).
Proof.
  intros Hd He. unfold shr_fexp. cbn [Zdigits2]. rewrite Hd.
  rewrite fexp_normal by lia. replace (53 + e - 53 - e) with 0 by lia. reflexivity.
Qed.

Lemma binary_round_aux_fits (s : bool) (m : positive) (e : Z) :
  Zpos (digits2_pos m) = 53 -> -1074 <= e <= 1024 - 53 ->
  binary_round_aux prec emax s (Zpos m) e loc_Exact = S754_finite s m e.
Proof.
  intros Hd He. unfold binary_round_aux.
  rewrite shr_fexp_fits by lia. cbn [kept shr_m loc_of_shr_record round_nearest_even].
  rewrite shr_fexp_fits by lia. cbn [kept shr_m].
  replace (e <=? emax - prec) with true; [reflexivity|].
  symmetry. apply Z.leb_le. unfold emax, prec. lia.
Qed.

(** The double of a whole number [n] with [0 < n < 2^53]: [n] shifted to 53
    digits. *)
Lemma binary_round_small (s : bool) (n : positive) :
  Zpos n < 2 ^ 53 ->
  exists m : positive,
    binary_round prec emax s n 0 = S754_finite s m (Zpos (digits2_pos n) - 53)
    /\ Zpos m = Zpos n * 2 ^ (53 - Zpos (digits2_pos n))
    /\ Zpos (digits2_pos m) = 53.
Proof.
  intros Hn. pose proof (digits2_pos_bounds n) as Hb.
  assert (Hd : Zpos (digits2_pos n) <= 53).
  { destruct (Z_le_gt_dec (Zpos (digits2_pos n)) 53) as [H|H]; [exact H|].
    exfalso. assert (2 ^ 53 <= 2 ^ (Zpos (digits2_pos n) - 1)) by (apply Z.pow_le_mono_r; lia).
    lia. }
  unfold binary_round. rewrite Z.add_0_r, fexp_normal by lia.
  unfold shl_align. rewrite Z.sub_0_r.
  destruct (Zpos (digits2_pos n) - 53) as [|p|p] eqn:E; try lia.
  - exists n. rewrite binary_round_aux_fits by lia.
    replace (53 - Zpos (digits2_pos n)) with 0 by lia. split; [reflexivity|]. split; lia.
  - exists (Pos.iter xO n p).
    assert (Hdm : Zpos (digits2_pos (Pos.iter xO n p)) = 53).
    { rewrite digits2_pos_iter. lia. }
    rewrite binary_round_aux_fits by lia.
    split; [reflexivity|]. split; [|exact Hdm].
    rewrite iter_xO_Z. f_equal. f_equal. lia.
Qed.

(** Rounding reads the value: trailing zero bits of the mantissa can be
    moved into the exponent. *)
Lemma shr_fexp_shift (n j : positive) (e : Z) :
  e + Zpos j <= fexp prec emax (Zpos (digits2_pos (Pos.iter xO n j)) + e) ->
  shr_fexp prec emax (Zpos (Pos.iter xO n j)) e loc_Exact
  = shr_fexp prec emax (Zpos n) (e + Zpos j) loc_Exact.
Proof.
  intros H. unfold shr_fexp. cbn [Zdigits2 shr_record_of_loc].
  rewrite digits2_pos_iter in *. rewrite Pos2Z.inj_add in *.
  replace (Zpos (digits2_pos n) + (e + Zpos j)) with (Zpos (digits2_pos n) + Zpos j + e) by lia.
  set (E := fexp prec emax (Zpos (digits2_pos n) + Zpos j + e)) in *.
  destruct (E - e) as [|p1|p1] eqn:E1; try lia.
  destruct (E - (e + Zpos j)) as [|p2|p2] eqn:E2; try lia.
  - assert (p1 = j) by lia. subst p1. cbn [shr].
    fold (kept (Zpos (Pos.iter xO n j))). rewrite iter_shr_exact. reflexivity.
  - assert (p1 = (p2 + j)%positive) by lia. subst p1. cbn [shr].
    fold (kept (Zpos (Pos.iter xO n j))).
    rewrite !iter_pos_iter, Pos.iter_add, <- (iter_pos_iter shr_1 j), iter_shr_exact.
    f_equal. lia.
Qed.

Lemma binary_round_aux_shift (s : bool) (n j : positive) (e : Z) :
  e + Zpos j <= fexp prec emax (Zpos (digits2_pos (Pos.iter xO n j)) + e) ->
  binary_round_aux prec emax s (Zpos (Pos.iter xO n j)) e loc_Exact
  = binary_round_aux prec emax s (Zpos n) (e + Zpos j) loc_Exact.
Proof.
  intros H. unfold binary_round_aux. now rewrite shr_fexp_shift.
Qed.

Lemma binary_round_shift (s : bool) (n k : positive) (e : Z) :
  binary_round prec emax s (Pos.iter xO n k) e = binary_round prec emax s n (e + Zpos k).
Proof.
  unfold binary_round.
  assert (Hd : Zpos (digits2_pos (Pos.iter xO n k)) + e = Zpos (digits2_pos n) + (e + Zpos k)).
  { rewrite digits2_pos_iter. lia. }
  rewrite <- Hd.
  set (E := fexp prec emax (Zpos (digits2_pos (Pos.iter xO n k)) + e)).
  assert (HE : E = fexp prec emax (Zpos (digits2_pos (Pos.iter xO n k)) + e)) by reflexivity.
  clearbody E. unfold shl_align.
  destruct (E - e) as [|p|d] eqn:E1.
  - (* no shift on the left *)
    destruct (E - (e + Zpos k)) as [|p'|d'] eqn:E2; try lia.
    assert (d' = k) by lia. subst d'. f_equal. lia.
  - destruct (E - (e + Zpos k)) as [|p'|d'] eqn:E2.
    + apply binary_round_aux_shift. lia.
    + apply binary_round_aux_shift. lia.
    + assert (Hk : k = (p + d')%positive) by lia.
      rewrite Hk at 1. rewrite Pos.iter_add.
      rewrite binary_round_aux_shift.
      * f_equal. lia.
      * rewrite <- Pos.iter_add, <- Hk. lia.
  - destruct (E - (e + Zpos k)) as [|p'|d'] eqn:E2; try lia.
    assert (d' = (d + k)%positive) by lia. subst d'.
    now rewrite Pos.iter_add.
Qed.

Lemma norm_pos (s : bool) (n : positive) :
  Zpos n < 2 ^ 53 ->
  exists m : positive,
    binary_round prec emax s n 0 = S754_finite s m (Zpos (digits2_pos n) - 53)
    /\ Zpos m = Zpos n * 2 ^ (53 - Zpos (digits2_pos n))
    /\ Zpos (digits2_pos m) = 53
    /\ 1 <= Zpos (digits2_pos n) <= 53.
Proof.
  intros Hn. destruct (binary_round_small s n Hn) as (m & H1 & H2 & H3).
  exists m. repeat split; try assumption; [lia|].
  pose proof (digits2_pos_bounds n) as Hb.
  destruct (Z_le_gt_dec (Zpos (digits2_pos n)) 53) as [H|H]; [exact H|].
  exfalso. assert (2 ^ 53 <= 2 ^ (Zpos (digits2_pos n) - 1)) by (apply Z.pow_le_mono_r; lia).
  lia.
Qed.

Lemma finite_valid (s : bool) (m : positive) (d : Z) :
  Zpos (digits2_pos m) = 53 -> 1 <= d <= 53 ->
  valid_binary (S754_finite s m (d - 53)) = true.
Proof.
  intros Hm Hd. cbn [SpecFloat.valid_binary]. unfold bounded, canonical_mantissa.
  rewrite Hm, fexp_normal by lia.
  apply andb_true_iff. split; [apply Z.eqb_eq; lia | apply Z.leb_le; unfold emax, prec; lia].
Qed.

Lemma norm_valid (n : Z) : Z.abs n < 2 ^ 53 -> valid_binary (norm n) = true.
Proof.
  intros Hn. unfold norm, binary_normalize. destruct n as [|p|p]; [reflexivity| |].
  - destruct (norm_pos false p) as (m & -> & _ & Hd & Hp); [lia|]. now apply finite_valid.
  - destruct (norm_pos true p) as (m & -> & _ & Hd & Hp); [lia|]. now apply finite_valid.
Qed.

Lemma Prim2SF_of_Z (n : Z) : Z.abs n < 2 ^ 53 -> Prim2SF (of_Z n) = norm n.
Proof. intros Hn. apply Prim2SF_SF2Prim. now apply norm_valid. Qed.

Lemma normalize_scaled (n k : Z) :
  0 <= k -> binary_normalize prec emax (n * 2 ^ k) (- k) false = norm n.
Proof.
  intros Hk. unfold norm. destruct k as [|k|k]; [| |lia].
  - now rewrite Z.mul_1_r.
  - destruct n as [|p|p]; [reflexivity| |].
    + rewrite <- iter_xO_Z. cbn [binary_normalize].
      rewrite binary_round_shift. f_equal. lia.
    + change (Zneg p) with (- Zpos p). rewrite Z.mul_opp_l, <- iter_xO_Z.
      change (- Z.pos (Pos.iter xO p k)) with (Z.neg (Pos.iter xO p k)).
      change (- Z.pos p) with (Z.neg p). cbn [binary_normalize].
      rewrite binary_round_shift. f_equal. lia.
Qed.

Lemma shl_align_Z (m : positive) (e e' : Z) :
  e' <= e -> Zpos (fst (shl_align m e e')) = Zpos m * 2 ^ (e - e').
Proof.
  intros H. unfold shl_align. destruct (e' - e) as [|p|p] eqn:E; try lia.
  - replace (e - e') with 0 by lia. simpl. lia.
  - cbn [fst]. rewrite iter_xO_Z. f_equal. f_equal. lia.
Qed.

Lemma norm_shape (n : Z) :
  n <> 0 -> Z.abs n < 2 ^ 53 ->
  exists (m : positive) (d : Z),
    norm n = S754_finite (n <? 0) m (d - 53)
    /\ cond_Zopp (n <? 0) (Zpos m) = n * 2 ^ (53 - d)
    /\ Zpos (digits2_pos m) = 53
    /\ 1 <= d <= 53
    /\ 2 ^ (d - 1) <= Z.abs n < 2 ^ d.
Proof.
  intros H0 Hn. unfold norm, binary_normalize. destruct n as [|p|p]; [congruence| |].
  - destruct (norm_pos false p) as (m & -> & Hm & Hd & Hp); [lia|].
    exists m, (Zpos (digits2_pos p)). repeat split; try assumption; try lia.
    all: apply digits2_pos_bounds.
  - destruct (norm_pos true p) as (m & -> & Hm & Hd & Hp); [lia|].
    exists m, (Zpos (digits2_pos p)).
    split; [reflexivity|]. split; [cbn [Z.ltb Z.compare cond_Zopp]; lia|].
    split; [assumption|]. split; [lia|]. apply digits2_pos_bounds.
Qed.

Lemma pow2_split (x y : Z) : 0 <= x -> 0 <= y -> 2 ^ x * 2 ^ y = 2 ^ (x + y).
Proof. intros. now rewrite Z.pow_add_r. Qed.

Lemma aligned (n : Z) (m : positive) (d ez : Z) :
  cond_Zopp (n <? 0) (Zpos m) = n * 2 ^ (53 - d) -> d <= 53 -> ez <= d - 53 ->
  cond_Zopp (n <? 0) (Zpos (fst (shl_align m (d - 53) ez))) = n * 2 ^ (- ez).
Proof.
  intros V Hd He. rewrite shl_align_Z by lia.
  transitivity (cond_Zopp (n <? 0) (Zpos m) * 2 ^ (d - 53 - ez)).
  - destruct (n <? 0); cbn [cond_Zopp]; lia.
  - rewrite V, <- Z.mul_assoc, pow2_split by lia. f_equal. f_equal. lia.
Qed.

Lemma norm_opp (n : Z) : Z.abs n < 2 ^ 53 -> SFopp (norm n) = norm (- n) \/ n = 0.
Proof.
  intros Hn. destruct n as [|p|p]; [now right| |]; left.
  - destruct (norm_pos false p) as (m1 & H1 & _); [lia|].
    destruct (norm_pos true p) as (m2 & H2 & _); [lia|].
    change (- Z.pos p) with (Z.neg p). unfold norm. cbn [binary_normalize].
    rewrite H1. cbn [SFopp negb]. rewrite H2.
    unfold binary_round in H1, H2. destruct (shl_align _ _ _) as [mz ez].
    unfold binary_round_aux in H1, H2. destruct (shr_fexp _ _ _ _ _) as [r1 e1].
    destruct (shr_fexp _ _ _ _ _) as [r2 e2].
    destruct (shr_m r2); try discriminate.
    destruct (e2 <=? emax - prec); try discriminate. congruence.
  - destruct (norm_pos false p) as (m1 & H1 & _); [lia|].
    destruct (norm_pos true p) as (m2 & H2 & _); [lia|].
    change (- Z.neg p) with (Z.pos p). unfold norm. cbn [binary_normalize].
    rewrite H2. cbn [SFopp negb]. rewrite H1.
    unfold binary_round in H1, H2. destruct (shl_align _ _ _) as [mz ez].
    unfold binary_round_aux in H1, H2. destruct (shr_fexp _ _ _ _ _) as [r1 e1].
    destruct (shr_fexp _ _ _ _ _) as [r2 e2].
    destruct (shr_m r2); try discriminate.
    destruct (e2 <=? emax - prec); try discriminate. congruence.
Qed.

Lemma SFadd_norm (a b : Z) :
  Z.abs a < 2 ^ 53 -> Z.abs b < 2 ^ 53 ->
  SFadd prec emax (norm a) (norm b) = norm (a + b).
Proof.
  intros Ha Hb.
  destruct (Z.eq_dec a 0) as [-> | Ha0]; [destruct (Z.eq_dec b 0) as [-> | Hb0]|
                                          destruct (Z.eq_dec b 0) as [-> | Hb0]].
  - reflexivity.
  - destruct (norm_shape b Hb0 Hb) as (m & d & E & _). rewrite Z.add_0_l, E. reflexivity.
  - destruct (norm_shape a Ha0 Ha) as (m & d & E & _). rewrite Z.add_0_r, E. reflexivity.
  - destruct (norm_shape a Ha0 Ha) as (ma & da & Ea & Va & _ & Hda & _).
    destruct (norm_shape b Hb0 Hb) as (mb & db & Eb & Vb & _ & Hdb & _).
    rewrite Ea, Eb. cbn [SFadd].
    set (ez := Z.min (da - 53) (db - 53)).
    assert (Hez : -52 <= ez <= 0) by lia.
    rewrite (aligned a ma da ez), (aligned b mb db ez) by (assumption || lia).
    rewrite <- Z.mul_add_distr_r.
    replace ez with (- (- ez)) at 2 by lia.
    apply normalize_scaled. lia.
Qed.

Lemma SFsub_norm (a b : Z) :
  Z.abs a < 2 ^ 53 -> Z.abs b < 2 ^ 53 ->
  SFsub prec emax (norm a) (norm b) = norm (a - b).
Proof.
  intros Ha Hb.
  destruct (Z.eq_dec a 0) as [-> | Ha0]; [destruct (Z.eq_dec b 0) as [-> | Hb0]|
                                          destruct (Z.eq_dec b 0) as [-> | Hb0]].
  - reflexivity.
  - destruct (norm_opp b Hb) as [H | H]; [|congruence].
    rewrite Z.sub_0_l, <- H.
    destruct (norm_shape b Hb0 Hb) as (m & d & E & _). rewrite E. reflexivity.
  - destruct (norm_shape a Ha0 Ha) as (m & d & E & _). rewrite Z.sub_0_r, E. reflexivity.
  - destruct (norm_shape a Ha0 Ha) as (ma & da & Ea & Va & _ & Hda & _).
    destruct (norm_shape b Hb0 Hb) as (mb & db & Eb & Vb & _ & Hdb & _).
    rewrite Ea, Eb. cbn [SFsub].
    set (ez := Z.min (da - 53) (db - 53)).
    assert (Hez : -52 <= ez <= 0) by lia.
    rewrite (aligned a ma da ez), (aligned b mb db ez) by (assumption || lia).
    rewrite <- Z.mul_sub_distr_r.
    replace ez with (- (- ez)) at 2 by lia.
    apply normalize_scaled. lia.
Qed.

Lemma compare_shapes (a b : positive) (ma mb : positive) (da db : Z) :
  Zpos ma = Zpos a * 2 ^ (53 - da) -> Zpos mb = Zpos b * 2 ^ (53 - db) ->
  1 <= da <= 53 -> 1 <= db <= 53 ->
  2 ^ (da - 1) <= Zpos a < 2 ^ da -> 2 ^ (db - 1) <= Zpos b < 2 ^ db ->
  match da - 53 ?= db - 53 with
  | Lt => Lt
  | Gt => Gt
  | Eq => Pos.compare_cont Eq ma mb
  end = (a ?= b)%positive.
Proof.
  intros Va Vb Hda Hdb Ba Bb.
  destruct (da - 53 ?= db - 53) eqn:C.
  - apply Z.compare_eq in C. assert (da = db) by lia. subst db.
    change ((Zpos ma ?= Zpos mb) = (Zpos a ?= Zpos b)). rewrite Va, Vb.
    assert (0 < 2 ^ (53 - da)) by (apply Z.pow_pos_nonneg; lia).
    destruct (Z.compare_spec (Zpos a) (Zpos b)) as [E | L | G].
    + rewrite E. apply Z.compare_refl.
    + apply Z.compare_lt_iff. nia.
    + apply Z.compare_gt_iff. nia.
  - rewrite Z.compare_lt_iff in C. symmetry. apply Pos.compare_lt_iff.
    assert (2 ^ da <= 2 ^ (db - 1)) by (apply Z.pow_le_mono_r; lia). lia.
  - rewrite Z.compare_gt_iff in C. symmetry. apply Pos.compare_gt_iff.
    assert (2 ^ db <= 2 ^ (da - 1)) by (apply Z.pow_le_mono_r; lia). lia.
Qed.

Lemma SFcompare_norm (a b : Z) :
  Z.abs a < 2 ^ 53 -> Z.abs b < 2 ^ 53 ->
  SFcompare (norm a) (norm b) = Some (a ?= b).
Proof.
  intros Ha Hb.
  destruct (Z.eq_dec a 0) as [-> | Ha0]; [destruct (Z.eq_dec b 0) as [-> | Hb0]|
                                          destruct (Z.eq_dec b 0) as [-> | Hb0]].
  - reflexivity.
  - destruct (norm_shape b Hb0 Hb) as (m & d & E & _). rewrite E.
    destruct b; try congruence; reflexivity.
  - destruct (norm_shape a Ha0 Ha) as (m & d & E & _). rewrite E.
    destruct a; try congruence; reflexivity.
  - destruct (norm_shape a Ha0 Ha) as (ma & da & Ea & Va & _ & Hda & Ba).
    destruct (norm_shape b Hb0 Hb) as (mb & db & Eb & Vb & _ & Hdb & Bb).
    rewrite Ea, Eb.
    destruct a as [|a|a], b as [|b|b]; try congruence;
      cbn [Z.ltb Z.compare cond_Zopp SFcompare Z.abs] in *; try reflexivity.
    + f_equal. apply (compare_shapes a b ma mb da db); assumption.
    + f_equal.
      rewrite <- (compare_shapes a b ma mb da db) by (assumption || lia).
      destruct (da - 53 ?= db - 53); reflexivity.
Qed.



Lemma add_of_Z (a b : Z) :
  Z.abs a < 2 ^ 53 -> Z.abs b < 2 ^ 53 ->
  PrimFloat.add (of_Z a) (of_Z b) = of_Z (a + b).
Proof.
  intros Ha Hb. rewrite <- (SF2Prim_Prim2SF (PrimFloat.add _ _)).
  rewrite FloatAxioms.add_spec, !Prim2SF_of_Z by assumption.
  unfold SF64add. now rewrite SFadd_norm.
Qed.

Lemma sub_of_Z (a b : Z) :
  Z.abs a < 2 ^ 53 -> Z.abs b < 2 ^ 53 ->
  PrimFloat.sub (of_Z a) (of_Z b) = of_Z (a - b).
Proof.
  intros Ha Hb. rewrite <- (SF2Prim_Prim2SF (PrimFloat.sub _ _)).
  rewrite FloatAxioms.sub_spec, !Prim2SF_of_Z by assumption.
  unfold SF64sub. now rewrite SFsub_norm.
Qed.

Lemma ltb_of_Z (a b : Z) :
  Z.abs a < 2 ^ 53 -> Z.abs b < 2 ^ 53 ->
  PrimFloat.ltb (of_Z a) (of_Z b) = (a <? b).
Proof.
  intros Ha Hb. rewrite FloatAxioms.ltb_spec, !Prim2SF_of_Z by assumption.
  unfold SFltb. rewrite SFcompare_norm by assumption. unfold Z.ltb.
  destruct (a ?= b); reflexivity.
Qed.

Lemma of_Z_inj (a b : Z) :
  Z.abs a < 2 ^ 53 -> Z.abs b < 2 ^ 53 -> of_Z a = of_Z b -> a = b.
Proof.
  intros Ha Hb E.
  assert (H : SFcompare (norm a) (norm a) = SFcompare (norm a) (norm b)).
  { rewrite <- !Prim2SF_of_Z by assumption. now rewrite E. }
  rewrite !SFcompare_norm in H by assumption.
  rewrite Z.compare_refl in H. injection H as H. symmetry in H. now apply Z.compare_eq.
Qed.

End Binary64.

(** ** Zeros, NaN and comparisons of doubles *)

Section Doubles.

Import Binary64.
Local Open Scope Z_scope.

Lemma to_Z_of_Z (n : Z) : Z.abs n < 2 ^ 53 -> to_Z (of_Z n) = n.
Proof.
  intros Hn. unfold to_Z. rewrite Prim2SF_of_Z by exact Hn.
  destruct (Z.eq_dec n 0) as [-> | H0]; [reflexivity|].
  destruct (norm_shape n H0 Hn) as (m & d & -> & V & _ & Hd & _).
  assert (Hp : 0 < 2 ^ (53 - d)) by (apply Z.pow_pos_nonneg; lia).
  assert (Hv : match d - 53 with
               | 0 => Z.pos m
               | Z.pos _ => Z.pos m * 2 ^ (d - 53)
               | Z.neg k => Z.pos m / 2 ^ Z.pos k
               end = Z.abs n).
  { destruct (d - 53) as [|k|k] eqn:E; try lia.
    - replace (53 - d) with 0 in V by lia.
      destruct (n <? 0); cbn [cond_Zopp] in V; lia.
    - replace (Z.pos k) with (53 - d) by lia.
      destruct (n <? 0) eqn:S; cbn [cond_Zopp] in V.
      + replace (Z.pos m) with (Z.abs n * 2 ^ (53 - d)) by lia.
        apply Z.div_mul. lia.
      + replace (Z.pos m) with (Z.abs n * 2 ^ (53 - d)).
        * apply Z.div_mul. lia.
        * apply Z.ltb_ge in S. rewrite Z.abs_eq by lia. lia. }
  cbv zeta. rewrite Hv. destruct (n <? 0) eqn:S.
  - apply Z.ltb_lt in S. lia.
  - apply Z.ltb_ge in S. lia.
Qed.

Lemma is_zero_spec (x : float) :
  is_zero x = true <-> exists s, Prim2SF x = S754_zero s.
Proof.
  unfold is_zero. rewrite FloatAxioms.eqb_spec. change (Prim2SF PrimFloat.zero) with (S754_zero false).
  unfold SFeqb. destruct (Prim2SF x) as [s|s| |s m e]; cbn [SFcompare]; split.
  all: try (intros; now eauto).
  all: try (intros (s' & H); discriminate H).
  all: try discriminate.
  all: destruct s; discriminate.
Qed.

Lemma is_nan_spec (x : float) : is_nan x = true <-> Prim2SF x = S754_nan.
Proof.
  unfold is_nan. rewrite FloatAxioms.eqb_spec. unfold SFeqb.
  destruct (Prim2SF x) as [s|s| |s m e]; cbn [SFcompare]; split; try discriminate;
    try reflexivity.
  - destruct s; discriminate.
  - destruct s; rewrite Z.compare_refl, ?Pos.compare_cont_refl; discriminate.
Qed.

Lemma SFcompare_add_zero (t y : spec_float) (s : bool) :
  SFcompare t (SFadd prec emax y (S754_zero s)) = SFcompare t y.
Proof.
  destruct y as [sy|sy| |sy my ey]; try reflexivity.
  destruct sy, s, t as [st|st| |st mt et]; reflexivity.
Qed.

(** Adding a zero does not change how a sum compares. *)
Lemma gt_add_zero (y x t : float) :
  is_zero x = true -> gt (y + x)%float t = gt y t.
Proof.
  intros Hx. apply is_zero_spec in Hx. destruct Hx as (s & Hx).
  unfold gt. rewrite !FloatAxioms.ltb_spec, FloatAxioms.add_spec, Hx. unfold SFltb, SF64add.
  now rewrite SFcompare_add_zero.
Qed.

Lemma gt_add_nan (y t : float) : gt (y + PrimFloat.nan)%float t = false.
Proof.
  unfold gt. rewrite FloatAxioms.ltb_spec, FloatAxioms.add_spec.
  change (Prim2SF PrimFloat.nan) with S754_nan. unfold SF64add, SFltb.
  destruct (Prim2SF y), (Prim2SF t); reflexivity.
Qed.

Lemma SFcompare_antisym (x y : spec_float) :
  SFcompare y x = option_map CompOpp (SFcompare x y).
Proof.
  destruct x as [sx|sx| |sx mx ex], y as [sy|sy| |sy my ey]; cbn [SFcompare option_map];
    try reflexivity; try (destruct sx; reflexivity); try (destruct sy; reflexivity);
    try (destruct sx, sy; reflexivity).
  destruct sx, sy; try reflexivity; f_equal.
  - rewrite (Z.compare_antisym ex ey).
    destruct (ex ?= ey) eqn:E; cbn [CompOpp]; try reflexivity.
    f_equal. symmetry. apply (Pos.compare_cont_antisym mx my Eq).
  - rewrite (Z.compare_antisym ex ey).
    destruct (ex ?= ey) eqn:E; cbn [CompOpp]; try reflexivity.
    symmetry. apply (Pos.compare_cont_antisym mx my Eq).
Qed.

(** Between two numbers, neither of them NaN, "not above" is "at most". *)
Lemma not_gt_leb (a b : float) :
  is_nan a = false -> is_nan b = false -> gt a b = false -> (a <=? b)%float = true.
Proof.
  intros Ha Hb. unfold gt. rewrite FloatAxioms.ltb_spec, FloatAxioms.leb_spec. unfold SFltb, SFleb.
  rewrite (SFcompare_antisym (Prim2SF a) (Prim2SF b)).
  assert (Ha' : Prim2SF a <> S754_nan).
  { intros E. apply is_nan_spec in E. congruence. }
  assert (Hb' : Prim2SF b <> S754_nan).
  { intros E. apply is_nan_spec in E. congruence. }
  destruct (SFcompare (Prim2SF a) (Prim2SF b)) as [[| |]|] eqn:C; cbn; try congruence.
  exfalso. destruct (Prim2SF a), (Prim2SF b); cbn in C; congruence.
Qed.

Lemma leb_zero_l (a b : float) :
  is_zero a = true -> (0 <=? b)%float = (a <=? b)%float.
Proof.
  intros Ha. apply is_zero_spec in Ha. destruct Ha as (s & Ha).
  rewrite !FloatAxioms.leb_spec, Ha. change (Prim2SF 0%float) with (S754_zero false).
  unfold SFleb. destruct (Prim2SF b); reflexivity.
Qed.

Lemma to_json_Some (x y : float) :
  to_json x = Some y ->
  is_nan x = false /\ ((is_zero x = true /\ y = 0%float) \/ (is_zero x = false /\ y = x)).
Proof.
  unfold to_json. destruct (is_nan x); [discriminate|].
  destruct (is_infinity x); [discriminate|]. cbn [orb].
  destruct (is_zero x); intros [= <-]; auto.
Qed.

(** A whole number that is not 0 goes on the wire as it is. *)
Lemma to_json_of_Z (n : Z) : Z.abs n < 2 ^ 53 -> to_json (of_Z n) = Some (of_Z n).
Proof.
  intros Hn. destruct (Z.eq_dec n 0) as [-> | H0]; [reflexivity|].
  destruct (norm_shape n H0 Hn) as (m & d & E & _).
  assert (Hnan : is_nan (of_Z n) = false).
  { destruct (is_nan (of_Z n)) eqn:N; [|reflexivity].
    apply is_nan_spec in N. rewrite Prim2SF_of_Z in N by exact Hn. congruence. }
  assert (Hzero : is_zero (of_Z n) = false).
  { destruct (is_zero (of_Z n)) eqn:N; [|reflexivity].
    apply is_zero_spec in N. destruct N as (s & N).
    rewrite Prim2SF_of_Z in N by exact Hn. congruence. }
  assert (Hinf : is_infinity (of_Z n) = false).
  { unfold is_infinity. rewrite FloatAxioms.eqb_spec, FloatAxioms.abs_spec, Prim2SF_of_Z, E by exact Hn.
    reflexivity. }
  unfold to_json. now rewrite Hnan, Hinf, Hzero.
Qed.

End Doubles.

(** ** A sum is never the negative zero *)

Section NegativeZero.

Local Open Scope Z_scope.

Lemma shr_1_m (mrs : shr_record) : 0 <= shr_m mrs -> shr_m (shr_1 mrs) = shr_m mrs / 2.
Proof.
  destruct mrs as [m r s]. cbn [shr_m]. intros Hm.
  rewrite <- Z.div2_div. destruct m as [|[p|p|]|p]; try reflexivity. lia.
Qed.

Lemma iter_shr_m (c : positive) (mrs : shr_record) :
  0 <= shr_m mrs ->
  shr_m (SpecFloat.iter_pos shr_1 c mrs) = shr_m mrs / 2 ^ Zpos c.
Proof.
  intros Hm. rewrite iter_pos_iter.
  induction c as [|c IH] using Pos.peano_ind.
  - cbn [Pos.iter]. rewrite shr_1_m by exact Hm. reflexivity.
  - rewrite Pos.iter_succ, shr_1_m, IH.
    + rewrite Pos2Z.inj_succ, Z.pow_succ_r, Z.div_div by lia.
      f_equal. lia.
    + rewrite IH. apply Z.div_pos; lia.
Qed.

Lemma shr_record_of_loc_m (m : Z) (l : location) : shr_m (shr_record_of_loc m l) = m.
Proof. destruct l as [|[| |]]; reflexivity. Qed.

Lemma shr_fexp_pos (m : positive) (e : Z) (l : location) :
  -1074 <= e ->
  1 <= shr_m (fst (shr_fexp prec emax (Zpos m) e l))
  /\ -1074 <= snd (shr_fexp prec emax (Zpos m) e l).
Proof.
  intros He. unfold shr_fexp, shr. cbn [Zdigits2].
  pose proof (digits2_pos_bounds m) as Hb.
  destruct (fexp prec emax (Zpos (digits2_pos m) + e) - e) as [|c|c] eqn:C;
    cbn [fst snd]; rewrite ?shr_record_of_loc_m; try lia.
  rewrite iter_shr_m, shr_record_of_loc_m by (rewrite shr_record_of_loc_m; lia).
  assert (Hc : Zpos c = Zpos (digits2_pos m) - 53).
  { revert C. unfold fexp, SpecFloat.emin, prec, emax. lia. }
  split; [|lia].
  apply Z.div_le_lower_bound; [apply Z.pow_pos_nonneg; lia|].
  assert (2 ^ Zpos c <= 2 ^ (Zpos (digits2_pos m) - 1)) by (apply Z.pow_le_mono_r; lia).
  lia.
Qed.

Lemma round_nearest_even_pos (m : Z) (l : location) : 1 <= m -> 1 <= round_nearest_even m l.
Proof.
  intros Hm. destruct l as [|[| |]]; cbn [round_nearest_even]; try lia.
  destruct (Z.even m); lia.
Qed.

Lemma binary_round_aux_nonzero (s s' : bool) (m : positive) (e : Z) (l : location) :
  -1074 <= e -> binary_round_aux prec emax s (Zpos m) e l <> S754_zero s'.
Proof.
  intros He. unfold binary_round_aux.
  destruct (shr_fexp_pos m e l He) as (H1 & H2).
  destruct (shr_fexp prec emax (Zpos m) e l) as [mrs' e']. cbn [fst snd] in H1, H2.
  pose proof (round_nearest_even_pos (shr_m mrs') (loc_of_shr_record mrs') H1) as H3.
  destruct (round_nearest_even (shr_m mrs') (loc_of_shr_record mrs')) as [|m1|m1]; try lia.
  destruct (shr_fexp_pos m1 e' loc_Exact H2) as (H4 & _).
  destruct (shr_fexp prec emax (Zpos m1) e' loc_Exact) as [mrs'' e'']. cbn [fst] in H4.
  destruct (shr_m mrs'') as [|m2|m2]; try lia.
  destruct (e'' <=? emax - prec); discriminate.
Qed.

Lemma binary_round_nonzero (s s' : bool) (m : positive) (e : Z) :
  -1074 <= e -> binary_round prec emax s m e <> S754_zero s'.
Proof.
  intros He. unfold binary_round, shl_align.
  assert (HE : -1074 <= fexp prec emax (Zpos (digits2_pos m) + e)).
  { unfold fexp, SpecFloat.emin, prec, emax. lia. }
  destruct (fexp prec emax (Zpos (digits2_pos m) + e) - e);
    now apply binary_round_aux_nonzero.
Qed.

Lemma valid_exponent (s : bool) (m : positive) (e : Z) :
  valid_binary (S754_finite s m e) = true -> -1074 <= e.
Proof.
  cbn [SpecFloat.valid_binary]. unfold bounded, canonical_mantissa. intros H.
  apply andb_true_iff in H. destruct H as (H & _). apply Z.eqb_eq in H.
  revert H. unfold fexp, SpecFloat.emin, prec, emax. lia.
Qed.

Lemma SFadd_neg_zero (x y : spec_float) :
  valid_binary x = true -> valid_binary y = true ->
  SFadd prec emax x y = S754_zero true -> x = S754_zero true.
Proof.
  intros Vx Vy.
  destruct x as [sx|sx| |sx mx ex], y as [sy|sy| |sy my ey]; cbn [SFadd];
    try discriminate; try (destruct sx, sy; discriminate); try (destruct sx; discriminate).
  - destruct sx, sy; try discriminate. reflexivity.
  - apply valid_exponent in Vx, Vy. intros H. exfalso.
    unfold binary_normalize in H.
    destruct (cond_Zopp sx _ + cond_Zopp sy _); [discriminate| |].
    + revert H. apply binary_round_nonzero. lia.
    + revert H. apply binary_round_nonzero. lia.
Qed.

Lemma add_neg_zero (x y : float) :
  Prim2SF (x + y)%float = S754_zero true -> Prim2SF x = S754_zero true.
Proof.
  rewrite FloatAxioms.add_spec. apply SFadd_neg_zero; apply Prim2SF_valid.
Qed.

(** Adding 0 to anything but the negative zero changes nothing. *)
Lemma add_zero_r (x : float) : Prim2SF x <> S754_zero true -> (x + 0)%float = x.
Proof.
  intros H. rewrite <- (SF2Prim_Prim2SF (x + 0)%float), FloatAxioms.add_spec.
  change (Prim2SF 0%float) with (S754_zero false).
  rewrite <- (SF2Prim_Prim2SF x) at 2. f_equal. unfold SF64add.
  destruct (Prim2SF x) as [[|]| | |]; try reflexivity. congruence.
Qed.

End NegativeZero.

Section Zero.

Lemma to_json_zero (x : float) : is_zero x = true -> to_json x = Some 0%float.
Proof.
  intros Hz. pose proof Hz as Hz'. apply is_zero_spec in Hz'. destruct Hz' as (s & Hx).
  assert (Hnan : is_nan x = false).
  { destruct (is_nan x) eqn:N; [|reflexivity]. apply is_nan_spec in N. congruence. }
  assert (Hinf : is_infinity x = false).
  { unfold is_infinity. rewrite FloatAxioms.eqb_spec, FloatAxioms.abs_spec, Hx. reflexivity. }
  unfold to_json. now rewrite Hnan, Hinf, Hz.
Qed.

Lemma of_Z_not_nan (n : Z) : (Z.abs n < 2 ^ 53)%Z -> is_nan (of_Z n) = false.
Proof.
  intros Hn. pose proof (to_json_of_Z n Hn) as H. now apply to_json_Some in H.
Qed.

End Zero.

(** ** [parseFloat] *)

Example parseFloat_25 : parseFloat "25" = 25.
Proof. reflexivity. Qed.

Example parseFloat_frac : parseFloat " 12.50abc" = 12.5.
Proof. reflexivity. Qed.

Example parseFloat_exp : parseFloat "-1.5e2" = -150.
Proof. reflexivity. Qed.

Example parseFloat_dot : parseFloat ".5" = 0.5 /\ parseFloat "5." = 5
                         /\ parseFloat "." = nan /\ parseFloat "1e" = 1.
Proof. repeat split; reflexivity. Qed.

Example parseFloat_empty : parseFloat "" = nan.
Proof. reflexivity. Qed.

Example parseFloat_inf : parseFloat "-Infinity" = neg_infinity.
Proof. reflexivity. Qed.

(** The decimal that was typed is rounded to the nearest double, and to an
    infinity or to zero when it is out of range. *)
Example parseFloat_rounds :
  parseFloat "0.1" = 0.1 /\ parseFloat "50.0000000000000001" = 50
  /\ parseFloat "9007199254740993" = 9007199254740992
  /\ parseFloat "1e400" = infinity /\ parseFloat "-1e400" = neg_infinity
  /\ parseFloat "1e-400" = 0 /\ parseFloat "5e-324" = 5e-324.
Proof. repeat split; reflexivity. Qed.

(** Sums of doubles round: the order of the additions matters. *)
Example sums_round :
  0.1 + 0.2 = 0.30000000000000004 /\ gt (0.1 + 0.2) 0.3 = true
  /\ 0.3 + 0.2 + 0.1 = 0.6 /\ 0.3 + (0.2 + 0.1) = 0.6000000000000001.
Proof. repeat split; reflexivity. Qed.

(** ** Strings *)

Lemma truthy_false (s : string) : truthy s = false <-> s = "".
Proof.
  unfold truthy. rewrite negb_false_iff. apply String.eqb_eq.
Qed.

Lemma truthy_true (s : string) : truthy s = true <-> s <> "".
Proof.
  unfold truthy. rewrite negb_true_iff. apply String.eqb_neq.
Qed.

(** ** The daily-log form *)

Section ValidateQuantity.

Variables (boqItems : list BoqItem.t) (dailyLogs : list DailyLog.t).

Lemma validateQuantity_skips (formData : FormData) :
  boqItemId formData = "" \/ quantityExecuted formData = "" ->
  Ledger.validateQuantity boqItems dailyLogs formData
  = {| valid := true; message := None; remaining := None |}.
Proof.
  intros H. unfold Ledger.validateQuantity.
  destruct H as [H | H]; rewrite H; simpl; [reflexivity|].
  now rewrite orb_true_r.
Qed.

Lemma validateQuantity_invalid_inv (formData : FormData) :
  valid (Ledger.validateQuantity boqItems dailyLogs formData) = false ->
  boqItemId formData <> "" /\ quantityExecuted formData <> "".
Proof.
  intros H. split; intros E;
    rewrite validateQuantity_skips in H by auto; discriminate.
Qed.

(** What [validateQuantity] answers once both fields are filled in and
    the item is found. *)
Lemma validateQuantity_found (formData : FormData) (b : BoqItem.t) :
  boqItemId formData <> "" -> quantityExecuted formData <> "" ->
  List.find (fun b => String.eqb (BoqItem.id b) (boqItemId formData)) boqItems = Some b ->
  let totalAfterNew :=
    Ledger.approvedQty dailyLogs (boqItemId formData)
    + Ledger.pendingQty dailyLogs (boqItemId formData)
    + parseFloat (quantityExecuted formData) in
  Ledger.validateQuantity boqItems dailyLogs formData
  = if gt totalAfterNew (BoqItem.total_metrado b)
    then {| valid := false;
            message := Some (MayorMetrado totalAfterNew (BoqItem.total_metrado b));
            remaining := None |}
    else {| valid := true; message := None;
            remaining := Some (BoqItem.total_metrado b - totalAfterNew) |}.
Proof.
  intros Hi Hq Hfind. unfold Ledger.validateQuantity.
  apply truthy_true in Hi, Hq. rewrite Hi, Hq. cbn [negb orb]. now rewrite Hfind.
Qed.

(** The over-budget branch, spelled out. *)
Lemma validateQuantity_over (formData : FormData) (b : BoqItem.t) :
  boqItemId formData <> "" ->
  List.find (fun b => String.eqb (BoqItem.id b) (boqItemId formData)) boqItems = Some b ->
  gt (Ledger.approvedQty dailyLogs (boqItemId formData)
      + Ledger.pendingQty dailyLogs (boqItemId formData)
      + parseFloat (quantityExecuted formData))
     (BoqItem.total_metrado b) = true ->
  Ledger.validateQuantity boqItems dailyLogs formData
  = {| valid := false;
       message :=
         Some (MayorMetrado
                 (Ledger.approvedQty dailyLogs (boqItemId formData)
                  + Ledger.pendingQty dailyLogs (boqItemId formData)
                  + parseFloat (quantityExecuted formData))
                 (BoqItem.total_metrado b));
       remaining := None |}.
Proof.
  intros Hid Hfind Hgt.
  assert (Hq : quantityExecuted formData <> "").
  { intros E. rewrite E in Hgt. change (parseFloat "") with nan in Hgt.
    now rewrite gt_add_nan in Hgt. }
  rewrite (validateQuantity_found formData b Hid Hq Hfind). cbv zeta. now rewrite Hgt.
Qed.

End ValidateQuantity.

(** C9.  [validateQuantity] answers [{ valid: true }] as soon as the selected
    item id or the typed quantity is empty, and it does so whatever the
    items and the logs are: nothing is compared with the budget then, so the
    over-budget answer needs both fields filled in. *)
Theorem validateQuantity_skipped_when_empty
        (boqItems : list BoqItem.t) (dailyLogs : list DailyLog.t) (formData : FormData) :
  boqItemId formData = "" \/ quantityExecuted formData = "" ->
  Ledger.validateQuantity boqItems dailyLogs formData
  = {| valid := true; message := None; remaining := None |}
  /\ (forall boqItems' dailyLogs',
        Ledger.validateQuantity boqItems' dailyLogs' formData
        = Ledger.validateQuantity boqItems dailyLogs formData).
Proof.
  intros H. split.
  - now apply validateQuantity_skips.
  - intros. now rewrite !validateQuantity_skips.
Qed.

Lemma validateQuantity_skipped_when_empty_witness :
  (boqItemId (Sample.form "b1" "") = "" \/ quantityExecuted (Sample.form "b1" "") = "")
  /\ Ledger.validateQuantity [Sample.b1] [Sample.log "l1" 50 "approved"] (Sample.form "b1" "")
     = {| valid := true; message := None; remaining := None |}.
Proof.
  split.
  - right. reflexivity.
  - apply (validateQuantity_skipped_when_empty
             [Sample.b1] [Sample.log "l1" 50 "approved"] (Sample.form "b1" "")).
    right. reflexivity.
Defined.

(** C2 fails on the code.  The quantity left is measured on the list
    [dailyLogs] of the client, which only the realtime callback refreshes:
    with 30 of 50 stored as pending and a screen that has not received that
    log, a form of 25 (5 more than what is left) is validated against an
    empty list, its log is stored and 55 are pending.  And the typed decimal
    is rounded before it is compared: 50.0000000000000001 on a budget of 50
    is read as 50 and stored. *)
Lemma over_budget_quantity_is_stored :
  let daily_logs := [Sample.log "l1" 30 "pending"] in
  let r := Ledger.handleSubmit Sample.foreman [Sample.b1] [] (Sample.form "b1" "25")
                               None None (InsertOk "l2") daily_logs in
  let r' := Ledger.handleSubmit Sample.foreman [Sample.b1] []
                                (Sample.form "b1" "50.0000000000000001")
                                None None (InsertOk "l1") [] in
  BoqItem.total_metrado Sample.b1 = 50
  /\ Ledger.approvedQty daily_logs "b1" = 0
  /\ Ledger.pendingQty daily_logs "b1" = 30
  /\ gt (parseFloat "25") (50 - 0 - 30) = true
  /\ Ledger.table r
     = [Sample.log "l1" 30 "pending";
        submitted Sample.foreman (Sample.form "b1" "25") None None "l2"]
  /\ Ledger.toasts r = [addToast (Text "Reporte enviado correctamente") success]
  /\ Ledger.pendingQty (Ledger.table r) "b1" = 55
  /\ (exists typed : Q,
         decimal (read "50.0000000000000001") = Some typed /\ (50 < typed)%Q)
  /\ Ledger.table r'
     = [submitted Sample.foreman (Sample.form "b1" "50.0000000000000001") None None "l1"]
  /\ Ledger.pendingQty (Ledger.table r') "b1" = 50.
Proof.
  cbv zeta. repeat split; try reflexivity.
  eexists. split; [vm_compute; reflexivity|]. reflexivity.
Qed.

(** C2, as the code has it.  When the selected item is among [boqItems] and
    the total that [validateQuantity] computes in doubles from the client's
    [dailyLogs] (approved plus pending plus the parsed quantity) is above
    [total_metrado], [handleSubmit] shows the over-budget error, sends
    nothing (the table of daily logs is the same whatever the backend would
    have answered, and so are the approved and pending quantities), and
    keeps the form. *)
Theorem handleSubmit_over_budget
        (ctx : Ctx) (boqItems : list BoqItem.t) (dailyLogs : list DailyLog.t)
        (formData : FormData) (evidenceFile upload : option string)
        (reply : InsertReply) (daily_logs : list DailyLog.t) (b : BoqItem.t) :
  boqItemId formData <> "" ->
  List.find (fun b => String.eqb (BoqItem.id b) (boqItemId formData)) boqItems = Some b ->
  gt (Ledger.approvedQty dailyLogs (boqItemId formData)
      + Ledger.pendingQty dailyLogs (boqItemId formData)
      + parseFloat (quantityExecuted formData))
     (BoqItem.total_metrado b) = true ->
  let r := Ledger.handleSubmit ctx boqItems dailyLogs formData evidenceFile upload
                               reply daily_logs in
  Ledger.table r = daily_logs
  /\ Ledger.toasts r
     = [addToast
          (MayorMetrado
             (Ledger.approvedQty dailyLogs (boqItemId formData)
              + Ledger.pendingQty dailyLogs (boqItemId formData)
              + parseFloat (quantityExecuted formData))
             (BoqItem.total_metrado b)) error]
  /\ Ledger.form r = formData
  /\ (forall id, Ledger.approvedQty (Ledger.table r) id = Ledger.approvedQty daily_logs id
                 /\ Ledger.pendingQty (Ledger.table r) id = Ledger.pendingQty daily_logs id).
Proof.
  intros Hid Hfind Hgt r.
  assert (Hr : r = {| Ledger.table := daily_logs;
                      Ledger.toasts :=
                        [addToast
                           (MayorMetrado
                              (Ledger.approvedQty dailyLogs (boqItemId formData)
                               + Ledger.pendingQty dailyLogs (boqItemId formData)
                               + parseFloat (quantityExecuted formData))
                              (BoqItem.total_metrado b)) error];
                      Ledger.form := formData; Ledger.file := evidenceFile |}).
  { subst r. unfold Ledger.handleSubmit.
    rewrite (validateQuantity_over _ _ _ b) by assumption. reflexivity. }
  rewrite Hr. simpl. repeat split; reflexivity.
Qed.

Lemma handleSubmit_over_budget_witness :
  let dailyLogs := [Sample.log "l1" 30 "pending"] in
  let r := Ledger.handleSubmit Sample.foreman [Sample.b1] dailyLogs (Sample.form "b1" "25")
                               None None (InsertOk "l2") dailyLogs in
  Ledger.table r = dailyLogs
  /\ Ledger.toasts r = [addToast (MayorMetrado 55 50) error].
Proof.
  intros dailyLogs r.
  destruct (handleSubmit_over_budget Sample.foreman [Sample.b1] dailyLogs
              (Sample.form "b1" "25") None None (InsertOk "l2") dailyLogs Sample.b1)
    as (Ht & Hm & _).
  - discriminate.
  - reflexivity.
  - reflexivity.
  - split; [exact Ht | exact Hm].
Defined.

(** ** Approved and pending totals *)

Lemma qty_with_status_quantities (st : string) (ls : list DailyLog.t) (id : string) :
  Ledger.qty_with_status st ls id = fold_left add_json (quantities st ls id) 0.
Proof.
  unfold Ledger.qty_with_status, quantities. fold (counted id st).
  generalize 0. induction (List.filter (counted id st) ls) as [|l r IH]; intros a.
  - reflexivity.
  - simpl. apply IH.
Qed.

Lemma quantities_app (st : string) (xs ys : list DailyLog.t) (id : string) :
  quantities st (xs ++ ys) id = (quantities st xs id ++ quantities st ys id)%list.
Proof. unfold quantities. now rewrite List.filter_app, map_app. Qed.

Lemma quantities_cons (st : string) (l : DailyLog.t) (ls : list DailyLog.t) (id : string) :
  quantities st (l :: ls) id
  = if counted id st l then DailyLog.quantity_executed l :: quantities st ls id
    else quantities st ls id.
Proof. unfold quantities. simpl. now destruct (counted id st l). Qed.

(** No total is the negative zero: the sum starts from 0. *)
Lemma fold_add_json_not_neg_zero (qs : list (option jsnum)) (a : jsnum) :
  Prim2SF a <> S754_zero true -> Prim2SF (fold_left add_json qs a) <> S754_zero true.
Proof.
  revert a. induction qs as [|q r IH]; intros a Ha; [exact Ha|].
  simpl. apply IH. intros E. apply Ha.
  destruct q as [x|]; now apply add_neg_zero in E.
Qed.

Lemma qty_with_status_not_neg_zero (st : string) (ls : list DailyLog.t) (id : string) :
  Prim2SF (Ledger.qty_with_status st ls id) <> S754_zero true.
Proof.
  rewrite qty_with_status_quantities. apply fold_add_json_not_neg_zero. discriminate.
Qed.

(** A log added at the end of the table adds its quantity to the total it
    counts for, and nothing to the others; a quantity [null] adds nothing. *)
Lemma qty_with_status_snoc (st : string) (ls : list DailyLog.t) (l : DailyLog.t) (id : string) :
  Ledger.qty_with_status st (ls ++ [l]) id
  = if counted id st l
    then match DailyLog.quantity_executed l with
         | Some q => Ledger.qty_with_status st ls id + q
         | None => Ledger.qty_with_status st ls id
         end
    else Ledger.qty_with_status st ls id.
Proof.
  rewrite !qty_with_status_quantities, quantities_app, fold_left_app, quantities_cons.
  destruct (counted id st l); [|reflexivity].
  destruct (DailyLog.quantity_executed l) as [q|]; [reflexivity|]. simpl.
  apply add_zero_r. apply fold_add_json_not_neg_zero. discriminate.
Qed.

(** ** Totals of whole numbers *)

Section WholeNumbers.

Local Open Scope Z_scope.

Lemma whole_units (q : option jsnum) : Site.whole_json q -> 0 <= Site.units q < 2 ^ 52.
Proof. destruct q as [x|]; simpl; [now intros (_ & H) | lia]. Qed.

Lemma units_total_nonneg (qs : list (option jsnum)) :
  Forall Site.whole_json qs -> 0 <= units_total qs.
Proof.
  induction 1 as [|q r Hq _ IH]; simpl; [lia|]. apply whole_units in Hq. lia.
Qed.

(** The sum of whole numbers, as the code adds them, is the double of
    their sum as long as that stays below [2^53]. *)
Lemma fold_add_json_whole (qs : list (option jsnum)) (a : Z) :
  Forall Site.whole_json qs -> 0 <= a -> a + units_total qs < 2 ^ 53 ->
  fold_left add_json qs (of_Z a) = of_Z (a + units_total qs).
Proof.
  intros H. revert a. induction H as [|q r Hq Hr IH]; intros a Ha Hs; simpl in *.
  - now rewrite Z.add_0_r.
  - pose proof (whole_units q Hq) as Hu. pose proof (units_total_nonneg r Hr) as Ht.
    assert (Hstep : add_json (of_Z a) q = of_Z (a + Site.units q)).
    { destruct q as [x|]; simpl in *.
      - destruct Hq as (Hx & _). rewrite Hx at 1. apply add_of_Z; lia.
      - change (0%float) with (of_Z 0). apply add_of_Z; lia. }
    rewrite Hstep, IH by lia. f_equal. lia.
Qed.

Lemma sum_with_status_units (st : string) (ls : list DailyLog.t) (id : string) :
  Site.sum_with_status st ls id = units_total (quantities st ls id).
Proof.
  unfold Site.sum_with_status, quantities. fold (counted id st).
  induction (List.filter (counted id st) ls) as [|l r IH]; simpl; [reflexivity|].
  now rewrite IH.
Qed.

Lemma quantities_whole (st : string) (ls : list DailyLog.t) (id : string) :
  Forall (fun l => Site.whole_json (DailyLog.quantity_executed l)) ls ->
  Forall Site.whole_json (quantities st ls id).
Proof.
  intros H. unfold quantities. apply Forall_forall. intros q Hq.
  apply list_elem_of_In, in_map_iff in Hq. destruct Hq as (l & <- & Hl).
  apply List.filter_In in Hl. destruct Hl as (Hl & _).
  rewrite Forall_forall in H. apply H. now apply list_elem_of_In.
Qed.

Lemma sum_with_status_nonneg (st : string) (ls : list DailyLog.t) (id : string) :
  Forall (fun l => Site.whole_json (DailyLog.quantity_executed l)) ls ->
  0 <= Site.sum_with_status st ls id.
Proof.
  intros H. rewrite sum_with_status_units.
  now apply units_total_nonneg, quantities_whole.
Qed.

(** The totals [validateQuantity] computes, on whole numbers. *)
Lemma qty_with_status_whole (st : string) (ls : list DailyLog.t) (id : string) :
  Forall (fun l => Site.whole_json (DailyLog.quantity_executed l)) ls ->
  Site.sum_with_status st ls id < 2 ^ 53 ->
  Ledger.qty_with_status st ls id = of_Z (Site.sum_with_status st ls id).
Proof.
  intros H Hs. rewrite qty_with_status_quantities, sum_with_status_units in *.
  change (0%float) with (of_Z 0). rewrite fold_add_json_whole; try lia.
  - reflexivity.
  - now apply quantities_whole.
Qed.

Lemma sum_with_status_cons (st : string) (l : DailyLog.t) (ls : list DailyLog.t)
      (id : string) :
  Site.sum_with_status st (l :: ls) id
  = (if counted id st l then Site.units (DailyLog.quantity_executed l) else 0)
    + Site.sum_with_status st ls id.
Proof.
  rewrite !sum_with_status_units, quantities_cons. now destruct (counted id st l).
Qed.

Lemma units_total_app (xs ys : list (option jsnum)) :
  units_total (xs ++ ys) = units_total xs + units_total ys.
Proof. induction xs as [|x r IH]; simpl; [reflexivity | rewrite IH; lia]. Qed.

Lemma sum_with_status_snoc (st : string) (ls : list DailyLog.t) (l : DailyLog.t)
      (id : string) :
  Site.sum_with_status st (ls ++ [l]) id
  = Site.sum_with_status st ls id
    + (if counted id st l then Site.units (DailyLog.quantity_executed l) else 0).
Proof.
  rewrite !sum_with_status_units, quantities_app, units_total_app, quantities_cons.
  destruct (counted id st l); simpl; lia.
Qed.

End WholeNumbers.

(** ** What a review does to the totals *)

Section Review.

Variables (ctx : Ctx) (logId : string) (reason : option string).

Local Open Scope Z_scope.

Lemma review_hit (status : string) (l : DailyLog.t) :
  String.eqb (DailyLog.id l) logId = true ->
  review ctx logId reason status l = Ledger.reviewed ctx status reason l.
Proof. unfold review. now intros ->. Qed.

Lemma review_miss (status : string) (l : DailyLog.t) :
  String.eqb (DailyLog.id l) logId = false -> review ctx logId reason status l = l.
Proof. unfold review. now intros ->. Qed.

Lemma review_quantity (status : string) (l : DailyLog.t) :
  DailyLog.quantity_executed (review ctx logId reason status l) = DailyLog.quantity_executed l.
Proof. unfold review. destruct (String.eqb _ _); reflexivity. Qed.

Lemma review_whole (status : string) (ls : list DailyLog.t) :
  Forall (fun l => Site.whole_json (DailyLog.quantity_executed l)) ls ->
  Forall (fun l => Site.whole_json (DailyLog.quantity_executed l))
         (map (review ctx logId reason status) ls).
Proof.
  induction 1 as [|l r Hl _ IH]; simpl; constructor; [|exact IH].
  now rewrite review_quantity.
Qed.

(** Approving logs that are all pending moves their quantity from the
    pending to the approved sum. *)
Lemma approve_keeps_sum (ls : list DailyLog.t) (id : string) :
  (forall l, In l ls -> DailyLog.id l = logId -> DailyLog.status l = "pending") ->
  Site.sum_with_status "approved" (map (review ctx logId reason "approved") ls) id
  + Site.sum_with_status "pending" (map (review ctx logId reason "approved") ls) id
  = Site.sum_with_status "approved" ls id + Site.sum_with_status "pending" ls id.
Proof.
  induction ls as [|l r IH]; intros Hp; simpl map.
  - reflexivity.
  - rewrite !sum_with_status_cons.
    assert (IH' := IH (fun x Hx => Hp x (or_intror Hx))). clear IH.
    assert (Hl := Hp l (or_introl eq_refl)). clear Hp.
    destruct (String.eqb (DailyLog.id l) logId) eqn:E.
    + rewrite (review_hit "approved" l E). unfold counted. simpl.
      apply String.eqb_eq in E. rewrite (Hl E). simpl.
      rewrite ?andb_false_r, ?andb_true_r.
      destruct (String.eqb (DailyLog.boq_item_id l) id); lia.
    + rewrite (review_miss "approved" l E). lia.
Qed.

(** Rejecting logs that are all pending, none of a negative quantity,
    leaves the approved sum and does not raise the pending one. *)
Lemma reject_lowers_sum (ls : list DailyLog.t) (id : string) :
  (forall l, In l ls -> DailyLog.id l = logId -> DailyLog.status l = "pending") ->
  Forall (fun l => Site.whole_json (DailyLog.quantity_executed l)) ls ->
  Site.sum_with_status "approved" (map (review ctx logId reason "rejected") ls) id
  + Site.sum_with_status "pending" (map (review ctx logId reason "rejected") ls) id
  <= Site.sum_with_status "approved" ls id + Site.sum_with_status "pending" ls id.
Proof.
  induction ls as [|l r IH]; intros Hp Hn; simpl map.
  - lia.
  - rewrite !sum_with_status_cons.
    assert (IH' := IH (fun x Hx => Hp x (or_intror Hx)) (Forall_inv_tail Hn)). clear IH.
    assert (Hl := Hp l (or_introl eq_refl)). clear Hp.
    assert (H0 := whole_units _ (Forall_inv Hn)).
    destruct (String.eqb (DailyLog.id l) logId) eqn:E.
    + rewrite (review_hit "rejected" l E). unfold counted. simpl.
      apply String.eqb_eq in E. rewrite (Hl E). simpl.
      rewrite ?andb_false_r, ?andb_true_r.
      destruct (String.eqb (DailyLog.boq_item_id l) id); lia.
    + rewrite (review_miss "rejected" l E). lia.
Qed.

End Review.

(** ** One operation at a time *)

Lemma updateLogStatus_review (ctx : Ctx) (logId status : string) (reason : option string)
      (reply : UpdateReply) (daily_logs : list DailyLog.t) :
  fst (Ledger.updateLogStatus ctx logId status reason reply daily_logs)
  = match reply with
    | UpdateOk => map (review ctx logId reason status) daily_logs
    | UpdateError _ => daily_logs
    end.
Proof. destruct reply; reflexivity. Qed.

Lemma handleApproveLog_table (ctx : Ctx) (logId : string) (reply : UpdateReply)
      (daily_logs : list DailyLog.t) :
  fst (Ledger.handleApproveLog ctx logId reply daily_logs)
  = match reply with
    | UpdateOk => map (review ctx logId None "approved") daily_logs
    | UpdateError _ => daily_logs
    end.
Proof. destruct reply; reflexivity. Qed.

Lemma handleRejectLog_table (ctx : Ctx) (logId : string) (reason : option string)
      (reply : UpdateReply) (daily_logs : list DailyLog.t) :
  fst (Ledger.handleRejectLog ctx logId reason reply daily_logs) = daily_logs
  \/ fst (Ledger.handleRejectLog ctx logId reason reply daily_logs)
     = map (review ctx logId reason "rejected") daily_logs.
Proof.
  unfold Ledger.handleRejectLog.
  destruct reason as [r|]; [|now left].
  destruct (truthy r); [|now left].
  destruct reply; [right | left]; reflexivity.
Qed.

(** [handleSubmit] either leaves the table alone or adds the one row of the
    form, and the second only after [validateQuantity] said [valid]. *)
Lemma handleSubmit_table (ctx : Ctx) (boqItems : list BoqItem.t) (dailyLogs : list DailyLog.t)
      (formData : FormData) (evidenceFile upload : option string) (reply : InsertReply)
      (daily_logs : list DailyLog.t) :
  let r := Ledger.handleSubmit ctx boqItems dailyLogs formData evidenceFile upload
                               reply daily_logs in
  Ledger.table r = daily_logs
  \/ exists new_id,
      reply = InsertOk new_id
      /\ valid (Ledger.validateQuantity boqItems dailyLogs formData) = true
      /\ Ledger.table r
         = (daily_logs ++ [submitted ctx formData evidenceFile upload new_id])%list.
Proof.
  unfold Ledger.handleSubmit.
  destruct (valid (Ledger.validateQuantity boqItems dailyLogs formData)) eqn:V; simpl.
  - destruct reply as [new_id|m]; simpl.
    + right. exists new_id. repeat split. unfold submitted.
      destruct evidenceFile, upload; reflexivity.
    + now left.
  - now left.
Qed.

(** Once [validateQuantity] said [valid] and the backend accepted the
    insert, the row of the form is in the table. *)
Lemma handleSubmit_stored (ctx : Ctx) (boqItems : list BoqItem.t) (dailyLogs : list DailyLog.t)
      (formData : FormData) (evidenceFile upload : option string) (new_id : string)
      (daily_logs : list DailyLog.t) :
  valid (Ledger.validateQuantity boqItems dailyLogs formData) = true ->
  let r := Ledger.handleSubmit ctx boqItems dailyLogs formData evidenceFile upload
                               (InsertOk new_id) daily_logs in
  Ledger.table r = (daily_logs ++ [submitted ctx formData evidenceFile upload new_id])%list
  /\ Ledger.toasts r = [addToast (Text "Reporte enviado correctamente") success].
Proof.
  intros V. unfold Ledger.handleSubmit. rewrite V. simpl.
  split; [|reflexivity]. unfold submitted. destruct evidenceFile, upload; reflexivity.
Qed.

Lemma validateQuantity_valid_inv (boqItems : list BoqItem.t) (dailyLogs : list DailyLog.t)
      (formData : FormData) :
  valid (Ledger.validateQuantity boqItems dailyLogs formData) = true ->
  boqItemId formData = "" \/ quantityExecuted formData = ""
  \/ exists b,
      List.find (fun b => String.eqb (BoqItem.id b) (boqItemId formData)) boqItems = Some b
      /\ gt (Ledger.approvedQty dailyLogs (boqItemId formData)
             + Ledger.pendingQty dailyLogs (boqItemId formData)
             + parseFloat (quantityExecuted formData))
            (BoqItem.total_metrado b) = false.
Proof.
  unfold Ledger.validateQuantity.
  destruct (truthy (boqItemId formData)) eqn:Ti; simpl.
  2:{ intros _. left. now apply truthy_false. }
  destruct (truthy (quantityExecuted formData)) eqn:Tq; simpl.
  2:{ intros _. right. left. now apply truthy_false. }
  destruct (List.find _ boqItems) as [b|]; [|discriminate].
  destruct (gt _ _) eqn:G; [discriminate|].
  intros _. right. right. exists b. now split.
Qed.

Section Steps.

Variable boq_items : list BoqItem.t.

Local Open Scope Z_scope.

Let quantities_ok (daily_logs : list DailyLog.t) : Prop :=
  Forall (fun l => Site.whole_json (DailyLog.quantity_executed l)) daily_logs.

(** Within the budget, the totals the code computes are the doubles of
    the two sums, and their sum is not above [total_metrado]. *)
Lemma within_budget_totals (daily_logs : list DailyLog.t) (id : string) (b : BoqItem.t) :
  quantities_ok daily_logs ->
  Site.within_budget boq_items daily_logs ->
  id <> "" ->
  List.find (fun b => String.eqb (BoqItem.id b) id) boq_items = Some b ->
  Ledger.approvedQty daily_logs id = of_Z (Site.sum_with_status "approved" daily_logs id)
  /\ Ledger.pendingQty daily_logs id = of_Z (Site.sum_with_status "pending" daily_logs id)
  /\ gt (Ledger.approvedQty daily_logs id + Ledger.pendingQty daily_logs id)%float
        (BoqItem.total_metrado b) = false.
Proof.
  intros Hq Hb Hid Hfind. destruct (Hb id b Hid Hfind) as ((HT & HT') & Hs).
  pose proof (sum_with_status_nonneg "approved" daily_logs id Hq) as Ha.
  pose proof (sum_with_status_nonneg "pending" daily_logs id Hq) as Hp.
  assert (EA : Ledger.approvedQty daily_logs id
               = of_Z (Site.sum_with_status "approved" daily_logs id)).
  { apply qty_with_status_whole; [exact Hq | lia]. }
  assert (EP : Ledger.pendingQty daily_logs id
               = of_Z (Site.sum_with_status "pending" daily_logs id)).
  { apply qty_with_status_whole; [exact Hq | lia]. }
  split; [exact EA|]. split; [exact EP|].
  rewrite EA, EP, HT, add_of_Z by lia. unfold gt. rewrite ltb_of_Z by lia.
  apply Z.ltb_ge. lia.
Qed.

Lemma submit_keeps_budget (ctx : Ctx) (boqItems : list BoqItem.t)
      (dailyLogs : list DailyLog.t) (formData : FormData)
      (evidenceFile upload : option string) (reply : InsertReply)
      (daily_logs : list DailyLog.t) :
  let a := Site.Submit ctx boqItems dailyLogs formData evidenceFile upload reply in
  quantities_ok daily_logs ->
  Site.within_budget boq_items daily_logs ->
  Site.up_to_date boq_items daily_logs a ->
  quantities_ok (Site.step daily_logs a)
  /\ Site.within_budget boq_items (Site.step daily_logs a).
Proof.
  intros a Hq Hb (Hitems & Ha & Hp & Hn). subst a. simpl Site.step.
  destruct (handleSubmit_table ctx boqItems dailyLogs formData evidenceFile upload
                               reply daily_logs) as [-> | (new_id & _ & V & ->)].
  - now split.
  - split.
    + apply Forall_app. split; [exact Hq|]. constructor; [exact Hn | constructor].
    + intros id b Hid Hfind.
      destruct (Hb id b Hid Hfind) as (HT & Hs). split; [exact HT|].
      rewrite !sum_with_status_snoc. unfold counted. simpl.
      rewrite andb_false_r, andb_true_r.
      destruct (String.eqb (boqItemId formData) id) eqn:E; [|lia].
      apply String.eqb_eq in E.
      destruct (to_json (parseFloat (quantityExecuted formData))) as [y|] eqn:J;
        simpl; [|lia].
      apply to_json_Some in J. destruct J as (Hnan & [(_ & ->) | (_ & ->)]).
      { change (to_Z 0%float) with 0. lia. }
      apply validateQuantity_valid_inv in V.
      destruct V as [V | [V | (b' & Hfind' & G)]].
      * congruence.
      * rewrite V in Hnan. discriminate Hnan.
      * rewrite Hitems, E, Hfind in Hfind'. injection Hfind' as <-.
        rewrite E in *. rewrite Ha, Hp in G.
        destruct (within_budget_totals daily_logs id b Hq Hb Hid Hfind) as (EA & EP & _).
        destruct HT as (HT & HT'). destruct Hn as (Hx & Hx').
        pose proof (sum_with_status_nonneg "approved" daily_logs id Hq) as H1.
        pose proof (sum_with_status_nonneg "pending" daily_logs id Hq) as H2.
        rewrite EA, EP, Hx, HT in G.
        rewrite !add_of_Z in G by lia. unfold gt in G. rewrite ltb_of_Z in G by lia.
        apply Z.ltb_ge in G. lia.
Qed.

Lemma approve_keeps_budget (ctx : Ctx) (logId : string) (reply : UpdateReply)
      (daily_logs : list DailyLog.t) :
  let a := Site.Approve ctx logId reply in
  quantities_ok daily_logs ->
  Site.within_budget boq_items daily_logs ->
  Site.up_to_date boq_items daily_logs a ->
  quantities_ok (Site.step daily_logs a)
  /\ Site.within_budget boq_items (Site.step daily_logs a).
Proof.
  intros a Hq Hb Hp. subst a. simpl Site.step. rewrite handleApproveLog_table.
  destruct reply; [|now split]. split.
  - now apply review_whole.
  - intros id b Hid Hfind. rewrite approve_keeps_sum by exact Hp. now apply Hb.
Qed.

Lemma reject_keeps_budget (ctx : Ctx) (logId : string) (reason : option string)
      (reply : UpdateReply) (daily_logs : list DailyLog.t) :
  let a := Site.Reject ctx logId reason reply in
  quantities_ok daily_logs ->
  Site.within_budget boq_items daily_logs ->
  Site.up_to_date boq_items daily_logs a ->
  quantities_ok (Site.step daily_logs a)
  /\ Site.within_budget boq_items (Site.step daily_logs a).
Proof.
  intros a Hq Hb Hp. subst a. simpl Site.step.
  destruct (handleRejectLog_table ctx logId reason reply daily_logs) as [-> | ->];
    [now split|]. split.
  - now apply review_whole.
  - intros id b Hid Hfind. destruct (Hb id b Hid Hfind) as (HT & Hs).
    split; [exact HT|].
    eapply Z.le_trans; [apply reject_lowers_sum; assumption | exact Hs].
Qed.

Lemma step_keeps_budget (a : Site.Action) (daily_logs : list DailyLog.t) :
  quantities_ok daily_logs ->
  Site.within_budget boq_items daily_logs ->
  Site.up_to_date boq_items daily_logs a ->
  quantities_ok (Site.step daily_logs a)
  /\ Site.within_budget boq_items (Site.step daily_logs a).
Proof.
  destruct a.
  - apply submit_keeps_budget.
  - apply approve_keeps_budget.
  - apply reject_keeps_budget.
Qed.

Lemma run_keeps_budget (actions : list Site.Action) (daily_logs : list DailyLog.t) :
  quantities_ok daily_logs ->
  Site.within_budget boq_items daily_logs ->
  Site.all_up_to_date boq_items daily_logs actions ->
  quantities_ok (Site.run daily_logs actions)
  /\ Site.within_budget boq_items (Site.run daily_logs actions).
Proof.
  revert daily_logs. induction actions as [|a rest IH]; intros daily_logs Hq Hb Hu.
  - now split.
  - destruct Hu as (Ha & Hrest). simpl.
    destruct (step_keeps_budget a daily_logs Hq Hb Ha) as (Hq' & Hb').
    now apply IH.
Qed.

End Steps.

(** ** The budget along a sequence of operations *)

Ltac whole_number :=
  split; [vm_compute; reflexivity | vm_compute; split; [discriminate | reflexivity]].

Lemma within_budget_b1_empty : Site.within_budget [Sample.b1] [].
Proof.
  intros id b _ Hfind.
  change (List.find _ _) with (if String.eqb "b1" id then Some Sample.b1 else None) in Hfind.
  destruct (String.eqb "b1" id); [|discriminate].
  injection Hfind as <-. split; [whole_number|]. vm_compute. discriminate.
Qed.

(** C1, as the code has it.  Start from stored logs whose quantities are
    whole numbers below [2^52] (or [null]) and are within the budgets, which
    are whole numbers below [2^52] too.  Along any sequence of submissions,
    approvals and rejections in which every form is validated against the
    stored items and against logs giving the stored approved and pending
    totals of its item, every typed quantity is a whole number from 0 to
    [2^52 - 1] (or is sent as [null]), and a log is approved or rejected only
    while the stored logs of that id are pending, the approved plus the
    pending quantity of every item stays within its [total_metrado]: as
    whole numbers, and in the doubles the code computes, which are exact
    then. *)
Theorem budget_kept_on_up_to_date_screens
        (boq_items : list BoqItem.t) (daily_logs : list DailyLog.t)
        (actions : list Site.Action) :
  Forall (fun l => Site.whole_json (DailyLog.quantity_executed l)) daily_logs ->
  Site.within_budget boq_items daily_logs ->
  Site.all_up_to_date boq_items daily_logs actions ->
  Site.within_budget boq_items (Site.run daily_logs actions)
  /\ Forall (fun l => Site.whole_json (DailyLog.quantity_executed l))
            (Site.run daily_logs actions)
  /\ (forall id b,
         id <> "" ->
         List.find (fun b => String.eqb (BoqItem.id b) id) boq_items = Some b ->
         Ledger.approvedQty (Site.run daily_logs actions) id
         = of_Z (Site.sum_with_status "approved" (Site.run daily_logs actions) id)
         /\ Ledger.pendingQty (Site.run daily_logs actions) id
            = of_Z (Site.sum_with_status "pending" (Site.run daily_logs actions) id)
         /\ gt (Ledger.approvedQty (Site.run daily_logs actions) id
                + Ledger.pendingQty (Site.run daily_logs actions) id)
               (BoqItem.total_metrado b) = false).
Proof.
  intros Hq Hb Hu.
  destruct (run_keeps_budget boq_items actions daily_logs Hq Hb Hu) as (Hq' & Hb').
  split; [exact Hb'|]. split; [exact Hq'|].
  intros id b Hid Hfind. now apply (within_budget_totals boq_items).
Qed.

Lemma budget_kept_on_up_to_date_screens_witness :
  Site.within_budget [Sample.b1] (Site.run [] Sample.day).
Proof.
  refine (proj1 (budget_kept_on_up_to_date_screens [Sample.b1] [] Sample.day _ _ _)).
  - constructor.
  - exact within_budget_b1_empty.
  - simpl. split; [|split; [|split; [|split; [|exact I]]]].
    + split; [reflexivity|].
      split; [vm_compute; reflexivity|].
      split; [vm_compute; reflexivity|].
      change (to_json (parseFloat "30")) with (Some 30). whole_number.
    + intros l Hin _. vm_compute in Hin. destruct Hin as [<- | []]. reflexivity.
    + split; [reflexivity|].
      split; [vm_compute; reflexivity|].
      split; [vm_compute; reflexivity|].
      change (to_json (parseFloat "20")) with (Some 20). whole_number.
    + intros l Hin E. vm_compute in Hin.
      destruct Hin as [<- | [<- | []]]; [discriminate E | reflexivity].
Defined.

(** C1 fails on the code: the second of two forms sent from a screen that
    has not received the first log yet (or from a second screen) is
    validated against an empty [dailyLogs], so both logs are stored and 60
    are pending on a budget of 50, in the table and, once the two events
    have arrived, on the screen as well. *)
Lemma budget_overrun_on_stale_screen :
  Site.within_budget [Sample.b1] []
  /\ Ledger.approvedQty (Site.run [] Sample.stale) "b1" = 0
  /\ Ledger.pendingQty (Site.run [] Sample.stale) "b1" = 60
  /\ BoqItem.total_metrado Sample.b1 = 50
  /\ Ledger.pendingQty
       (fold_right Ledger.onLogEvent [] (map Ledger.INSERT (Site.run [] Sample.stale)))
       "b1" = 60
  /\ gt (Ledger.approvedQty (Site.run [] Sample.stale) "b1"
         + Ledger.pendingQty (Site.run [] Sample.stale) "b1")
        (BoqItem.total_metrado Sample.b1) = true
  /\ ~ Site.within_budget [Sample.b1] (Site.run [] Sample.stale).
Proof.
  split; [exact within_budget_b1_empty|].
  split; [vm_compute; reflexivity|].
  split; [vm_compute; reflexivity|].
  split; [reflexivity|].
  split; [vm_compute; reflexivity|].
  split; [vm_compute; reflexivity|].
  intros H. specialize (H "b1" Sample.b1).
  assert (Hid : "b1" <> "") by discriminate.
  destruct (H Hid eq_refl) as (_ & Hs). vm_compute in Hs. apply Hs. reflexivity.
Qed.

(** The other conditions of the theorem are needed as well: a review of a
    log that is no longer pending, and a negative quantity. *)
Example budget_overrun_by_late_approval :
  Ledger.approvedQty (Site.run [] Sample.late_approval) "b1" = 50
  /\ Ledger.pendingQty (Site.run [] Sample.late_approval) "b1" = 50
  /\ BoqItem.total_metrado Sample.b1 = 50.
Proof.
  split; [vm_compute; reflexivity|]. split; [vm_compute; reflexivity | reflexivity].
Qed.

Example budget_overrun_by_negative_quantity :
  Ledger.approvedQty (Site.run [] Sample.negative_first) "b1" = 0
  /\ Ledger.pendingQty (Site.run [] Sample.negative_first) "b1" = 100
  /\ BoqItem.total_metrado Sample.b1 = 50.
Proof.
  split; [vm_compute; reflexivity|]. split; [vm_compute; reflexivity | reflexivity].
Qed.

(** So is the condition on the numbers.  On an up-to-date screen, with 0.3
    approved and 0.2 pending on a budget of 0.6, a form of 0.1 is accepted
    (0.3 + 0.2 + 0.1 is 0.6 in doubles) and afterwards the totals of the
    code add up to 0.6000000000000001.  And on a budget of [2^53] with
    [2^53] approved, a form of 1 is accepted, because [2^53 + 1] is rounded
    to [2^53]. *)
Example budget_overrun_by_rounding :
  let item := BoqItem.mk "b1" "01.01" 0.6 12 in
  let daily_logs := [Sample.log "l0" 0.3 "approved"; Sample.log "l1" 0.2 "pending"] in
  let r := Ledger.handleSubmit Sample.foreman [item] daily_logs (Sample.form "b1" "0.1")
                               None None (InsertOk "l2") daily_logs in
  let big := BoqItem.mk "b1" "01.01" 9007199254740992 12 in
  let full := [Sample.log "l0" 9007199254740992 "approved"] in
  let r' := Ledger.handleSubmit Sample.foreman [big] full (Sample.form "b1" "1")
                                None None (InsertOk "l1") full in
  gt (Ledger.approvedQty daily_logs "b1" + Ledger.pendingQty daily_logs "b1") 0.6 = false
  /\ Ledger.table r
     = (daily_logs ++ [submitted Sample.foreman (Sample.form "b1" "0.1") None None "l2"])%list
  /\ Ledger.approvedQty (Ledger.table r) "b1" + Ledger.pendingQty (Ledger.table r) "b1"
     = 0.6000000000000001
  /\ gt (Ledger.approvedQty (Ledger.table r) "b1" + Ledger.pendingQty (Ledger.table r) "b1")
        0.6 = true
  /\ Ledger.table r'
     = (full ++ [submitted Sample.foreman (Sample.form "b1" "1") None None "l1"])%list
  /\ (Site.sum_with_status "approved" (Ledger.table r') "b1"
      + Site.sum_with_status "pending" (Ledger.table r') "b1" = 2 ^ 53 + 1)%Z
  /\ to_Z (BoqItem.total_metrado big) = (2 ^ 53)%Z.
Proof.
  cbv zeta. repeat split; vm_compute; reflexivity.
Qed.

(** ** Reviews of daily logs *)

Lemma pendingLogs_spec (dailyLogs : list DailyLog.t) (l : DailyLog.t) :
  In l (Ledger.pendingLogs dailyLogs) <-> In l dailyLogs /\ DailyLog.status l = "pending".
Proof.
  unfold Ledger.pendingLogs. rewrite List.filter_In, String.eqb_eq. reflexivity.
Qed.

(** C3 fails on the code: a log that is already approved is rejected by a
    further call; the call ends in the usual toast, the status becomes
    ['rejected'] and the approved quantity of the item drops from 30 to 0. *)
Lemma approved_log_rejected_afterwards :
  map DailyLog.status [Sample.log "l1" 30 "approved"] = ["approved"]
  /\ map DailyLog.status
         (fst (Ledger.handleRejectLog Sample.engineer "l1" (Some "medida errada") UpdateOk
                                      [Sample.log "l1" 30 "approved"]))
     = ["rejected"]
  /\ snd (Ledger.handleRejectLog Sample.engineer "l1" (Some "medida errada") UpdateOk
                                 [Sample.log "l1" 30 "approved"])
     = [addToast (Text "Parte diario rechazado") warning]
  /\ Ledger.approvedQty [Sample.log "l1" 30 "approved"] "b1" = 30
  /\ Ledger.approvedQty
       (fst (Ledger.handleRejectLog Sample.engineer "l1" (Some "medida errada") UpdateOk
                                    [Sample.log "l1" 30 "approved"])) "b1" = 0.
Proof.
  split; [reflexivity|].
  split; [reflexivity|].
  split; [reflexivity|].
  split; vm_compute; reflexivity.
Qed.

(** C3, as the code has it.  [updateLogStatus] looks at no status: when the
    backend accepts the update, every stored log of the given id gets the
    requested status, the reviewer, the review time and the given reason,
    whatever its status was, and keeps its item and quantity; every other
    log is left as it is; [handleApproveLog] then ends in its success toast.
    Only the engineer's view restricts the calls: the approve and reject
    buttons are drawn for the logs of [pendingLogs], which are exactly the
    logs of [dailyLogs] whose status is ['pending']. *)
Theorem updateLogStatus_ignores_current_status
        (ctx : Ctx) (logId status : string) (reason : option string)
        (daily_logs dailyLogs : list DailyLog.t) :
  (forall i l,
      nth_error daily_logs i = Some l ->
      exists l',
        nth_error (fst (Ledger.updateLogStatus ctx logId status reason UpdateOk daily_logs)) i
        = Some l'
        /\ (DailyLog.id l = logId ->
            DailyLog.status l' = status
            /\ DailyLog.reviewed_by l' = Some (user_id ctx)
            /\ DailyLog.reviewed_at l' = Some (now ctx)
            /\ DailyLog.rejection_reason l' = reason
            /\ DailyLog.id l' = DailyLog.id l
            /\ DailyLog.boq_item_id l' = DailyLog.boq_item_id l
            /\ DailyLog.quantity_executed l' = DailyLog.quantity_executed l)
        /\ (DailyLog.id l <> logId -> l' = l))
  /\ snd (Ledger.updateLogStatus ctx logId status reason UpdateOk daily_logs) = None
  /\ Ledger.handleApproveLog ctx logId UpdateOk daily_logs
     = (fst (Ledger.updateLogStatus ctx logId "approved" None UpdateOk daily_logs),
        [addToast (Text "Parte diario aprobado") success])
  /\ (forall l, In l (Ledger.pendingLogs dailyLogs)
                <-> In l dailyLogs /\ DailyLog.status l = "pending").
Proof.
  split; [|split; [reflexivity | split; [reflexivity | apply pendingLogs_spec]]].
  intros i l Hl. rewrite updateLogStatus_review, nth_error_map, Hl. simpl.
  exists (review ctx logId reason status l). split; [reflexivity|].
  unfold review. split.
  - intros E. apply String.eqb_eq in E. rewrite E. simpl. repeat split; reflexivity.
  - intros E. apply String.eqb_neq in E. now rewrite E.
Qed.

Lemma updateLogStatus_ignores_current_status_witness :
  exists l',
    nth_error (fst (Ledger.updateLogStatus Sample.engineer "l1" "approved" None UpdateOk
                                           [Sample.log "l1" 30 "rejected"])) 0
    = Some l'
    /\ DailyLog.status l' = "approved"
    /\ DailyLog.quantity_executed l' = Some 30.
Proof.
  destruct (proj1 (updateLogStatus_ignores_current_status
                     Sample.engineer "l1" "approved" None
                     [Sample.log "l1" 30 "rejected"] [])
                  0%nat (Sample.log "l1" 30 "rejected") eq_refl)
    as (l' & Hl' & Hhit & _).
  destruct (Hhit eq_refl) as (Hs & _ & _ & _ & _ & _ & Hq).
  exists l'. split; [exact Hl'|]. split; [exact Hs | exact Hq].
Defined.

(** ** Requisitions *)

Lemma field_is_true (r : gmap string jsval) (k v : string) :
  field_is r k v = true <-> r !! k = Some (JStr v).
Proof.
  unfold field_is. destruct (r !! k) as [[|s|]|]; split; try discriminate.
  - intros E. apply String.eqb_eq in E. now subst.
  - intros [= ->]. apply String.eqb_refl.
Qed.

(** Lookups in an object built by inserts over [a ∪ {[ k := v ]}]. *)
Ltac map_lookup :=
  repeat first [ rewrite lookup_insert_eq | rewrite lookup_insert_ne by discriminate ];
  first [ reflexivity
        | now apply lookup_union_Some_l, lookup_singleton_eq
        | rewrite lookup_union_r by (now apply lookup_singleton_ne);
          now apply lookup_singleton_eq ].

Lemma updateData_status (ctx : Ctx) (status : string) (additionalData : gmap string jsval) :
  Requisitions.updateData ctx status additionalData !! "status"
  = Some (default (JStr status) (additionalData !! "status")).
Proof.
  unfold Requisitions.updateData.
  assert (Hs : (additionalData ∪ {[ "status" := JStr status ]} : gmap string jsval)
               !! "status" = Some (default (JStr status) (additionalData !! "status"))).
  { destruct (additionalData !! "status") as [v|] eqn:E; simpl.
    - now apply lookup_union_Some_l.
    - rewrite lookup_union_r by exact E. apply lookup_singleton_eq. }
  repeat case_match; rewrite ?lookup_insert_ne by discriminate; exact Hs.
Qed.

Lemma filter_status_spec (st : string) (requisitions : list (gmap string jsval))
      (r : gmap string jsval) :
  In r (List.filter (fun r => field_is r "status" st) requisitions)
  <-> In r requisitions /\ r !! "status" = Some (JStr st).
Proof. rewrite List.filter_In, field_is_true. reflexivity. Qed.

(** C4 fails on the code: recording a purchase for a requisition that is
    still ['pending_pm'] goes through; the call ends in its success toast and
    the stored status is ['in_transit']. *)
Lemma purchase_recorded_from_pending_pm :
  map (fun r => r !! "status") [Sample.req "r1" "pending_pm"] = [Some (JStr "pending_pm")]
  /\ map (fun r => r !! "status")
         (Requisitions.reqs
            (Requisitions.handlePurchase Sample.buyer
               {| factura := true; guia := false; foto := false |} "r1" UpdateOk
               [Sample.req "r1" "pending_pm"]))
     = [Some (JStr "in_transit")]
  /\ Requisitions.shown
       (Requisitions.handlePurchase Sample.buyer
          {| factura := true; guia := false; foto := false |} "r1" UpdateOk
          [Sample.req "r1" "pending_pm"])
     = [addToast (Text "Compra registrada exitosamente") success].
Proof.
  split; [reflexivity|]. split; [|reflexivity].
  vm_compute. reflexivity.
Qed.

Lemma updateRequisitionStatus_rows (ctx : Ctx) (reqId status : string)
      (additionalData : gmap string jsval) (requisitions : list (gmap string jsval))
      (i : nat) (r : gmap string jsval) :
  nth_error requisitions i = Some r ->
  nth_error (fst (Requisitions.updateRequisitionStatus ctx reqId status additionalData
                                                       UpdateOk requisitions)) i
  = Some (if field_is r "id" reqId
          then Requisitions.updateData ctx status additionalData ∪ r else r).
Proof.
  intros Hr. simpl. now rewrite nth_error_map, Hr.
Qed.

(** C4, as the code has it.  [updateRequisitionStatus] looks at no status:
    when the backend accepts the update, every stored requisition of the
    given id gets the requested status (or the one in [additionalData], when
    it carries one), whatever its status was, and every other requisition is
    left as it is.  Only the views restrict the calls: a purchase is
    recorded from the list [toBuyReqs] and a receipt is confirmed from the
    list [inTransitReqs], which hold exactly the requisitions whose status is
    ['to_buy'] and ['in_transit']. *)
Theorem updateRequisitionStatus_ignores_current_status
        (ctx : Ctx) (reqId status : string) (additionalData : gmap string jsval)
        (requisitions : list (gmap string jsval)) :
  (forall i r,
      nth_error requisitions i = Some r ->
      exists r',
        nth_error (fst (Requisitions.updateRequisitionStatus ctx reqId status additionalData
                                                             UpdateOk requisitions)) i
        = Some r'
        /\ (r !! "id" = Some (JStr reqId) ->
            r' !! "status" = Some (default (JStr status) (additionalData !! "status")))
        /\ (r !! "id" <> Some (JStr reqId) -> r' = r))
  /\ snd (Requisitions.updateRequisitionStatus ctx reqId status additionalData
                                               UpdateOk requisitions) = None
  /\ (forall r, In r (Requisitions.toBuyReqs requisitions)
                <-> In r requisitions /\ r !! "status" = Some (JStr "to_buy"))
  /\ (forall r, In r (Requisitions.inTransitReqs requisitions)
                <-> In r requisitions /\ r !! "status" = Some (JStr "in_transit")).
Proof.
  split; [|split; [reflexivity | split; intros r; apply filter_status_spec]].
  intros i r Hr. eexists.
  split; [exact (updateRequisitionStatus_rows ctx reqId status additionalData _ i r Hr)|].
  split; intros E.
  - apply field_is_true in E. rewrite E.
    apply lookup_union_Some_l, updateData_status.
  - destruct (field_is r "id" reqId) eqn:F; [|reflexivity].
    apply field_is_true in F. contradiction.
Qed.

Lemma updateRequisitionStatus_ignores_current_status_witness :
  exists r',
    nth_error (fst (Requisitions.updateRequisitionStatus Sample.buyer "r1" "in_transit" ∅
                      UpdateOk [Sample.req "r1" "completed"])) 0
    = Some r'
    /\ r' !! "status" = Some (JStr "in_transit").
Proof.
  destruct (proj1 (updateRequisitionStatus_ignores_current_status
                     Sample.buyer "r1" "in_transit" ∅ [Sample.req "r1" "completed"])
                  0%nat (Sample.req "r1" "completed") eq_refl)
    as (r' & Hr' & Hhit & _).
  exists r'. split; [exact Hr'|]. apply Hhit. vm_compute. reflexivity.
Defined.

(** C5.  For a stored requisition of the given id whose status is
    ['to_buy']: without the invoice ticked, [handlePurchase] sends nothing
    (the table is the same whatever the backend would have answered, so the
    requisition is still ['to_buy']) and shows "La factura es requerida";
    with the invoice ticked and the update accepted by the backend, the
    requisition becomes ['in_transit'] with the buyer, the time and the
    evidence recorded, whether or not the waybill and the photo are ticked. *)
Theorem handlePurchase_requires_invoice
        (ctx : Ctx) (documents : Documents) (reqId : string) (reply : UpdateReply)
        (requisitions : list (gmap string jsval)) (i : nat) (r : gmap string jsval) :
  nth_error requisitions i = Some r ->
  r !! "id" = Some (JStr reqId) ->
  r !! "status" = Some (JStr "to_buy") ->
  if factura documents then
    exists r',
      nth_error (Requisitions.reqs
                   (Requisitions.handlePurchase ctx documents reqId UpdateOk requisitions)) i
      = Some r'
      /\ r' !! "status" = Some (JStr "in_transit")
      /\ r' !! "purchased_by" = Some (JStr (user_id ctx))
      /\ r' !! "purchased_at" = Some (JStr (now ctx))
      /\ r' !! "evidence_urls" = Some (Requisitions.evidence ctx documents)
      /\ Requisitions.shown
           (Requisitions.handlePurchase ctx documents reqId UpdateOk requisitions)
         = [addToast (Text "Compra registrada exitosamente") success]
  else
    Requisitions.reqs (Requisitions.handlePurchase ctx documents reqId reply requisitions)
    = requisitions
    /\ (exists r',
           nth_error (Requisitions.reqs
                        (Requisitions.handlePurchase ctx documents reqId reply requisitions)) i
           = Some r'
           /\ r' !! "status" = Some (JStr "to_buy"))
    /\ Requisitions.shown
         (Requisitions.handlePurchase ctx documents reqId reply requisitions)
       = [addToast (Text "La factura es requerida") warning].
Proof.
  intros Hr Hid Hst. unfold Requisitions.handlePurchase.
  destruct (factura documents) eqn:F; simpl.
  - eexists. split.
    + rewrite nth_error_map, Hr. simpl.
      apply field_is_true in Hid. rewrite Hid. reflexivity.
    + unfold Requisitions.updateData. simpl.
      repeat split; try reflexivity.
      all: apply lookup_union_Some_l; map_lookup.
  - split; [reflexivity|]. split; [|reflexivity]. exists r. now split.
Qed.

Lemma handlePurchase_requires_invoice_witness :
  exists r',
    nth_error (Requisitions.reqs
                 (Requisitions.handlePurchase Sample.buyer
                    {| factura := true; guia := false; foto := true |} "r1" UpdateOk
                    [Sample.req "r0" "in_transit"; Sample.req "r1" "to_buy"])) 1
    = Some r'
    /\ r' !! "status" = Some (JStr "in_transit").
Proof.
  pose proof (handlePurchase_requires_invoice Sample.buyer
                {| factura := true; guia := false; foto := true |} "r1" UpdateOk
                [Sample.req "r0" "in_transit"; Sample.req "r1" "to_buy"] 1
                (Sample.req "r1" "to_buy")) as H.
  cbn [factura] in H.
  destruct H as (r' & H1 & H2 & _).
  - reflexivity.
  - vm_compute. reflexivity.
  - vm_compute. reflexivity.
  - exists r'. split; [exact H1 | exact H2].
Defined.

(** The same call without the invoice: nothing is sent. *)
Example handlePurchase_without_invoice :
  Requisitions.reqs
    (Requisitions.handlePurchase Sample.buyer
       {| factura := false; guia := true; foto := true |} "r1" UpdateOk
       [Sample.req "r1" "to_buy"])
  = [Sample.req "r1" "to_buy"]
  /\ Requisitions.shown
       (Requisitions.handlePurchase Sample.buyer
          {| factura := false; guia := true; foto := true |} "r1" UpdateOk
          [Sample.req "r1" "to_buy"])
     = [addToast (Text "La factura es requerida") warning].
Proof. split; reflexivity. Qed.


(** The columns [updateData] names, besides those of [additionalData]. *)
Lemma updateData_dom (ctx : Ctx) (status : string) (additionalData : gmap string jsval) :
  dom (Requisitions.updateData ctx status additionalData)
  = dom additionalData ∪ {[ "status" ]} ∪
    (if String.eqb status "approved" || String.eqb status "to_buy"
     then {[ "approved_by"; "approved_at" ]}
     else if String.eqb status "in_transit"
          then {[ "purchased_by"; "purchased_at" ]}
          else if String.eqb status "received" || String.eqb status "completed"
               then {[ "received_by"; "received_at" ]}
               else ∅).
Proof.
  unfold Requisitions.updateData.
  destruct (String.eqb status "approved" || String.eqb status "to_buy");
    [|destruct (String.eqb status "in_transit");
      [|destruct (String.eqb status "received" || String.eqb status "completed")]];
    rewrite ?dom_insert_L, dom_union_L, dom_singleton_L; set_solver.
Qed.

Lemma in_transit_sent (ctx : Ctx) (documents : Documents) (k : string) :
  let sent := Requisitions.updateData ctx "in_transit"
                {[ "evidence_urls" := Requisitions.evidence ctx documents ]} in
  sent !! "status" = Some (JStr "in_transit")
  /\ sent !! "evidence_urls" = Some (Requisitions.evidence ctx documents)
  /\ sent !! "purchased_by" = Some (JStr (user_id ctx))
  /\ sent !! "purchased_at" = Some (JStr (now ctx))
  /\ (k ∉ ({[ "status"; "evidence_urls"; "purchased_by"; "purchased_at" ]} : gset string) ->
      sent !! k = None).
Proof.
  intros sent. subst sent. unfold Requisitions.updateData. simpl.
  repeat split; try map_lookup.
  intros Hk. apply not_elem_of_dom.
  rewrite !dom_insert_L, dom_union_L, !dom_singleton_L. set_solver.
Qed.

Lemma completed_sent (ctx : Ctx) (k : string) :
  let sent := Requisitions.updateData ctx "completed" ∅ in
  sent !! "status" = Some (JStr "completed")
  /\ sent !! "received_by" = Some (JStr (user_id ctx))
  /\ sent !! "received_at" = Some (JStr (now ctx))
  /\ (k ∉ ({[ "status"; "received_by"; "received_at" ]} : gset string) -> sent !! k = None).
Proof.
  intros sent. subst sent. unfold Requisitions.updateData. simpl.
  repeat split; try map_lookup.
  intros Hk. apply not_elem_of_dom.
  rewrite !dom_insert_L, dom_union_L, dom_empty_L, !dom_singleton_L. set_solver.
Qed.

(** The row an accepted [updateRequisitionStatus] leaves in the place of a
    stored requisition of the given id: the columns of [updateData] over the
    stored ones. *)
Lemma updateRequisitionStatus_hit (ctx : Ctx) (reqId status : string)
      (additionalData : gmap string jsval) (requisitions : list (gmap string jsval))
      (i : nat) (r : gmap string jsval) :
  nth_error requisitions i = Some r ->
  r !! "id" = Some (JStr reqId) ->
  nth_error (fst (Requisitions.updateRequisitionStatus ctx reqId status additionalData
                                                       UpdateOk requisitions)) i
  = Some (Requisitions.updateData ctx status additionalData ∪ r).
Proof.
  intros Hr Hid. rewrite (updateRequisitionStatus_rows _ _ _ _ _ _ _ Hr).
  apply field_is_true in Hid. now rewrite Hid.
Qed.

Lemma updated_row_keeps (ctx : Ctx) (status : string) (additionalData r : gmap string jsval)
      (k : string) :
  k ∉ dom (Requisitions.updateData ctx status additionalData) ->
  (Requisitions.updateData ctx status additionalData ∪ r) !! k = r !! k.
Proof. intros Hk. apply lookup_union_r. now apply not_elem_of_dom. Qed.

(** C8.  When the backend accepts the update, [updateRequisitionStatus]
    leaves in a stored requisition of the given id exactly one pair of actor
    and time set to the signed-in user and the current time: [approved_by]
    and [approved_at] for ['to_buy'], [purchased_by] and [purchased_at] for
    ['in_transit'], [received_by] and [received_at] for ['completed'].
    Every column besides the status, that pair and the columns of
    [additionalData] keeps its stored value, the other two pairs among them.
    So it is for the two callers: [handlePurchase] sets the purchaser and
    the purchase time (and the evidence), [handleConfirmReceived] the
    receiver and the receipt time, and neither writes another pair. *)
Theorem updateRequisitionStatus_sets_one_pair
        (ctx : Ctx) (reqId : string) (additionalData : gmap string jsval)
        (documents : Documents) (requisitions : list (gmap string jsval))
        (i : nat) (r : gmap string jsval) :
  nth_error requisitions i = Some r ->
  r !! "id" = Some (JStr reqId) ->
  let after status :=
    nth_error (fst (Requisitions.updateRequisitionStatus ctx reqId status additionalData
                                                         UpdateOk requisitions)) i in
  (exists r',
      after "to_buy" = Some r'
      /\ r' !! "approved_by" = Some (JStr (user_id ctx))
      /\ r' !! "approved_at" = Some (JStr (now ctx))
      /\ forall k, k ∉ dom additionalData ∪ {[ "status"; "approved_by"; "approved_at" ]} ->
                   r' !! k = r !! k)
  /\ (exists r',
         after "in_transit" = Some r'
         /\ r' !! "purchased_by" = Some (JStr (user_id ctx))
         /\ r' !! "purchased_at" = Some (JStr (now ctx))
         /\ forall k, k ∉ dom additionalData ∪ {[ "status"; "purchased_by"; "purchased_at" ]} ->
                      r' !! k = r !! k)
  /\ (exists r',
         after "completed" = Some r'
         /\ r' !! "received_by" = Some (JStr (user_id ctx))
         /\ r' !! "received_at" = Some (JStr (now ctx))
         /\ forall k, k ∉ dom additionalData ∪ {[ "status"; "received_by"; "received_at" ]} ->
                      r' !! k = r !! k)
  /\ (factura documents = true ->
      exists r',
        nth_error (Requisitions.reqs
                     (Requisitions.handlePurchase ctx documents reqId UpdateOk requisitions)) i
        = Some r'
        /\ r' !! "status" = Some (JStr "in_transit")
        /\ r' !! "purchased_by" = Some (JStr (user_id ctx))
        /\ r' !! "purchased_at" = Some (JStr (now ctx))
        /\ forall k, k ∉ ({[ "status"; "evidence_urls"; "purchased_by"; "purchased_at" ]}
                          : gset string) ->
                     r' !! k = r !! k)
  /\ (exists r',
         nth_error (fst (Requisitions.handleConfirmReceived ctx reqId UpdateOk requisitions)) i
         = Some r'
         /\ r' !! "status" = Some (JStr "completed")
         /\ r' !! "received_by" = Some (JStr (user_id ctx))
         /\ r' !! "received_at" = Some (JStr (now ctx))
         /\ forall k, k ∉ ({[ "status"; "received_by"; "received_at" ]} : gset string) ->
                      r' !! k = r !! k).
Proof.
  intros Hr Hid after. subst after. cbv beta.
  split; [|split; [|split; [|split]]].
  1-3: eexists; split; [exact (updateRequisitionStatus_hit _ _ _ _ _ _ _ Hr Hid)|];
       split; [apply lookup_union_Some_l; unfold Requisitions.updateData; simpl; map_lookup|];
       split; [apply lookup_union_Some_l; unfold Requisitions.updateData; simpl; map_lookup|];
       intros k Hk; apply updated_row_keeps; rewrite updateData_dom; simpl; set_solver.
  - intros Hf. unfold Requisitions.handlePurchase. rewrite Hf. cbn [negb].
    destruct (in_transit_sent ctx documents "status") as (S1 & _ & S3 & S4 & _).
    eexists. split; [exact (updateRequisitionStatus_hit _ _ _ _ _ _ _ Hr Hid)|].
    split; [now apply lookup_union_Some_l|].
    split; [now apply lookup_union_Some_l|].
    split; [now apply lookup_union_Some_l|].
    intros k Hk. apply lookup_union_r. now apply (in_transit_sent ctx documents k).
  - destruct (completed_sent ctx "status") as (C1 & C2 & C3 & _).
    eexists. split; [exact (updateRequisitionStatus_hit _ _ _ _ _ _ _ Hr Hid)|].
    split; [now apply lookup_union_Some_l|].
    split; [now apply lookup_union_Some_l|].
    split; [now apply lookup_union_Some_l|].
    intros k Hk. apply lookup_union_r. now apply (completed_sent ctx k).
Qed.

Lemma updateRequisitionStatus_sets_one_pair_witness :
  exists r',
    nth_error (fst (Requisitions.handleConfirmReceived Sample.engineer "r1" UpdateOk
                      [<["approved_by" := JStr "u-pm"]> (Sample.req "r1" "in_transit")])) 0
    = Some r'
    /\ r' !! "received_by" = Some (JStr "u-engineer")
    /\ r' !! "approved_by" = Some (JStr "u-pm")
    /\ r' !! "purchased_by" = None.
Proof.
  destruct (updateRequisitionStatus_sets_one_pair Sample.engineer "r1" ∅
              {| factura := true; guia := false; foto := false |}
              [<["approved_by" := JStr "u-pm"]> (Sample.req "r1" "in_transit")] 0
              (<["approved_by" := JStr "u-pm"]> (Sample.req "r1" "in_transit")))
    as (_ & _ & _ & _ & (r' & H1 & _ & H2 & _ & Hkeep)).
  - reflexivity.
  - vm_compute. reflexivity.
  - exists r'. split; [exact H1|]. split; [exact H2|]. split.
    + rewrite Hkeep by set_solver. vm_compute. reflexivity.
    + rewrite Hkeep by set_solver. vm_compute. reflexivity.
Defined.

Lemma updateData_received_completed (ctx : Ctx) (additionalData : gmap string jsval) :
  delete "status" (Requisitions.updateData ctx "received" additionalData)
  = delete "status" (Requisitions.updateData ctx "completed" additionalData).
Proof.
  unfold Requisitions.updateData. simpl.
  rewrite !delete_insert_ne by discriminate. do 2 f_equal.
  apply map_eq. intros k. destruct (decide (k = "status")) as [-> | Hk].
  - now rewrite !lookup_delete_eq.
  - rewrite !lookup_delete_ne by congruence.
    rewrite !lookup_union, !lookup_singleton_ne by congruence. reflexivity.
Qed.

(** C10 fails on the code: [getStatusBadge], which the logistics module
    calls on the requisitions of [completedReqs], draws the two labels
    differently: a box and "Recibido" for ['received'], a tick and
    "Completado" for ['completed']. *)
Lemma received_and_completed_drawn_differently :
  Requisitions.completedReqs [Sample.req "r1" "received"; Sample.req "r2" "completed"]
  = [Sample.req "r1" "received"; Sample.req "r2" "completed"]
  /\ Badges.getStatusBadge "received"
     = Some {| bg := "bg-green-100"; text := "text-green-700"; icon := "📦";
               label := "Recibido" |}
  /\ Badges.getStatusBadge "completed"
     = Some {| bg := "bg-green-100"; text := "text-green-700"; icon := "✅";
               label := "Completado" |}
  /\ option_map icon (Badges.getStatusBadge "received")
     <> option_map icon (Badges.getStatusBadge "completed")
  /\ option_map label (Badges.getStatusBadge "received")
     <> option_map label (Badges.getStatusBadge "completed").
Proof.
  split; [vm_compute; reflexivity|]. repeat split; try reflexivity; discriminate.
Qed.

(** C10, as the code has it.  [updateRequisitionStatus] treats the two
    labels alike: when the backend accepts the update, the stored
    requisition is left the same for ['received'] and for ['completed'], the
    status apart, with the signed-in user as [received_by] and the current
    time as [received_at]; and the list [completedReqs] of the logistics
    module holds exactly the requisitions whose status is ['completed'] or
    ['received'], so the updated requisition is in it either way.
    [getStatusBadge] gives the two the same colours (and, as shown above,
    not the same icon and caption). *)
Theorem received_and_completed_alike
        (ctx : Ctx) (reqId : string) (additionalData : gmap string jsval)
        (requisitions : list (gmap string jsval)) (i : nat) (r : gmap string jsval) :
  nth_error requisitions i = Some r ->
  r !! "id" = Some (JStr reqId) ->
  let received :=
    fst (Requisitions.updateRequisitionStatus ctx reqId "received" additionalData
                                              UpdateOk requisitions) in
  let completed :=
    fst (Requisitions.updateRequisitionStatus ctx reqId "completed" additionalData
                                              UpdateOk requisitions) in
  (exists r1 r2,
      nth_error received i = Some r1
      /\ nth_error completed i = Some r2
      /\ delete "status" r1 = delete "status" r2
      /\ r1 !! "received_by" = Some (JStr (user_id ctx))
      /\ r2 !! "received_by" = Some (JStr (user_id ctx))
      /\ r1 !! "received_at" = Some (JStr (now ctx))
      /\ r2 !! "received_at" = Some (JStr (now ctx))
      /\ (additionalData !! "status" = None ->
          r1 !! "status" = Some (JStr "received")
          /\ r2 !! "status" = Some (JStr "completed")
          /\ In r1 (Requisitions.completedReqs received)
          /\ In r2 (Requisitions.completedReqs completed)))
  /\ (forall x,
         In x (Requisitions.completedReqs requisitions)
         <-> In x requisitions
             /\ (x !! "status" = Some (JStr "completed")
                 \/ x !! "status" = Some (JStr "received")))
  /\ option_map bg (Badges.getStatusBadge "received")
     = option_map bg (Badges.getStatusBadge "completed")
  /\ option_map text (Badges.getStatusBadge "received")
     = option_map text (Badges.getStatusBadge "completed").
Proof.
  intros Hr Hid received completed.
  assert (Hspec : forall (rs : list (gmap string jsval)) x,
             In x (Requisitions.completedReqs rs)
             <-> In x rs /\ (x !! "status" = Some (JStr "completed")
                             \/ x !! "status" = Some (JStr "received"))).
  { intros rs x. unfold Requisitions.completedReqs.
    rewrite List.filter_In, orb_true_iff, !field_is_true. reflexivity. }
  split; [|split; [apply Hspec | split; reflexivity]].
  pose proof (updateRequisitionStatus_hit ctx reqId "received" additionalData _ i r Hr Hid)
    as H1.
  pose proof (updateRequisitionStatus_hit ctx reqId "completed" additionalData _ i r Hr Hid)
    as H2.
  fold received in H1. fold completed in H2.
  eexists _, _. split; [exact H1|]. split; [exact H2|].
  split; [now rewrite !delete_union, updateData_received_completed|].
  split; [apply lookup_union_Some_l; unfold Requisitions.updateData; simpl; map_lookup|].
  split; [apply lookup_union_Some_l; unfold Requisitions.updateData; simpl; map_lookup|].
  split; [apply lookup_union_Some_l; unfold Requisitions.updateData; simpl; map_lookup|].
  split; [apply lookup_union_Some_l; unfold Requisitions.updateData; simpl; map_lookup|].
  intros Hnone.
  assert (S1 : (Requisitions.updateData ctx "received" additionalData ∪ r) !! "status"
               = Some (JStr "received")).
  { apply lookup_union_Some_l. now rewrite updateData_status, Hnone. }
  assert (S2 : (Requisitions.updateData ctx "completed" additionalData ∪ r) !! "status"
               = Some (JStr "completed")).
  { apply lookup_union_Some_l. now rewrite updateData_status, Hnone. }
  split; [exact S1|]. split; [exact S2|]. split.
  - apply Hspec. split; [now apply nth_error_In in H1 | now right].
  - apply Hspec. split; [now apply nth_error_In in H2 | now left].
Qed.

Lemma received_and_completed_alike_witness :
  exists r1 r2,
    nth_error (fst (Requisitions.updateRequisitionStatus Sample.engineer "r1" "received" ∅
                      UpdateOk [Sample.req "r1" "in_transit"])) 0 = Some r1
    /\ nth_error (fst (Requisitions.updateRequisitionStatus Sample.engineer "r1" "completed" ∅
                         UpdateOk [Sample.req "r1" "in_transit"])) 0 = Some r2
    /\ delete "status" r1 = delete "status" r2
    /\ r1 !! "received_by" = Some (JStr "u-engineer").
Proof.
  destruct (received_and_completed_alike Sample.engineer "r1" ∅
              [Sample.req "r1" "in_transit"] 0 (Sample.req "r1" "in_transit"))
    as ((r1 & r2 & H1 & H2 & H3 & H4 & _) & _).
  - reflexivity.
  - vm_compute. reflexivity.
  - exists r1, r2. repeat split; assumption.
Defined.

(** ** The older daily-report form *)

(** C6 fails on the code: the report is accepted, the update of the
    progress is refused; the form shows the error and the report stays
    stored while the progress of the partida is still 10. *)
Lemma report_stored_without_progress :
  let st := {| Reports.daily_reports := []; Reports.partidas := [Sample.partida] |} in
  let r := Reports.handleSubmit Sample.foreman [] Sample.reportForm
                                (InsertOk "dr1") (UpdateError "timeout") st in
  Reports.alert r = Some (Text "Error al guardar el reporte: timeout")
  /\ map DailyReport.id (Reports.daily_reports (Reports.stored r)) = ["dr1"]
  /\ map DailyReport.progress_value (Reports.daily_reports (Reports.stored r)) = [Some 5]
  /\ Reports.partidas (Reports.stored r) = [Sample.partida]
  /\ Partida.current_progress Sample.partida = Some 10
  /\ Reports.stored r <> st.
Proof.
  repeat split; try reflexivity. discriminate.
Qed.

(** C6, as the code has it.  [createDailyLog] is one insert, so the
    daily-log form leaves the table as it was or adds the one log and shows
    its success toast.  The older form sends two requests and undoes
    nothing: it leaves both tables as they were (validation failed, or the
    insert was refused), or it stores the report and updates the progress,
    or, when the update is refused after the insert went through, it shows
    the error, keeps the report stored and leaves the progress as it was. *)
Theorem handleSubmit_writes
        (ctx : Ctx) (boqItems : list BoqItem.t) (dailyLogs : list DailyLog.t)
        (formData : FormData) (evidenceFile upload : option string)
        (reply : InsertReply) (daily_logs : list DailyLog.t)
        (catalog : list Material) (f : Reports.Form)
        (reportReply : InsertReply) (updateReply : UpdateReply) (st : Reports.Stored) :
  let r := Ledger.handleSubmit ctx boqItems dailyLogs formData evidenceFile upload
                               reply daily_logs in
  let r' := Reports.handleSubmit ctx catalog f reportReply updateReply st in
  (Ledger.table r = daily_logs
   \/ exists new_id,
       Ledger.table r
       = (daily_logs ++ [submitted ctx formData evidenceFile upload new_id])%list
       /\ Ledger.toasts r = [addToast (Text "Reporte enviado correctamente") success])
  /\ (Reports.stored r' = st
      \/ (exists report p newProgress,
             updateReply = UpdateOk
             /\ Reports.selectedPartida f = Some p
             /\ Reports.daily_reports (Reports.stored r')
                = (Reports.daily_reports st ++ [report])%list
             /\ Reports.partidas (Reports.stored r')
                = map (fun q => if String.eqb (Partida.id q) (Partida.id p)
                                then Reports.set_progress newProgress q else q)
                      (Reports.partidas st)
             /\ Reports.alert r' = Some (Text "Reporte diario guardado exitosamente"))
      \/ (exists report m,
             updateReply = UpdateError m
             /\ Reports.daily_reports (Reports.stored r')
                = (Reports.daily_reports st ++ [report])%list
             /\ Reports.partidas (Reports.stored r') = Reports.partidas st
             /\ Reports.alert r' = Some (Text ("Error al guardar el reporte: " ++ m)))).
Proof.
  intros r r'. split.
  - subst r. unfold Ledger.handleSubmit.
    destruct (valid (Ledger.validateQuantity boqItems dailyLogs formData)); simpl;
      [|now left].
    destruct reply as [new_id|m]; simpl; [|now left].
    right. exists new_id. split; [|reflexivity].
    unfold submitted. destruct evidenceFile, upload; reflexivity.
  - subst r'. unfold Reports.handleSubmit.
    destruct (Reports.validateSubmission f); [now left|].
    destruct (Reports.selectedPartida f) as [p|]; [|now left].
    destruct reportReply as [new_id|m]; [|now left].
    destruct updateReply as [|m]; right; [left | right].
    + eexists _, p, _. repeat split; reflexivity.
    + eexists _, m. repeat split; reflexivity.
Qed.

(** ** The sign of a quantity *)

Lemma numberInputValid_min (min step : Q) (value : string) :
  FormInput.numberInputValid min step value = true ->
  value <> "" /\ exists q, decimal (read value) = Some q /\ (min <= q)%Q.
Proof.
  unfold FormInput.numberInputValid. intros H.
  apply andb_true_iff in H. destruct H as (Ht & H).
  split; [now apply truthy_true|].
  destruct (decimal (read value)) as [q|]; try discriminate.
  apply andb_true_iff in H. destruct H as (H & _).
  exists q. split; [reflexivity | now apply Qle_bool_iff].
Qed.

(** C7 fails on the code: the daily-log form accepts the quantity 0 (its
    input has [min="0"]), [validateQuantity] finds it within the budget, and
    the log is stored with quantity 0. *)
Lemma zero_quantity_log_is_stored :
  parseFloat "0" = 0
  /\ FormInput.quantityExecutedValid "0" = true
  /\ valid (Ledger.validateQuantity [Sample.b1] [] (Sample.form "b1" "0")) = true
  /\ Ledger.table (Ledger.handleSubmit Sample.foreman [Sample.b1] [] (Sample.form "b1" "0")
                                       None None (InsertOk "l1") [])
     = [submitted Sample.foreman (Sample.form "b1" "0") None None "l1"]
  /\ DailyLog.quantity_executed
       (submitted Sample.foreman (Sample.form "b1" "0") None None "l1") = Some 0.
Proof.
  repeat split; reflexivity.
Qed.

(** C7, as the code has it.  Neither operation looks at the sign of the
    quantity.  With whole numbers (the totals of [dailyLogs] within a budget
    below [2^52]), a daily-log form with a quantity that is zero or negative
    passes [validateQuantity] and its log is stored with that quantity once
    the backend accepts the insert.  With any numbers, a quantity of zero
    passes as soon as the totals of [dailyLogs], added in doubles, are not
    above the budget.  [createRequisition] sends the insert with the
    quantity as typed, whatever it is.  What is asked of the quantity is
    asked by the number inputs of the forms: at least 1 for a requisition,
    at least 0 (so zero is let through) for a daily log. *)
Theorem quantity_sign_not_checked
        (ctx : Ctx) (boqItems : list BoqItem.t) (dailyLogs : list DailyLog.t)
        (formData : FormData) (evidenceFile upload : option string) (new_id : string)
        (daily_logs : list DailyLog.t) (b : BoqItem.t) (A P T n : Z) :
  boqItemId formData <> "" ->
  List.find (fun b => String.eqb (BoqItem.id b) (boqItemId formData)) boqItems = Some b ->
  Ledger.approvedQty dailyLogs (boqItemId formData) = of_Z A ->
  Ledger.pendingQty dailyLogs (boqItemId formData) = of_Z P ->
  BoqItem.total_metrado b = of_Z T ->
  parseFloat (quantityExecuted formData) = of_Z n ->
  (0 <= A /\ 0 <= P /\ A + P <= T < 2 ^ 52)%Z ->
  (- 2 ^ 52 < n <= 0)%Z ->
  (Ledger.table (Ledger.handleSubmit ctx boqItems dailyLogs formData evidenceFile upload
                                     (InsertOk new_id) daily_logs)
   = (daily_logs ++ [submitted ctx formData evidenceFile upload new_id])%list
   /\ DailyLog.quantity_executed (submitted ctx formData evidenceFile upload new_id)
      = Some (of_Z n))
  /\ (forall (boqItems' : list BoqItem.t) (dailyLogs' : list DailyLog.t)
             (formData' : FormData) (b' : BoqItem.t),
         boqItemId formData' <> "" ->
         List.find (fun b => String.eqb (BoqItem.id b) (boqItemId formData')) boqItems'
         = Some b' ->
         is_zero (parseFloat (quantityExecuted formData')) = true ->
         gt (Ledger.approvedQty dailyLogs' (boqItemId formData')
             + Ledger.pendingQty dailyLogs' (boqItemId formData'))
            (BoqItem.total_metrado b') = false ->
         Ledger.table (Ledger.handleSubmit ctx boqItems' dailyLogs' formData' evidenceFile
                                           upload (InsertOk new_id) daily_logs)
         = (daily_logs ++ [submitted ctx formData' evidenceFile upload new_id])%list
         /\ DailyLog.quantity_executed (submitted ctx formData' evidenceFile upload new_id)
            = Some 0)
  /\ (forall (reqData : ReqData) (requisitions : list (gmap string jsval)),
         exists row,
           fst (Requisitions.createRequisition ctx reqData (InsertOk new_id) requisitions)
           = (requisitions ++ [row])%list
           /\ row !! "quantity" = Some (JStr (quantity reqData))
           /\ row !! "status" = Some (JStr "pending_pm"))
  /\ (forall value,
         FormInput.reqQuantityValid value = true ->
         exists q, decimal (read value) = Some q /\ (1 <= q)%Q)
  /\ (forall value,
         FormInput.quantityExecutedValid value = true ->
         exists q, decimal (read value) = Some q /\ (0 <= q)%Q)
  /\ FormInput.quantityExecutedValid "0" = true.
Proof.
  intros Hi Hfind HA HP HT Hparse Hb Hn.
  split; [|split; [|split; [|split; [|split; [|reflexivity]]]]].
  - assert (Hne : quantityExecuted formData <> "").
    { intros E. rewrite E in Hparse. change (parseFloat "") with nan in Hparse.
      assert (H : is_nan (of_Z n) = false) by (apply of_Z_not_nan; lia).
      rewrite <- Hparse in H. discriminate H. }
    assert (V : valid (Ledger.validateQuantity boqItems dailyLogs formData) = true).
    { rewrite (validateQuantity_found _ _ _ b Hi Hne Hfind). cbv zeta.
      rewrite HA, HP, HT, Hparse, !add_of_Z by lia.
      unfold gt. rewrite ltb_of_Z by lia.
      replace (T <? A + P + n)%Z with false; [reflexivity|].
      symmetry. apply Z.ltb_ge. lia. }
    split; [now apply handleSubmit_stored|].
    unfold submitted. cbn [DailyLog.quantity_executed]. rewrite Hparse.
    apply to_json_of_Z. lia.
  - intros boqItems' dailyLogs' formData' b' Hi' Hfind' Hz Hle.
    assert (Hne : quantityExecuted formData' <> "").
    { intros E. rewrite E in Hz. discriminate Hz. }
    assert (V : valid (Ledger.validateQuantity boqItems' dailyLogs' formData') = true).
    { rewrite (validateQuantity_found _ _ _ b' Hi' Hne Hfind'). cbv zeta.
      now rewrite gt_add_zero, Hle by exact Hz. }
    split; [now apply handleSubmit_stored|].
    unfold submitted. cbn [DailyLog.quantity_executed]. now apply to_json_zero.
  - intros reqData requisitions. unfold Requisitions.createRequisition.
    eexists. split; [reflexivity|].
    destruct (description reqData); split; now simplify_map_eq.
  - intros value H. apply numberInputValid_min in H. exact (proj2 H).
  - intros value H. apply numberInputValid_min in H. exact (proj2 H).
Qed.

Lemma quantity_sign_not_checked_witness :
  Ledger.table (Ledger.handleSubmit Sample.foreman [Sample.b1] [Sample.log "l0" 40 "approved"]
                                    (Sample.form "b1" "-5") None None (InsertOk "l1")
                                    [Sample.log "l0" 40 "approved"])
  = [Sample.log "l0" 40 "approved";
     submitted Sample.foreman (Sample.form "b1" "-5") None None "l1"]
  /\ DailyLog.quantity_executed
       (submitted Sample.foreman (Sample.form "b1" "-5") None None "l1") = Some (of_Z (-5)).
Proof.
  refine (proj1 (quantity_sign_not_checked Sample.foreman [Sample.b1]
                   [Sample.log "l0" 40 "approved"] (Sample.form "b1" "-5") None None "l1"
                   [Sample.log "l0" 40 "approved"] Sample.b1 40 0 50 (-5) _ _ _ _ _ _ _ _)).
  - discriminate.
  - reflexivity.
  - vm_compute. reflexivity.
  - vm_compute. reflexivity.
  - vm_compute. reflexivity.
  - vm_compute. reflexivity.
  - lia.
  - lia.
Defined.

(** ** The buttons of the engineer's view *)

(** A button of the engineer's view on an up-to-date screen with one log
    per id reviews a log that is stored as pending. *)
Lemma pending_button_reviews_pending (dailyLogs daily_logs : list DailyLog.t)
      (l : DailyLog.t) :
  (forall x, In x daily_logs -> In x dailyLogs) ->
  (forall x y, In x dailyLogs -> In y dailyLogs ->
               DailyLog.id x = DailyLog.id y -> x = y) ->
  In l (Ledger.pendingLogs dailyLogs) ->
  forall x, In x daily_logs -> DailyLog.id x = DailyLog.id l ->
            DailyLog.status x = "pending".
Proof.
  intros Hsub Hone Hl x Hx E.
  apply pendingLogs_spec in Hl. destruct Hl as (Hin & Hs).
  now rewrite (Hone x l (Hsub x Hx) Hin E).
Qed.

(** ** The scenarios of the specification *)

(** Scenario A: on a budget of 50 a log of 30 is stored as pending; once the
    screen has received it, a second form of 25 is refused (the total would
    be 55) and the table still holds the one pending log. *)
Example scenario_A :
  let first := Ledger.handleSubmit Sample.foreman [Sample.b1] [] (Sample.form "b1" "30")
                                   None None (InsertOk "l1") [] in
  let dailyLogs := Ledger.onLogEvent (Ledger.INSERT Sample.l1) [] in
  let second := Ledger.handleSubmit Sample.foreman [Sample.b1] dailyLogs
                                    (Sample.form "b1" "25") None None (InsertOk "l2")
                                    (Ledger.table first) in
  Ledger.table first = [Sample.l1]
  /\ Ledger.pendingQty (Ledger.table first) "b1" = 30
  /\ remaining (Ledger.validateQuantity [Sample.b1] [] (Sample.form "b1" "30"))
     = Some 20
  /\ Ledger.toasts second = [addToast (MayorMetrado 55 50) error]
  /\ Ledger.table second = [Sample.l1].
Proof.
  repeat split; try reflexivity.
Qed.

(** Scenario B: approving the first log moves its 30 from pending to
    approved. *)
Example scenario_B :
  let after := fst (Ledger.handleApproveLog Sample.engineer "l1" UpdateOk [Sample.l1]) in
  Ledger.approvedQty after "b1" = 30 /\ Ledger.pendingQty after "b1" = 0.
Proof.
  split; vm_compute; reflexivity.
Qed.

(** Scenario C: rejecting it instead removes its 30 from both totals. *)
Example scenario_C :
  let after := fst (Ledger.handleRejectLog Sample.engineer "l1" (Some "medida errada")
                                           UpdateOk [Sample.l1]) in
  Ledger.approvedQty after "b1" = 0 /\ Ledger.pendingQty after "b1" = 0.
Proof.
  split; vm_compute; reflexivity.
Qed.

(** [createRequisition] stores a requisition of quantity -3 when it is
    called with one; the number input of the form would not let it through. *)
Example negative_quantity_requisition :
  map (fun r => r !! "quantity")
      (fst (Requisitions.createRequisition Sample.foreman (Sample.reqForm "-3")
                                           (InsertOk "r9") []))
  = [Some (JStr "-3")]
  /\ FormInput.reqQuantityValid "-3" = false
  /\ FormInput.reqQuantityValid "2.5" = true.
Proof.
  split; [vm_compute; reflexivity|]. split; reflexivity.
Qed.

(** * More properties *)

(** ** The screen and the table of daily logs *)




(** X2: An UPDATE or a DELETE event for a log that is not on the screen is
    dropped: the screen is left as it is, and the log is not added. *)
Theorem event_for_unknown_log (new : DailyLog.t) (prev : list DailyLog.t) :
  (forall l, In l prev -> DailyLog.id l <> DailyLog.id new) ->
  Ledger.onLogEvent (Ledger.UPDATE new) prev = prev
  /\ Ledger.onLogEvent (Ledger.DELETE (DailyLog.id new)) prev = prev.
Proof.
  intros H. simpl. split.
  - rewrite <- (map_id prev) at 2. apply map_ext_in. intros l Hl.
    apply H, String.eqb_neq in Hl. now rewrite Hl.
  - induction prev as [|x r IH]; [reflexivity|]. simpl.
    assert (Hx := H x (or_introl eq_refl)). apply String.eqb_neq in Hx. rewrite Hx.
    simpl. f_equal. apply IH. intros l Hl. apply H. now right.
Qed.

Lemma event_for_unknown_log_witness :
  Ledger.onLogEvent (Ledger.UPDATE (Sample.log "l7" 9 "approved")) [Sample.l1] = [Sample.l1].
Proof.
  refine (proj1 (event_for_unknown_log (Sample.log "l7" 9 "approved") [Sample.l1] _)).
  intros l [<- | []]. discriminate.
Defined.

(** X3: An UPDATE event keeps the logs of the screen in place (the same ids in
    the same order), and the same event delivered twice leaves the screen as
    after the first delivery. *)
Theorem update_event_in_place (new : DailyLog.t) (prev : list DailyLog.t) :
  map DailyLog.id (Ledger.onLogEvent (Ledger.UPDATE new) prev) = map DailyLog.id prev
  /\ Ledger.onLogEvent (Ledger.UPDATE new) (Ledger.onLogEvent (Ledger.UPDATE new) prev)
     = Ledger.onLogEvent (Ledger.UPDATE new) prev.
Proof.
  simpl. split.
  - rewrite map_map. apply map_ext. intros l.
    destruct (String.eqb (DailyLog.id l) (DailyLog.id new)) eqn:E; [|reflexivity].
    apply String.eqb_eq in E. now rewrite E.
  - rewrite map_map. apply map_ext. intros l.
    destruct (String.eqb (DailyLog.id l) (DailyLog.id new)) eqn:E.
    + now rewrite String.eqb_refl.
    + now rewrite E.
Qed.

(** X4: Once the UPDATE event of a reviewed log has arrived, the engineer's list
    of pending logs holds no log of that id any more, and holds every other
    log it held. *)
Theorem reviewed_log_leaves_pendingLogs (new : DailyLog.t) (prev : list DailyLog.t)
        (x : DailyLog.t) :
  DailyLog.status new <> "pending" ->
  In x (Ledger.pendingLogs (Ledger.onLogEvent (Ledger.UPDATE new) prev))
  <-> In x (Ledger.pendingLogs prev) /\ DailyLog.id x <> DailyLog.id new.
Proof.
  intros Hs. rewrite !pendingLogs_spec. simpl. rewrite in_map_iff. split.
  - intros ((y & Hy & Hin) & Hx).
    destruct (String.eqb (DailyLog.id y) (DailyLog.id new)) eqn:E.
    + subst x. contradiction.
    + subst y. apply String.eqb_neq in E. now repeat split.
  - intros ((Hin & Hx) & Hid). split; [|exact Hx].
    exists x. split; [|exact Hin]. apply String.eqb_neq in Hid. now rewrite Hid.
Qed.

Lemma reviewed_log_leaves_pendingLogs_witness :
  In (Sample.log "l0" 5 "pending")
     (Ledger.pendingLogs
        (Ledger.onLogEvent
           (Ledger.UPDATE (Ledger.reviewed Sample.engineer "approved" None Sample.l1))
           [Sample.l1; Sample.log "l0" 5 "pending"])).
Proof.
  apply (reviewed_log_leaves_pendingLogs
           (Ledger.reviewed Sample.engineer "approved" None Sample.l1)
           [Sample.l1; Sample.log "l0" 5 "pending"] (Sample.log "l0" 5 "pending")).
  - discriminate.
  - split; [|discriminate]. apply pendingLogs_spec. split; [|reflexivity].
    right. left. reflexivity.
Defined.

(** ** The screens of requisitions and BOQ items *)

Lemma strict_eq_true (a b : option jsval) : Realtime.strict_eq a b = true -> a = b.
Proof.
  destruct a as [[|x|]|], b as [[|y|]|]; simpl; try discriminate; try reflexivity.
  intros E. apply String.eqb_eq in E. now subst.
Qed.

(** X5: The callbacks on requisitions and on BOQ items have no branch for
    DELETE: whatever events arrive, a row of every id that was on the screen
    is still on the screen, also after it was deleted in the backend. *)
Theorem requisition_never_leaves_screen
        (events : list (Change (gmap string jsval))) (prev : list (gmap string jsval))
        (boqEvents : list (Change BoqItem.t)) (boqItems : list BoqItem.t) :
  (forall r, In r prev ->
             exists r', In r' (fold_left (fun s e => Realtime.onReqEvent e s) events prev)
                        /\ r' !! "id" = r !! "id")
  /\ (forall b, In b boqItems ->
                exists b', In b' (fold_left (fun s e => Realtime.onBoqEvent e s)
                                            boqEvents boqItems)
                           /\ BoqItem.id b' = BoqItem.id b).
Proof.
  split.
  - revert prev. induction events as [|e rest IH]; intros prev r Hr; simpl.
    + now exists r.
    + assert (H1 : exists r1, In r1 (Realtime.onReqEvent e prev) /\ r1 !! "id" = r !! "id").
      { destruct e as [new|new|old]; simpl.
        - exists r. split; [now right | reflexivity].
        - exists (if Realtime.strict_eq (r !! "id") (new !! "id") then new else r).
          split.
          + apply in_map_iff. now exists r.
          + destruct (Realtime.strict_eq _ _) eqn:E; [|reflexivity].
            symmetry. now apply strict_eq_true.
        - now exists r. }
      destruct H1 as (r1 & Hin1 & E1).
      destruct (IH _ r1 Hin1) as (r' & Hin' & E'). exists r'. split; congruence.
  - revert boqItems. induction boqEvents as [|e rest IH]; intros boqItems b Hb; simpl.
    + now exists b.
    + assert (H1 : exists b1, In b1 (Realtime.onBoqEvent e boqItems)
                              /\ BoqItem.id b1 = BoqItem.id b).
      { destruct e as [new|new|old]; simpl.
        - exists b. split; [apply in_or_app; now left | reflexivity].
        - exists (if String.eqb (BoqItem.id b) (BoqItem.id new) then new else b).
          split.
          + apply in_map_iff. now exists b.
          + destruct (String.eqb _ _) eqn:E; [|reflexivity].
            symmetry. now apply String.eqb_eq.
        - now exists b. }
      destruct H1 as (b1 & Hin1 & E1).
      destruct (IH _ b1 Hin1) as (b' & Hin' & E'). exists b'. split; congruence.
Qed.

Lemma requisition_never_leaves_screen_witness :
  exists r',
    In r' (fold_left (fun s e => Realtime.onReqEvent e s)
                     [Deleted (Sample.req "r1" "to_buy");
                      Updated (Sample.req "r1" "in_transit")]
                     [Sample.req "r1" "to_buy"])
    /\ r' !! "id" = Sample.req "r1" "to_buy" !! "id".
Proof.
  refine (proj1 (requisition_never_leaves_screen
                   [Deleted (Sample.req "r1" "to_buy"); Updated (Sample.req "r1" "in_transit")]
                   [Sample.req "r1" "to_buy"] [] []) (Sample.req "r1" "to_buy") _).
  left. reflexivity.
Defined.

(** ** Reviews, along any sequence of operations *)

Lemma review_recorded_step (a : Site.Action) (daily_logs : list DailyLog.t) :
  Forall review_recorded daily_logs -> Forall review_recorded (Site.step daily_logs a).
Proof.
  intros H. destruct a as [ctx boqItems dailyLogs formData file upload reply
                          | ctx logId reply | ctx logId reason reply]; simpl.
  - destruct (handleSubmit_table ctx boqItems dailyLogs formData file upload reply daily_logs)
      as [-> | (new_id & _ & _ & ->)]; [exact H|].
    apply Forall_app. split; [exact H|]. constructor; [|constructor]. now left.
  - rewrite handleApproveLog_table. destruct reply; [|exact H].
    induction H as [|l r Hl _ IH]; simpl; constructor; [|exact IH].
    unfold review. destruct (String.eqb (DailyLog.id l) logId); [|exact Hl].
    right. left. simpl. repeat split; discriminate.
  - unfold Ledger.handleRejectLog. destruct reason as [r|]; [|exact H].
    destruct (truthy r) eqn:T; [|exact H]. apply truthy_true in T.
    destruct reply; [|exact H]. simpl.
    induction H as [|l rest Hl _ IH]; simpl; constructor; [|exact IH].
    destruct (String.eqb (DailyLog.id l) logId); [|exact Hl].
    right. right. simpl. repeat split; try discriminate. now exists r.
Qed.

(** X6: Whatever the forms and the reviews are, and whatever the backend
    answers, the client writes no status besides ['pending'], ['approved']
    and ['rejected'], never marks a log as reviewed without the reviewer and
    the time, and never rejects one without a reason: if that holds of the
    stored logs, it holds after any sequence of submissions, approvals and
    rejections. *)
Theorem reviews_stay_on_record (daily_logs : list DailyLog.t) (actions : list Site.Action) :
  Forall review_recorded daily_logs ->
  Forall review_recorded (Site.run daily_logs actions).
Proof.
  revert daily_logs. induction actions as [|a rest IH]; intros daily_logs H; simpl.
  - exact H.
  - apply IH. now apply review_recorded_step.
Qed.

Lemma reviews_stay_on_record_witness :
  Forall review_recorded (Site.run [] Sample.late_approval).
Proof.
  apply (reviews_stay_on_record [] Sample.late_approval). constructor.
Defined.

Lemma filter_review (ctx : Ctx) (logId : string) (reason : option string) (status st item : string)
      (ls : list DailyLog.t) :
  (forall l, In l ls -> DailyLog.id l = logId -> DailyLog.boq_item_id l <> item) ->
  List.filter (counted item st) (map (review ctx logId reason status) ls)
  = List.filter (counted item st) ls.
Proof.
  induction ls as [|l r IH]; intros H; [reflexivity|]. simpl.
  rewrite IH by (intros x Hx; apply H; now right).
  destruct (String.eqb (DailyLog.id l) logId) eqn:E.
  - rewrite (review_hit ctx logId reason status l E).
    apply String.eqb_eq in E. assert (Hne := H l (or_introl eq_refl) E).
    apply String.eqb_neq in Hne. unfold counted. simpl. now rewrite Hne.
  - now rewrite (review_miss ctx logId reason status l E).
Qed.

(** X7: A review changes the totals of the item of the reviewed log only: the
    approved and pending quantities of every other item are what they were,
    whatever the requested status and the backend's answer. *)
Theorem review_leaves_other_items
        (ctx : Ctx) (logId status : string) (reason : option string) (reply : UpdateReply)
        (daily_logs : list DailyLog.t) (item : string) :
  (forall l, In l daily_logs -> DailyLog.id l = logId -> DailyLog.boq_item_id l <> item) ->
  Ledger.approvedQty (fst (Ledger.updateLogStatus ctx logId status reason reply daily_logs)) item
  = Ledger.approvedQty daily_logs item
  /\ Ledger.pendingQty (fst (Ledger.updateLogStatus ctx logId status reason reply daily_logs)) item
     = Ledger.pendingQty daily_logs item.
Proof.
  intros H. rewrite updateLogStatus_review. destruct reply; [|now split].
  unfold Ledger.approvedQty, Ledger.pendingQty, Ledger.qty_with_status.
  fold (counted item "approved") (counted item "pending").
  now rewrite !filter_review.
Qed.

Lemma review_leaves_other_items_witness :
  Ledger.pendingQty
    (fst (Ledger.updateLogStatus Sample.engineer "l1" "approved" None UpdateOk
                                 [Sample.l1; Sample.log "l0" 5 "pending"])) "b2"
  = Ledger.pendingQty [Sample.l1; Sample.log "l0" 5 "pending"] "b2".
Proof.
  refine (proj2 (review_leaves_other_items Sample.engineer "l1" "approved" None UpdateOk
                   [Sample.l1; Sample.log "l0" 5 "pending"] "b2" _)).
  intros l [<- | [<- | []]] _; discriminate.
Defined.

Lemma filter_review_other_status (ctx : Ctx) (logId : string) (reason : option string)
      (status st item : string) (ls : list DailyLog.t) :
  st <> status -> st <> "pending" ->
  (forall l, In l ls -> DailyLog.id l = logId -> DailyLog.status l = "pending") ->
  List.filter (counted item st) (map (review ctx logId reason status) ls)
  = List.filter (counted item st) ls.
Proof.
  intros H1 H2. apply String.eqb_neq in H1, H2.
  induction ls as [|l r IH]; intros H; [reflexivity|]. simpl.
  rewrite IH by (intros x Hx; apply H; now right).
  destruct (String.eqb (DailyLog.id l) logId) eqn:E.
  - rewrite (review_hit ctx logId reason status l E).
    apply String.eqb_eq in E. assert (Hp := H l (or_introl eq_refl) E).
    unfold counted. simpl. rewrite Hp.
    rewrite (String.eqb_sym status st), (String.eqb_sym "pending" st), H1, H2.
    now rewrite !andb_false_r.
  - now rewrite (review_miss ctx logId reason status l E).
Qed.

Lemma handleRejectLog_accepted (ctx : Ctx) (logId reason : string)
      (daily_logs : list DailyLog.t) :
  reason <> "" ->
  fst (Ledger.handleRejectLog ctx logId (Some reason) UpdateOk daily_logs)
  = map (review ctx logId (Some reason) "rejected") daily_logs.
Proof.
  intros H. apply truthy_true in H. unfold Ledger.handleRejectLog. now rewrite H.
Qed.

(** The quantities a review moves: those of the reviewed logs of the item
    join the quantities counted with the new status and leave the pending
    ones. *)
Lemma moved_by_review (ctx : Ctx) (logId : string) (reason : option string)
      (status item : string) (ls : list DailyLog.t) :
  status <> "pending" ->
  (forall l, In l ls -> DailyLog.id l = logId -> DailyLog.status l = "pending") ->
  quantities status (map (review ctx logId reason status) ls) item
  ≡ₚ (quantities status ls item ++ map DailyLog.quantity_executed (moved logId item ls))%list
  /\ quantities "pending" ls item
     ≡ₚ (quantities "pending" (map (review ctx logId reason status) ls) item
         ++ map DailyLog.quantity_executed (moved logId item ls))%list.
Proof.
  intros Hst. apply String.eqb_neq in Hst.
  assert (Hps : String.eqb status "pending" = false) by exact Hst.
  assert (Hsp : String.eqb "pending" status = false) by now rewrite String.eqb_sym.
  induction ls as [|l r IH]; intros Hp; simpl map.
  - split; reflexivity.
  - destruct (IH (fun x Hx => Hp x (or_intror Hx))) as (IH1 & IH2). clear IH.
    assert (Hl := Hp l (or_introl eq_refl)). clear Hp.
    rewrite !quantities_cons. unfold moved in *. cbn [List.filter].
    destruct (String.eqb (DailyLog.id l) logId) eqn:E.
    + rewrite (review_hit ctx logId reason status l E). unfold counted.
      cbn [Ledger.reviewed DailyLog.status DailyLog.boq_item_id DailyLog.quantity_executed].
      apply String.eqb_eq in E. rewrite (Hl E), String.eqb_refl, Hsp, Hps.
      rewrite ?andb_false_r, ?andb_true_r. cbn [andb].
      destruct (String.eqb (DailyLog.boq_item_id l) item); cbn [map].
      * split.
        -- rewrite IH1. apply Permutation_middle.
        -- rewrite IH2. apply Permutation_middle.
      * split; assumption.
    + rewrite (review_miss ctx logId reason status l E). cbn [andb].
      destruct (counted item status l), (counted item "pending" l); cbn [app];
        split; try assumption; try (now apply perm_skip).
Qed.

(** X8: Approving a pending log moves exactly its quantity from the
    quantities [validateQuantity] adds up as pending to those it adds up as
    approved, every other quantity staying in its total; rejecting it takes
    the quantity out of the pending ones and leaves the approved ones as
    they were. *)
Theorem review_moves_quantity
        (ctx : Ctx) (logId reason item : string) (daily_logs : list DailyLog.t) :
  (forall l, In l daily_logs -> DailyLog.id l = logId -> DailyLog.status l = "pending") ->
  reason <> "" ->
  let approved := fst (Ledger.handleApproveLog ctx logId UpdateOk daily_logs) in
  let rejected := fst (Ledger.handleRejectLog ctx logId (Some reason) UpdateOk daily_logs) in
  let reviewed := map DailyLog.quantity_executed (moved logId item daily_logs) in
  quantities "approved" approved item
  ≡ₚ (quantities "approved" daily_logs item ++ reviewed)%list
  /\ quantities "pending" daily_logs item
     ≡ₚ (quantities "pending" approved item ++ reviewed)%list
  /\ quantities "approved" rejected item = quantities "approved" daily_logs item
  /\ quantities "pending" daily_logs item
     ≡ₚ (quantities "pending" rejected item ++ reviewed)%list
  /\ (forall st, Ledger.qty_with_status st daily_logs item
                 = fold_left add_json (quantities st daily_logs item) 0).
Proof.
  intros Hp Hr approved rejected reviewed. subst approved rejected reviewed.
  rewrite handleApproveLog_table, handleRejectLog_accepted by exact Hr.
  destruct (moved_by_review ctx logId None "approved" item daily_logs) as (A1 & A2);
    [discriminate | exact Hp |].
  destruct (moved_by_review ctx logId (Some reason) "rejected" item daily_logs) as (_ & R2);
    [discriminate | exact Hp |].
  split; [exact A1|]. split; [exact A2|]. split; [|split; [exact R2|]].
  - unfold quantities.
    now rewrite filter_review_other_status by (discriminate || exact Hp).
  - intros st. apply qty_with_status_quantities.
Qed.

Lemma review_moves_quantity_witness :
  quantities "approved"
    (fst (Ledger.handleApproveLog Sample.engineer "l1" UpdateOk
                                  [Sample.log "l0" 5 "approved"; Sample.l1])) "b1"
  ≡ₚ (quantities "approved" [Sample.log "l0" 5 "approved"; Sample.l1] "b1"
      ++ map DailyLog.quantity_executed
             (moved "l1" "b1" [Sample.log "l0" 5 "approved"; Sample.l1]))%list.
Proof.
  refine (proj1 (review_moves_quantity Sample.engineer "l1" "medida errada" "b1"
                   [Sample.log "l0" 5 "approved"; Sample.l1] _ _)).
  - intros l [<- | [<- | []]] E; [discriminate E | reflexivity].
  - discriminate.
Defined.

(** ** More of the daily-log form *)

(** X9: On whole numbers [validateQuantity] is exact.  When the approved
    and pending totals of [dailyLogs], the typed quantity and the budget are
    whole numbers that are not negative, the budget and the sum of the other
    three being below [2^53], the form is valid exactly when approved plus
    pending plus typed is at most the budget, and the figure it reports as
    left is then the budget minus the three, which is not negative;
    otherwise the error carries their sum. *)
Theorem validateQuantity_remaining
        (boqItems : list BoqItem.t) (dailyLogs : list DailyLog.t) (formData : FormData)
        (b : BoqItem.t) (A P T n : Z) :
  boqItemId formData <> "" ->
  quantityExecuted formData <> "" ->
  List.find (fun b => String.eqb (BoqItem.id b) (boqItemId formData)) boqItems = Some b ->
  Ledger.approvedQty dailyLogs (boqItemId formData) = of_Z A ->
  Ledger.pendingQty dailyLogs (boqItemId formData) = of_Z P ->
  parseFloat (quantityExecuted formData) = of_Z n ->
  BoqItem.total_metrado b = of_Z T ->
  (0 <= A /\ 0 <= P /\ 0 <= n /\ A + P + n < 2 ^ 53 /\ 0 <= T < 2 ^ 53)%Z ->
  Ledger.validateQuantity boqItems dailyLogs formData
  = (if (A + P + n <=? T)%Z
     then {| valid := true; message := None;
             remaining := Some (of_Z (T - (A + P + n))) |}
     else {| valid := false;
             message := Some (MayorMetrado (of_Z (A + P + n)) (of_Z T));
             remaining := None |})
  /\ ((A + P + n <= T)%Z -> gt 0 (of_Z (T - (A + P + n))) = false).
Proof.
  intros Hi Hq Hfind HA HP Hn HT Hb. split.
  - rewrite (validateQuantity_found _ _ _ b Hi Hq Hfind). cbv zeta.
    rewrite HA, HP, Hn, HT.
    assert (E1 : of_Z A + of_Z P = of_Z (A + P)) by (apply add_of_Z; lia).
    assert (E2 : of_Z (A + P) + of_Z n = of_Z (A + P + n)) by (apply add_of_Z; lia).
    rewrite E1, E2. unfold gt. rewrite ltb_of_Z by lia.
    destruct (Z.leb_spec (A + P + n) T) as [L | G].
    + replace (T <? A + P + n)%Z with false by (symmetry; apply Z.ltb_ge; lia).
      rewrite sub_of_Z by lia. reflexivity.
    + replace (T <? A + P + n)%Z with true by (symmetry; apply Z.ltb_lt; lia).
      reflexivity.
  - intros L. unfold gt. change (0%float) with (of_Z 0). rewrite ltb_of_Z by lia.
    apply Z.ltb_ge. lia.
Qed.

Lemma validateQuantity_remaining_witness :
  Ledger.validateQuantity [Sample.b1] [Sample.l1] (Sample.form "b1" "15")
  = {| valid := true; message := None; remaining := Some (of_Z 5) |}.
Proof.
  refine (proj1 (validateQuantity_remaining [Sample.b1] [Sample.l1] (Sample.form "b1" "15")
                   Sample.b1 0 30 50 15 _ _ _ _ _ _ _ _)).
  - discriminate.
  - discriminate.
  - reflexivity.
  - vm_compute. reflexivity.
  - vm_compute. reflexivity.
  - vm_compute. reflexivity.
  - vm_compute. reflexivity.
  - lia.
Defined.

(** X10: A form for an item that is not among [boqItems] is refused with
    "Partida no encontrada" and nothing is sent, whatever the quantity. *)
Theorem handleSubmit_unknown_item
        (ctx : Ctx) (boqItems : list BoqItem.t) (dailyLogs : list DailyLog.t)
        (formData : FormData) (evidenceFile upload : option string)
        (reply : InsertReply) (daily_logs : list DailyLog.t) :
  boqItemId formData <> "" ->
  quantityExecuted formData <> "" ->
  (forall b, In b boqItems -> BoqItem.id b <> boqItemId formData) ->
  let r := Ledger.handleSubmit ctx boqItems dailyLogs formData evidenceFile upload
                               reply daily_logs in
  Ledger.table r = daily_logs
  /\ Ledger.toasts r = [addToast (Text "Partida no encontrada") error]
  /\ Ledger.form r = formData.
Proof.
  intros Hi Hq Hnone r. subst r. unfold Ledger.handleSubmit, Ledger.validateQuantity.
  apply truthy_true in Hi, Hq. rewrite Hi, Hq. simpl.
  destruct (List.find _ boqItems) as [b|] eqn:F.
  - apply List.find_some in F. destruct F as (Hin & E).
    apply String.eqb_eq in E. now apply Hnone in Hin.
  - now repeat split.
Qed.

Lemma handleSubmit_unknown_item_witness :
  Ledger.toasts (Ledger.handleSubmit Sample.foreman [Sample.b1] [] (Sample.form "b7" "3")
                                     None None (InsertOk "l1") [])
  = [addToast (Text "Partida no encontrada") error].
Proof.
  destruct (handleSubmit_unknown_item Sample.foreman [Sample.b1] [] (Sample.form "b7" "3")
              None None (InsertOk "l1") []) as (_ & H & _).
  - discriminate.
  - discriminate.
  - intros b [<- | []]. discriminate.
  - exact H.
Defined.

(** X11: A form whose quantity is empty is not stopped by [handleSubmit]:
    once the backend accepts the insert, a log without quantity is stored
    for the selected item, the success toast is shown, and the approved and
    pending totals of every item are what they were. *)
Theorem handleSubmit_empty_quantity
        (ctx : Ctx) (boqItems : list BoqItem.t) (dailyLogs : list DailyLog.t)
        (formData : FormData) (evidenceFile upload : option string)
        (new_id : string) (daily_logs : list DailyLog.t) :
  quantityExecuted formData = "" ->
  let r := Ledger.handleSubmit ctx boqItems dailyLogs formData evidenceFile upload
                               (InsertOk new_id) daily_logs in
  (exists row,
      Ledger.table r = (daily_logs ++ [row])%list
      /\ DailyLog.quantity_executed row = None
      /\ DailyLog.boq_item_id row = boqItemId formData
      /\ DailyLog.status row = "pending")
  /\ Ledger.toasts r = [addToast (Text "Reporte enviado correctamente") success]
  /\ (forall item,
         Ledger.approvedQty (Ledger.table r) item = Ledger.approvedQty daily_logs item
         /\ Ledger.pendingQty (Ledger.table r) item = Ledger.pendingQty daily_logs item).
Proof.
  intros Hq r.
  assert (V : valid (Ledger.validateQuantity boqItems dailyLogs formData) = true).
  { rewrite validateQuantity_skips by now right. reflexivity. }
  destruct (handleSubmit_stored ctx boqItems dailyLogs formData evidenceFile upload new_id
                                daily_logs V) as (Ht & Hm).
  fold r in Ht, Hm. rewrite Ht.
  assert (Hnone : DailyLog.quantity_executed
                    (submitted ctx formData evidenceFile upload new_id) = None).
  { unfold submitted. cbn [DailyLog.quantity_executed]. now rewrite Hq. }
  split; [|split; [exact Hm|]].
  - eexists. split; [reflexivity|]. now repeat split.
  - intros item. unfold Ledger.approvedQty, Ledger.pendingQty.
    rewrite !qty_with_status_snoc, Hnone.
    split; destruct (counted _ _ _); reflexivity.
Qed.

Lemma handleSubmit_empty_quantity_witness :
  Ledger.toasts (Ledger.handleSubmit Sample.foreman [Sample.b1] [Sample.log "l0" 50 "approved"]
                                     (Sample.form "b1" "") None None (InsertOk "l1")
                                     [Sample.log "l0" 50 "approved"])
  = [addToast (Text "Reporte enviado correctamente") success].
Proof.
  destruct (handleSubmit_empty_quantity Sample.foreman [Sample.b1]
              [Sample.log "l0" 50 "approved"] (Sample.form "b1" "") None None "l1"
              [Sample.log "l0" 50 "approved"]) as (_ & H & _).
  - reflexivity.
  - exact H.
Defined.

(** ** The rows of the forms *)

Lemma filter_from_past (A : Type) (index s : nat) (rows : list A) :
  (index < s)%nat ->
  Rows.filter_from (fun i => negb (i =? index)%nat) s rows = rows.
Proof.
  revert s. induction rows as [|row rest IH]; intros s Hs; [reflexivity|].
  cbn [Rows.filter_from].
  replace (s =? index)%nat with false by (symmetry; apply Nat.eqb_neq; lia).
  cbn [negb]. f_equal. apply IH. lia.
Qed.

Lemma filter_from_skip (A : Type) (index s : nat) (rows : list A) :
  Rows.filter_from (fun i => negb (i =? s + index)%nat) s rows
  = (firstn index rows ++ skipn (S index) rows)%list.
Proof.
  revert index s. induction rows as [|row rest IH]; intros index s.
  - now destruct index.
  - cbn [Rows.filter_from]. destruct index as [|index].
    + replace (s + 0)%nat with s by lia. rewrite Nat.eqb_refl.
      cbn [negb firstn skipn app]. apply filter_from_past. lia.
    + replace (s =? s + S index)%nat with false by (symmetry; apply Nat.eqb_neq; lia).
      cbn [negb firstn skipn app]. f_equal. rewrite <- (IH index (S s)).
      replace (S s + index)%nat with (s + S index)%nat by lia. reflexivity.
Qed.

Lemma map_from_nth (A : Type) (f : A -> nat -> A) (s j : nat) (rows : list A) :
  nth_error (Rows.map_from f s rows) j
  = option_map (fun row => f row (s + j)%nat) (nth_error rows j).
Proof.
  revert s j. induction rows as [|row rest IH]; intros s j; simpl.
  - now destruct j.
  - destruct j as [|j]; simpl.
    + now replace (s + 0)%nat with s by lia.
    + rewrite IH. now replace (S s + j)%nat with (s + S j)%nat by lia.
Qed.

Lemma map_from_length (A : Type) (f : A -> nat -> A) (s : nat) (rows : list A) :
  length (Rows.map_from f s rows) = length rows.
Proof.
  revert s. induction rows as [|row rest IH]; intros s; simpl; [reflexivity|].
  now rewrite IH.
Qed.

Lemma removeRow_skip (A : Type) (index : nat) (rows : list A) :
  Rows.removeRow index rows = (firstn index rows ++ skipn (S index) rows)%list.
Proof. apply (filter_from_skip A index 0). Qed.

(** X12: The rows of a form.  Removing at an index takes out the row at that
    index and no other; removing the row that was just added gives back the
    rows as they were; past the end, removing and updating change nothing;
    updating keeps the number of rows and changes the row at the index
    only. *)
Theorem form_rows (A : Type) (row : A) (set : A -> A) (index : nat) (rows : list A) :
  Rows.removeRow index rows = (firstn index rows ++ skipn (S index) rows)%list
  /\ Rows.removeRow (length rows) (Rows.addRow row rows) = rows
  /\ ((length rows <= index)%nat ->
      Rows.removeRow index rows = rows /\ Rows.updateRow index set rows = rows)
  /\ length (Rows.updateRow index set rows) = length rows
  /\ (forall j, nth_error (Rows.updateRow index set rows) j
                = if (j =? index)%nat then option_map set (nth_error rows j)
                  else nth_error rows j).
Proof.
  assert (Hnth : forall j, nth_error (Rows.updateRow index set rows) j
                           = if (j =? index)%nat then option_map set (nth_error rows j)
                             else nth_error rows j).
  { intros j. unfold Rows.updateRow. rewrite map_from_nth. simpl.
    destruct (j =? index)%nat; [reflexivity|]. now destruct (nth_error rows j). }
  split; [apply removeRow_skip|].
  split.
  { rewrite removeRow_skip. unfold Rows.addRow.
    rewrite firstn_app, Nat.sub_diag, firstn_all. simpl.
    rewrite skipn_all2 by (rewrite length_app; simpl; lia).
    now rewrite !app_nil_r. }
  split; [|split; [apply map_from_length | exact Hnth]].
  intros Hle. split.
  - rewrite removeRow_skip, firstn_all2, skipn_all2 by lia. apply app_nil_r.
  - apply nth_error_ext. intros j. rewrite Hnth.
    destruct (j =? index)%nat eqn:E; [|reflexivity].
    apply Nat.eqb_eq in E. subst j.
    assert (H : nth_error rows index = None) by (apply nth_error_None; lia).
    now rewrite H.
Qed.

Lemma form_rows_witness :
  Rows.removeRow 5 Rows.initialLaborRows = Rows.initialLaborRows
  /\ Rows.updateRow 5 (Rows.setLaborInput "hours" "8") Rows.initialLaborRows
     = Rows.initialLaborRows.
Proof.
  refine (proj1 (proj2 (proj2 (form_rows LaborInput {| worker_type := "peon"; hours := "" |}
                                         (Rows.setLaborInput "hours" "8") 5
                                         Rows.initialLaborRows))) _).
  simpl. lia.
Defined.

(** X13: The labor section of the older form never runs out of rows: whatever
    is added, changed and removed, at least one row is left. *)
Theorem labor_rows_never_empty (ops : list Rows.LaborOp) (laborRows : list LaborInput) :
  (1 <= length laborRows)%nat ->
  (1 <= length (fold_left (fun rows op => Rows.laborOp op rows) ops laborRows))%nat.
Proof.
  revert laborRows. induction ops as [|op rest IH]; intros laborRows H; simpl; [exact H|].
  apply IH. destruct op as [|index field value|index]; simpl.
  - unfold Rows.addRow. rewrite length_app. lia.
  - unfold Rows.updateRow. now rewrite map_from_length.
  - unfold Rows.removeRowKeepingOne.
    destruct (1 <? length laborRows)%nat eqn:E; [|exact H].
    apply Nat.ltb_lt in E. rewrite removeRow_skip, length_app, length_firstn, length_skipn.
    lia.
Qed.

Lemma labor_rows_never_empty_witness :
  (1 <= length (fold_left (fun rows op => Rows.laborOp op rows)
                          [Rows.RemoveLabor 0; Rows.AddLabor; Rows.RemoveLabor 0;
                           Rows.RemoveLabor 0]
                          Rows.initialLaborRows))%nat.
Proof.
  apply (labor_rows_never_empty _ Rows.initialLaborRows). simpl. lia.
Defined.

(** ** More of the older daily-report form *)

Lemma validateSubmission_passed (f : Reports.Form) :
  Reports.validateSubmission f = None ->
  exists p,
    Reports.selectedPartida f = Some p
    /\ gt (Reports.or0 (Partida.current_progress p)
           + or_zero (parseFloat (Reports.progressInput f)))
          (Reports.or0 (Partida.total_budgeted p)) = false
    /\ existsb (fun row => Reports.positive_text (hours row)) (Reports.laborRows f) = true.
Proof.
  unfold Reports.validateSubmission.
  destruct (Reports.selectedPartida f) as [p|]; [|discriminate].
  destruct (gt _ _) eqn:G; [discriminate|].
  destruct (existsb _ _) eqn:E; [|discriminate].
  intros _. now exists p.
Qed.

Lemma or0_not_nan (v : option jsnum) : is_nan (Reports.or0 v) = false.
Proof.
  destruct v as [q|]; [|reflexivity]. unfold Reports.or0, or_zero.
  destruct (is_nan q) eqn:N; [reflexivity|]. cbn [orb].
  destruct (is_zero q); [reflexivity | exact N].
Qed.

(** X14: A report of the older form that was saved carries at least one
    labor entry, every labor entry has hours above zero, and the progress
    written to the partida is [null] or at most the budget the form was
    validated against. *)
Theorem saved_report_is_validated
        (ctx : Ctx) (catalog : list Material) (f : Reports.Form)
        (reportReply : InsertReply) (updateReply : UpdateReply) (st : Reports.Stored) :
  Reports.alert (Reports.handleSubmit ctx catalog f reportReply updateReply st)
  = Some (Text "Reporte diario guardado exitosamente") ->
  exists p,
    Reports.selectedPartida f = Some p
    /\ (1 <= length (Reports.laborData f))%nat
    /\ Forall (fun e => gt (le_hours e) 0 = true) (Reports.laborData f)
    /\ forall q,
        In q (Reports.partidas
                (Reports.stored (Reports.handleSubmit ctx catalog f reportReply updateReply st))) ->
        Partida.id q = Partida.id p ->
        match Partida.current_progress q with
        | Some v => (v <=? Reports.or0 (Partida.total_budgeted p)) = true
        | None => True
        end.
Proof.
  unfold Reports.handleSubmit.
  destruct (Reports.validateSubmission f) as [e|] eqn:V; [discriminate|].
  destruct (validateSubmission_passed f V) as (p & Hp & G & E).
  rewrite Hp. destruct reportReply as [new_id|m]; [|discriminate].
  destruct updateReply as [|m]; [|discriminate].
  intros _. exists p. split; [reflexivity|]. simpl.
  split; [|split].
  - unfold Reports.laborData. rewrite length_map.
    apply existsb_exists in E. destruct E as (row & Hin & Hrow).
    assert (Hf : In row (List.filter (fun row => Reports.positive_text (hours row))
                                     (Reports.laborRows f))).
    { apply List.filter_In. now split. }
    destruct (List.filter _ _); [destruct Hf | simpl; lia].
  - unfold Reports.laborData. apply Forall_forall. intros e He.
    apply list_elem_of_In, in_map_iff in He. destruct He as (row & <- & Hrow).
    apply List.filter_In in Hrow. destruct Hrow as (_ & Hpos). simpl.
    unfold Reports.positive_text in Hpos. now apply andb_true_iff in Hpos.
  - intros q Hq Hid. apply in_map_iff in Hq. destruct Hq as (q0 & <- & _).
    destruct (String.eqb (Partida.id q0) (Partida.id p)) eqn:Eq.
    + cbn [Reports.set_progress Partida.current_progress].
      destruct (to_json _) as [v|] eqn:J; [|exact I].
      apply to_json_Some in J. destruct J as (Hnan & [(Hz & ->) | (_ & ->)]).
      * rewrite (leb_zero_l _ _ Hz).
        apply not_gt_leb; [exact Hnan | apply or0_not_nan | exact G].
      * apply not_gt_leb; [exact Hnan | apply or0_not_nan | exact G].
    + apply String.eqb_neq in Eq. contradiction.
Qed.

Lemma saved_report_is_validated_witness :
  exists p,
    Reports.selectedPartida Sample.reportForm = Some p
    /\ (1 <= length (Reports.laborData Sample.reportForm))%nat.
Proof.
  destruct (saved_report_is_validated Sample.foreman [] Sample.reportForm
              (InsertOk "dr1") UpdateOk
              {| Reports.daily_reports := []; Reports.partidas := [Sample.partida] |})
    as (p & H1 & H2 & _).
  - reflexivity.
  - exists p. split; [exact H1 | exact H2].
Defined.

(** ** The requisition handlers taken together *)

(** X15: From purchase to receipt.  For a stored requisition of the given id,
    with the invoice ticked and both updates accepted: after
    [handlePurchase] the requisition is in the list [inTransitReqs]; after
    [handleConfirmReceived] it is in the list [completedReqs], still with
    the buyer, the purchase time and the evidence of the purchase, now with
    the receiver and the receipt time, and with every other column as it
    was stored. *)
Theorem purchase_then_receipt
        (buyer receiver : Ctx) (documents : Documents) (reqId : string)
        (requisitions : list (gmap string jsval)) (i : nat) (r : gmap string jsval) :
  nth_error requisitions i = Some r ->
  r !! "id" = Some (JStr reqId) ->
  factura documents = true ->
  let bought :=
    Requisitions.reqs (Requisitions.handlePurchase buyer documents reqId UpdateOk requisitions) in
  let received := fst (Requisitions.handleConfirmReceived receiver reqId UpdateOk bought) in
  exists r1 r2,
    nth_error bought i = Some r1
    /\ In r1 (Requisitions.inTransitReqs bought)
    /\ nth_error received i = Some r2
    /\ In r2 (Requisitions.completedReqs received)
    /\ r2 !! "purchased_by" = Some (JStr (user_id buyer))
    /\ r2 !! "purchased_at" = Some (JStr (now buyer))
    /\ r2 !! "evidence_urls" = Some (Requisitions.evidence buyer documents)
    /\ r2 !! "received_by" = Some (JStr (user_id receiver))
    /\ r2 !! "received_at" = Some (JStr (now receiver))
    /\ forall k,
        k ∉ ({[ "status"; "evidence_urls"; "purchased_by"; "purchased_at";
                "received_by"; "received_at" ]} : gset string) ->
        r2 !! k = r !! k.
Proof.
  intros Hr Hid Hf bought received.
  set (sent1 := Requisitions.updateData buyer "in_transit"
                  {[ "evidence_urls" := Requisitions.evidence buyer documents ]}).
  set (sent2 := Requisitions.updateData receiver "completed" ∅).
  assert (Hb : nth_error bought i = Some (sent1 ∪ r)).
  { subst bought. unfold Requisitions.handlePurchase. rewrite Hf. simpl.
    rewrite nth_error_map, Hr. simpl.
    apply field_is_true in Hid. now rewrite Hid. }
  assert (Hid1 : (sent1 ∪ r) !! "id" = Some (JStr reqId)).
  { rewrite lookup_union_r; [exact Hid|].
    apply (in_transit_sent buyer documents "id"). set_solver. }
  assert (Hc : nth_error received i = Some (sent2 ∪ (sent1 ∪ r))).
  { subst received. simpl. rewrite nth_error_map, Hb. simpl.
    apply field_is_true in Hid1. now rewrite Hid1. }
  destruct (in_transit_sent buyer documents "status") as (S1 & S2 & S3 & S4 & _).
  destruct (completed_sent receiver "status") as (C1 & C2 & C3 & _).
  fold sent1 in S1, S2, S3, S4. fold sent2 in C1, C2, C3.
  exists (sent1 ∪ r), (sent2 ∪ (sent1 ∪ r)).
  split; [exact Hb|]. split.
  { apply filter_status_spec. split; [now apply nth_error_In in Hb|].
    now apply lookup_union_Some_l. }
  split; [exact Hc|]. split.
  { apply List.filter_In. split; [now apply nth_error_In in Hc|].
    apply orb_true_iff. left. apply field_is_true. now apply lookup_union_Some_l. }
  assert (Hkeep : forall k v, k ∉ ({[ "status"; "received_by"; "received_at" ]} : gset string) ->
                              sent1 !! k = Some v -> (sent2 ∪ (sent1 ∪ r)) !! k = Some v).
  { intros k v Hk Hv. rewrite lookup_union_r.
    - now apply lookup_union_Some_l.
    - now apply (completed_sent receiver k). }
  split; [apply Hkeep; [set_solver | exact S3]|].
  split; [apply Hkeep; [set_solver | exact S4]|].
  split; [apply Hkeep; [set_solver | exact S2]|].
  split; [now apply lookup_union_Some_l|].
  split; [now apply lookup_union_Some_l|].
  intros k Hk. rewrite !lookup_union_r; [reflexivity | |].
  - apply (in_transit_sent buyer documents k). set_solver.
  - apply (completed_sent receiver k). set_solver.
Qed.

Lemma purchase_then_receipt_witness :
  exists r2,
    nth_error
      (fst (Requisitions.handleConfirmReceived Sample.engineer "r1" UpdateOk
              (Requisitions.reqs
                 (Requisitions.handlePurchase Sample.buyer
                    {| factura := true; guia := true; foto := false |} "r1" UpdateOk
                    [Sample.req "r1" "to_buy"])))) 0
    = Some r2
    /\ r2 !! "purchased_by" = Some (JStr "u-logistics")
    /\ r2 !! "received_by" = Some (JStr "u-engineer").
Proof.
  destruct (purchase_then_receipt Sample.buyer Sample.engineer
              {| factura := true; guia := true; foto := false |} "r1"
              [Sample.req "r1" "to_buy"] 0 (Sample.req "r1" "to_buy"))
    as (r1 & r2 & _ & _ & H3 & _ & H5 & _ & _ & H8 & _).
  - reflexivity.
  - vm_compute. reflexivity.
  - reflexivity.
  - exists r2. split; [exact H3|]. split; [exact H5 | exact H8].
Defined.

Lemma field_is_functional (r : gmap string jsval) (k v w : string) :
  field_is r k v = true -> field_is r k w = true -> v = w.
Proof.
  rewrite !field_is_true. congruence.
Qed.

(** X16: The three lists of the logistics module never share a requisition, so
    the three counts of its cards add up to at most the number of
    requisitions; what is ['pending_pm'] or ['rejected'] is in none of
    them. *)
Theorem logistics_lists_apart (requisitions : list (gmap string jsval))
        (r : gmap string jsval) :
  (length (Requisitions.toBuyReqs requisitions)
   + length (Requisitions.inTransitReqs requisitions)
   + length (Requisitions.completedReqs requisitions) <= length requisitions)%nat
  /\ (In r (Requisitions.toBuyReqs requisitions) ->
      ~ In r (Requisitions.inTransitReqs requisitions)
      /\ ~ In r (Requisitions.completedReqs requisitions))
  /\ (In r (Requisitions.inTransitReqs requisitions) ->
      ~ In r (Requisitions.completedReqs requisitions))
  /\ (r !! "status" = Some (JStr "pending_pm") \/ r !! "status" = Some (JStr "rejected") ->
      ~ In r (Requisitions.toBuyReqs requisitions)
      /\ ~ In r (Requisitions.inTransitReqs requisitions)
      /\ ~ In r (Requisitions.completedReqs requisitions)).
Proof.
  unfold Requisitions.toBuyReqs, Requisitions.inTransitReqs, Requisitions.completedReqs.
  split.
  - induction requisitions as [|x rest IH]; simpl; [lia|].
    destruct (field_is x "status" "to_buy") eqn:A,
             (field_is x "status" "in_transit") eqn:B,
             (field_is x "status" "completed") eqn:C,
             (field_is x "status" "received") eqn:D; simpl; try lia;
      try (discriminate (field_is_functional x _ _ _ A B));
      try (discriminate (field_is_functional x _ _ _ A C));
      try (discriminate (field_is_functional x _ _ _ A D));
      try (discriminate (field_is_functional x _ _ _ B C));
      try (discriminate (field_is_functional x _ _ _ B D)).
  - rewrite !List.filter_In, orb_true_iff, !field_is_true.
    split; [|split]; intros H; repeat split; intros H'; intuition congruence.
Qed.

Lemma logistics_lists_apart_witness :
  (In (Sample.req "r1" "to_buy") (Requisitions.inTransitReqs [Sample.req "r1" "to_buy"])
   -> False)
  /\ (In (Sample.req "r1" "to_buy") (Requisitions.completedReqs [Sample.req "r1" "to_buy"])
      -> False).
Proof.
  refine (proj1 (proj2 (logistics_lists_apart [Sample.req "r1" "to_buy"]
                                              (Sample.req "r1" "to_buy"))) _).
  vm_compute. left. reflexivity.
Defined.

Lemma status_written (st : string) (a : ReqSite.Action)
      (requisitions : list (gmap string jsval)) (r : gmap string jsval) :
  st <> "pending_pm" -> st <> "in_transit" -> st <> "completed" ->
  In r (ReqSite.step requisitions a) -> r !! "status" = Some (JStr st) ->
  In r requisitions.
Proof.
  intros H1 H2 H3 Hin Hst.
  destruct a as [ctx reqForm reply | ctx documents reqId reply | ctx reqId reply]; simpl in Hin.
  - unfold Requisitions.handleCreateRequisition, Requisitions.createRequisition in Hin.
    destruct reply as [new_id|m]; simpl in Hin; [|exact Hin].
    apply in_app_or in Hin. destruct Hin as [Hin | [<- | []]]; [exact Hin|].
    exfalso. revert Hst. destruct (description reqForm); simplify_map_eq; congruence.
  - unfold Requisitions.handlePurchase in Hin.
    destruct (factura documents); simpl in Hin; [|exact Hin].
    destruct reply; simpl in Hin; [|exact Hin].
    apply in_map_iff in Hin. destruct Hin as (r0 & <- & Hin0).
    destruct (field_is r0 "id" reqId); [|exact Hin0].
    exfalso.
    rewrite (lookup_union_Some_l _ _ _ _ (proj1 (in_transit_sent ctx documents "status")))
      in Hst.
    congruence.
  - unfold Requisitions.handleConfirmReceived in Hin.
    destruct reply; simpl in Hin; [|exact Hin].
    apply in_map_iff in Hin. destruct Hin as (r0 & <- & Hin0).
    destruct (field_is r0 "id" reqId); [|exact Hin0].
    exfalso.
    rewrite (lookup_union_Some_l _ _ _ _ (proj1 (completed_sent ctx "status"))) in Hst.
    congruence.
Qed.

(** X17: No handler of the client approves or rejects a requisition: the only
    statuses they write are ['pending_pm'], ['in_transit'] and
    ['completed'].  So after any sequence of creations, purchases and
    confirmed receipts, a requisition that is ['to_buy'] (or of any other
    status besides those three) was stored as such from the start; in
    particular the list [toBuyReqs] never gains a requisition. *)
Theorem no_handler_approves_requisitions
        (st : string) (actions : list ReqSite.Action)
        (requisitions : list (gmap string jsval)) (r : gmap string jsval) :
  st <> "pending_pm" -> st <> "in_transit" -> st <> "completed" ->
  In r (ReqSite.run requisitions actions) ->
  r !! "status" = Some (JStr st) ->
  In r requisitions /\ (st = "to_buy" -> In r (Requisitions.toBuyReqs requisitions)).
Proof.
  intros H1 H2 H3 Hin Hst.
  assert (H : In r requisitions).
  { revert requisitions Hin. induction actions as [|a rest IH]; intros requisitions Hin.
    - exact Hin.
    - simpl in Hin. apply IH in Hin. now apply (status_written st a). }
  split; [exact H|]. intros ->. now apply filter_status_spec.
Qed.

Lemma no_handler_approves_requisitions_witness :
  In (Sample.req "r2" "to_buy") [Sample.req "r1" "pending_pm"; Sample.req "r2" "to_buy"].
Proof.
  refine (proj1 (no_handler_approves_requisitions "to_buy"
                   [ReqSite.Create Sample.engineer (Sample.reqForm "4") (InsertOk "r3");
                    ReqSite.Confirm Sample.engineer "r1" UpdateOk]
                   [Sample.req "r1" "pending_pm"; Sample.req "r2" "to_buy"]
                   (Sample.req "r2" "to_buy") _ _ _ _ _)).
  - discriminate.
  - discriminate.
  - discriminate.
  - vm_compute. right. left. reflexivity.
  - vm_compute. reflexivity.
Defined.

(** ** Assigned projects *)

(** X18: Ticking a project in the list of a user's projects changes whether that
    project is assigned and nothing else; in a list without repetitions it
    introduces none, and ticking twice a project that was not assigned gives
    back the list. *)
Theorem toggle_assignment (projectId x : string) (assigned : list string) :
  (In x (Assign.toggle projectId assigned)
   <-> (x <> projectId /\ In x assigned) \/ (x = projectId /\ ~ In projectId assigned))
  /\ (NoDup assigned -> NoDup (Assign.toggle projectId assigned))
  /\ (~ In projectId assigned ->
      Assign.toggle projectId (Assign.toggle projectId assigned) = assigned).
Proof.
  unfold Assign.toggle.
  assert (Hex : existsb (String.eqb projectId) assigned = true <-> In projectId assigned).
  { rewrite existsb_exists. split.
    - intros (y & Hy & E). apply String.eqb_eq in E. now subst.
    - intros H. exists projectId. split; [exact H | apply String.eqb_refl]. }
  assert (Hkeep : forall l : list string,
             ~ In projectId l ->
             List.filter (fun id => negb (String.eqb id projectId)) l = l).
  { induction l as [|y l IH]; intros Hn; [reflexivity|]. simpl.
    destruct (String.eqb y projectId) eqn:E.
    - apply String.eqb_eq in E. subst. exfalso. apply Hn. now left.
    - simpl. f_equal. apply IH. intros H. apply Hn. now right. }
  destruct (existsb (String.eqb projectId) assigned) eqn:E.
  - assert (Hin : In projectId assigned) by now apply Hex.
    split; [|split].
    + rewrite List.filter_In, negb_true_iff, String.eqb_neq. tauto.
    + intros Hnd. apply base.NoDup_ListNoDup, List.NoDup_filter, base.NoDup_ListNoDup, Hnd.
    + intros Hn. contradiction.
  - assert (Hnin : ~ In projectId assigned).
    { intros H. apply Hex in H. congruence. }
    split; [|split].
    + rewrite in_app_iff. simpl. split.
      * intros [H | [<- | []]]; [left | right]; [|now split].
        split; [|exact H]. intros ->. contradiction.
      * intros [[_ H] | [-> _]]; [now left | right; now left].
    + intros Hnd. apply NoDup_app. split; [exact Hnd|]. split.
      * intros y Hy Hy'. apply list_elem_of_In in Hy, Hy'.
        destruct Hy' as [<- | []]. contradiction.
      * apply NoDup_singleton.
    + intros _.
      replace (existsb (String.eqb projectId) (assigned ++ [projectId])) with true.
      * rewrite List.filter_app, Hkeep by exact Hnin. simpl.
        rewrite String.eqb_refl. simpl. apply app_nil_r.
      * symmetry. apply existsb_exists. exists projectId.
        split; [apply in_or_app; right; now left | apply String.eqb_refl].
Qed.

Lemma toggle_assignment_witness :
  Assign.toggle "p2" (Assign.toggle "p2" ["p1"]) = ["p1"].
Proof.
  refine (proj2 (proj2 (toggle_assignment "p2" "p1" ["p1"])) _).
  intros [H | []]. discriminate H.
Defined.

(** ** Badges, upload paths and CSV cells *)

Lemma append_cons (c : ascii) (a b : string) :
  (String c a ++ b = String c (a ++ b))%string.
Proof. reflexivity. Qed.

Lemma append_nil (b : string) : ("" ++ b = b)%string.
Proof. reflexivity. Qed.

Ltac push_append := rewrite ?append_cons, ?append_nil.

Lemma has_dot_app (a b : string) :
  Upload.has_dot (a ++ b) = Upload.has_dot a || Upload.has_dot b.
Proof.
  induction a as [|c a IH]; [reflexivity|].
  push_append. cbn [Upload.has_dot]. now rewrite IH, orb_assoc.
Qed.

Lemma last_piece_no_dot (s acc : string) :
  Upload.has_dot acc = false -> Upload.has_dot (Upload.last_piece acc s) = false.
Proof.
  revert acc. induction s as [|c s IH]; intros acc Hacc; cbn [Upload.last_piece].
  - exact Hacc.
  - destruct (Ascii.eqb c ".") eqn:Hc.
    + now apply IH.
    + apply IH. rewrite has_dot_app, Hacc. cbn [Upload.has_dot]. now rewrite Hc.
Qed.

Lemma append_assoc (a b c : string) : ((a ++ b) ++ c = a ++ (b ++ c))%string.
Proof. induction a as [|x a IH]; [reflexivity|]. push_append. now rewrite IH. Qed.

Lemma append_empty_r (a : string) : (a ++ "" = a)%string.
Proof. induction a as [|x a IH]; [reflexivity|]. push_append. now rewrite IH. Qed.

Lemma last_piece_plain (s acc : string) :
  Upload.has_dot s = false -> Upload.last_piece acc s = (acc ++ s)%string.
Proof.
  revert acc. induction s as [|c s IH]; intros acc Hs; cbn [Upload.last_piece].
  - now rewrite append_empty_r.
  - cbn [Upload.has_dot] in Hs. apply orb_false_iff in Hs as [Hc Hs].
    rewrite Hc, (IH _ Hs), append_assoc. reflexivity.
Qed.

Lemma last_piece_after_dot (a b acc : string) :
  Upload.last_piece acc (a ++ String "." b) = Upload.last_piece "" b.
Proof.
  revert acc. induction a as [|c a IH]; intros acc; push_append; cbn [Upload.last_piece].
  - reflexivity.
  - destruct (Ascii.eqb c "."); apply IH.
Qed.

Lemma last_piece_suffix (s acc : string) :
  exists before : string,
    (acc ++ s = before ++ Upload.last_piece acc s)%string /\
    (Upload.has_dot s = false -> before = "").
Proof.
  revert acc. induction s as [|c s IH]; intros acc; cbn [Upload.last_piece Upload.has_dot].
  - exists "". split; [now rewrite append_empty_r | reflexivity].
  - destruct (Ascii.eqb c ".") eqn:Hc.
    + apply Ascii.eqb_eq in Hc. subst c.
      destruct (IH "") as [before [Heq _]]. rewrite append_nil in Heq.
      exists (acc ++ String "." before)%string. split; [|discriminate].
      rewrite append_assoc. push_append. now rewrite <- Heq.
    + destruct (IH (acc ++ String c "")%string) as [before [Heq Hnone]].
      exists before. split; [|exact Hnone].
      rewrite <- Heq, append_assoc. reflexivity.
Qed.

(** X20: the extension [uploadEvidence] gives a stored file is the end of
    the file's name: it holds no dot, the name is some text followed by it,
    that text being empty exactly when the name has no dot (the whole name
    is then the extension); and the extension of the stored path is again
    the extension of the name, whatever the folder and the random number. *)
Theorem uploadEvidence_keeps_extension (folder random name : string) :
  Upload.has_dot (Upload.fileExt name) = false /\
  (exists before : string,
     name = (before ++ Upload.fileExt name)%string /\
     (Upload.has_dot name = false -> before = "" /\ Upload.fileExt name = name)) /\
  Upload.fileExt (Upload.filePath folder random name) = Upload.fileExt name.
Proof.
  split; [|split].
  - now apply last_piece_no_dot.
  - destruct (last_piece_suffix name "") as [before [Heq Hnone]].
    exists before. split; [exact Heq|].
    intros Hn. split; [now apply Hnone|].
    unfold Upload.fileExt. now rewrite last_piece_plain.
  - assert (Hp : Upload.filePath folder random name
                 = ((folder ++ "/" ++ random) ++ String "." (Upload.fileExt name))%string).
    { unfold Upload.filePath. rewrite !append_assoc. reflexivity. }
    unfold Upload.fileExt at 1.
    rewrite Hp, last_piece_after_dot, last_piece_plain; [reflexivity|].
    now apply last_piece_no_dot.
Qed.

Lemma uploadEvidence_keeps_extension_witness :
  Upload.fileExt "LEEME" = "LEEME"
  /\ Upload.fileExt (Upload.filePath "logistics" "0.4127" "guia.v2.PDF") = "PDF".
Proof.
  split.
  - destruct (uploadEvidence_keeps_extension "misc" "0.5" "LEEME") as [_ [[before [_ H]] _]].
    now apply H.
  - rewrite (proj2 (proj2 (uploadEvidence_keeps_extension "logistics" "0.4127" "guia.v2.PDF"))).
    reflexivity.
Defined.

Lemma find_badge (status : string) :
  In status (map fst Badges.badges) ->
  exists b, List.find (fun entry => String.eqb (fst entry) status) Badges.badges
            = Some (status, b) /\ In (status, b) Badges.badges.
Proof.
  intros Hin.
  destruct (List.find (fun entry => String.eqb (fst entry) status) Badges.badges)
    as [[k b]|] eqn:Hf.
  - apply find_some in Hf as [Hb Hk]. apply String.eqb_eq in Hk. cbn [fst] in Hk.
    subst k. now exists b.
  - exfalso. apply in_map_iff in Hin as [[k b] [<- Hin]].
    apply (find_none _ _ Hf) in Hin. cbn [fst] in Hin.
    now rewrite String.eqb_refl in Hin.
Qed.

(** X21: [getStatusBadge] draws a status of its table with the entry of
    that status, and any other text (the empty one and the statuses the
    table forgot included) as a pending one, ['Pendiente'] on yellow, unless
    the text is a name every object answers to, for which nothing of a badge
    is found.  The statuses ['completed'] and ['received'] have the same
    colours and differ in icon and caption. *)
Theorem getStatusBadge_fallback (status : string) :
  (In status (map fst Badges.badges) ->
   exists b, In (status, b) Badges.badges /\ Badges.getStatusBadge status = Some b) /\
  (~ In status (map fst Badges.badges) -> ~ In status Badges.inherited ->
   Badges.getStatusBadge status = Badges.getStatusBadge "pending" /\
   option_map label (Badges.getStatusBadge status) = Some "Pendiente" /\
   option_map bg (Badges.getStatusBadge status) = Some "bg-yellow-100") /\
  (In status Badges.inherited -> Badges.getStatusBadge status = None) /\
  option_map bg (Badges.getStatusBadge "completed")
    = option_map bg (Badges.getStatusBadge "received") /\
  option_map text (Badges.getStatusBadge "completed")
    = option_map text (Badges.getStatusBadge "received") /\
  option_map label (Badges.getStatusBadge "completed")
    <> option_map label (Badges.getStatusBadge "received").
Proof.
  split; [|split; [|split; [|split; [|split]]]]; try reflexivity; try discriminate.
  - intros Hin. destruct (find_badge status Hin) as [b [Hf Hb]].
    exists b. split; [exact Hb|]. unfold Badges.getStatusBadge. now rewrite Hf.
  - intros Hout Hown.
    assert (Badges.getStatusBadge status = Badges.getStatusBadge "pending") as ->.
    { unfold Badges.getStatusBadge at 1.
      destruct (List.find (fun entry => String.eqb (fst entry) status) Badges.badges)
        as [[k b]|] eqn:Hf.
      - apply find_some in Hf as [Hb Hk]. apply String.eqb_eq in Hk. cbn [fst] in Hk.
        subst k. exfalso. apply Hout. apply in_map_iff. now exists (status, b).
      - destruct (existsb (String.eqb status) Badges.inherited) eqn:He; [|reflexivity].
        apply existsb_exists in He as [n [Hn He]]. apply String.eqb_eq in He. now subst n. }
    repeat split.
  - intros Hin.
    repeat (destruct Hin as [<- | Hin]; [reflexivity|]). destruct Hin.
Qed.

Lemma getStatusBadge_fallback_witness :
  Badges.getStatusBadge "cancelled" = Badges.getStatusBadge "pending" /\
  Badges.getStatusBadge "toString" = None.
Proof.
  destruct (getStatusBadge_fallback "cancelled") as [_ [Hother _]].
  destruct (getStatusBadge_fallback "toString") as [_ [_ [Hown _]]].
  split.
  - apply Hother.
    + intros Hin. repeat (destruct Hin as [Hin | Hin]; [discriminate Hin|]). destruct Hin.
    + intros Hin. repeat (destruct Hin as [Hin | Hin]; [discriminate Hin|]). destruct Hin.
  - apply Hown. vm_compute. tauto.
Defined.

Lemma after_cell_no_quote (t r : string) : after_cell t -> t <> String Csv.dq r.
Proof. intros [-> | [r' ->]]; discriminate. Qed.

Lemma escaped_cell_ends (c1 c2 t1 t2 : string) :
  after_cell t1 -> after_cell t2 ->
  (Csv.escaped c1 ++ String Csv.dq t1 = Csv.escaped c2 ++ String Csv.dq t2)%string ->
  c1 = c2 /\ t1 = t2.
Proof.
  intros H1 H2. revert c2.
  induction c1 as [|x c1 IH]; intros [|y c2]; cbn [Csv.escaped]; push_append.
  - intros [= ->]. now split.
  - destruct (Ascii.eqb y Csv.dq) eqn:Hy; push_append.
    + intros [= Heq]. now apply after_cell_no_quote in Heq.
    + intros [= Heq _]. subst y. discriminate Hy.
  - destruct (Ascii.eqb x Csv.dq) eqn:Hx; push_append.
    + intros [= Heq]. symmetry in Heq. now apply after_cell_no_quote in Heq.
    + intros [= Heq _]. subst x. discriminate Hx.
  - destruct (Ascii.eqb x Csv.dq) eqn:Hx, (Ascii.eqb y Csv.dq) eqn:Hy; push_append.
    + apply Ascii.eqb_eq in Hx, Hy. subst x y.
      intros [= Heq]. destruct (IH _ Heq) as [-> ->]. now split.
    + intros [= Heq _]. subst y. discriminate Hy.
    + intros [= Heq _]. subst x. discriminate Hx.
    + intros [= -> Heq]. destruct (IH _ Heq) as [-> ->]. now split.
Qed.

Lemma join_cons (x : string) (rest : list string) :
  exists t, Csv.join "," (x :: rest) = (x ++ t)%string /\
            after_cell t /\
            (rest = [] -> t = "") /\
            (rest <> [] -> t = String "," (Csv.join "," rest)).
Proof.
  destruct rest as [|y rest].
  - exists "". cbn [Csv.join]. rewrite append_empty_r.
    repeat split; [now left | congruence].
  - exists (String "," (Csv.join "," (y :: rest))).
    repeat split; [right; now eexists | discriminate].
Qed.

Lemma csvCell_shape (s t : string) :
  ((String Csv.dq (Csv.escaped s ++ String Csv.dq "")) ++ t
   = String Csv.dq (Csv.escaped s ++ String Csv.dq t))%string.
Proof. push_append. now rewrite append_assoc. Qed.

Lemma csv_texts_apart (cells1 cells2 : list string) :
  Csv.join "," (map (fun s => Csv.csvCell (Some s)) cells1)
  = Csv.join "," (map (fun s => Csv.csvCell (Some s)) cells2) ->
  cells1 = cells2.
Proof.
  revert cells2. induction cells1 as [|c1 r1 IH]; intros [|c2 r2]; cbn [map].
  - reflexivity.
  - destruct (join_cons (Csv.csvCell (Some c2)) (map (fun s => Csv.csvCell (Some s)) r2))
      as [t [-> _]]. discriminate.
  - destruct (join_cons (Csv.csvCell (Some c1)) (map (fun s => Csv.csvCell (Some s)) r1))
      as [t [-> _]]. discriminate.
  - destruct (join_cons (Csv.csvCell (Some c1)) (map (fun s => Csv.csvCell (Some s)) r1))
      as [t1 [-> [Ha1 [He1 Hn1]]]].
    destruct (join_cons (Csv.csvCell (Some c2)) (map (fun s => Csv.csvCell (Some s)) r2))
      as [t2 [-> [Ha2 [He2 Hn2]]]].
    unfold Csv.csvCell. rewrite !csvCell_shape. intros [= Heq].
    destruct (escaped_cell_ends _ _ _ _ Ha1 Ha2 Heq) as [-> Ht]. f_equal.
    destruct r1 as [|a r1], r2 as [|b r2].
    + reflexivity.
    + rewrite (He1 eq_refl), (Hn2 ltac:(discriminate)) in Ht. discriminate.
    + rewrite (Hn1 ltac:(discriminate)), (He2 eq_refl) in Ht. discriminate.
    + rewrite (Hn1 ltac:(discriminate)), (Hn2 ltac:(discriminate)) in Ht.
      injection Ht as Ht. now apply IH.
Qed.

Lemma csvLine_texts (row1 row2 : list (option string)) :
  Csv.csvLine row1 = Csv.csvLine row2 -> map cell_text row1 = map cell_text row2.
Proof.
  assert (Hline : forall row, Csv.csvLine row
            = Csv.join "," (map (fun s => Csv.csvCell (Some s)) (map cell_text row))).
  { intros row. unfold Csv.csvLine. rewrite map_map. reflexivity. }
  rewrite !Hline. apply csv_texts_apart.
Qed.

(** X22: a line of the exported CSV gives back its cells: two rows
    written as the same line have the same number of cells and the same text
    in each, whatever commas, quotes and line breaks the texts hold; only a
    [null] cell and an empty text are written alike. *)
Theorem exportToCSV_line_keeps_cells (row1 row2 : list (option string)) :
  (Csv.csvLine row1 = Csv.csvLine row2 <-> map cell_text row1 = map cell_text row2) /\
  Csv.csvCell None = Csv.csvCell (Some "").
Proof.
  split; [|reflexivity]. split; [apply csvLine_texts|].
  intros H. unfold Csv.csvLine.
  replace (map Csv.csvCell row1)
    with (map (fun s => Csv.csvCell (Some s)) (map cell_text row1))
    by (rewrite map_map; reflexivity).
  replace (map Csv.csvCell row2)
    with (map (fun s => Csv.csvCell (Some s)) (map cell_text row2))
    by (rewrite map_map; reflexivity).
  now rewrite H.
Qed.

Lemma append_same (a b : string) : (a ++ b = a)%string -> b = "".
Proof.
  induction a as [|c a IH]; push_append; [trivial|]. intros [= H]. now apply IH.
Qed.

(** X23: [downloadCSV] of the engineer's view writes the code, the
    description and the unit between quotes without doubling the quotes they
    hold, so its lines do not give back their cells: an item whose code ends
    in a quote, a comma, a quote and some text is written exactly as the item
    whose description starts with that text.  [exportToCSV] writes the two
    rows differently. *)
Theorem downloadCSV_cells_run_together (code x description unit numbers : string) :
  Csv.downloadLine (code ++ Csv.between ++ x) description unit numbers
  = Csv.downloadLine code (x ++ Csv.between ++ description) unit numbers
  /\ Csv.csvLine [Some (code ++ Csv.between ++ x); Some description; Some unit]
     <> Csv.csvLine [Some code; Some (x ++ Csv.between ++ description); Some unit].
Proof.
  split.
  - unfold Csv.downloadLine. push_append. now rewrite !append_assoc.
  - intros H. apply csvLine_texts in H. cbn [map cell_text] in H.
    injection H as H _. now apply append_same in H.
Qed.
